(** * Verification of the document processor and the reconciliation engine

    Shallow embedding of [src/src/ai_models/reconciliation_engine.py],
    [src/src/ai_models/document_processor.py] and of the transaction store
    writes of [src/src/core/supabase_manager.py].

    Modelling conventions.
    - Python [str] is [string] (ASCII); [str.lower] is [lower].
    - Python [float] amounts are modelled as rationals [Q]; a [float(...)]
      conversion that raises (e.g. on [None]) is [None : option Q].
    - Dates are day numbers [Z]; [_parse_date] returning [None] is [None].
    - Exceptions are the [Err] case of [result]; [try/except] is a match. *)

From Stdlib Require Import String Ascii List Bool Arith Lia ZArith QArith Qabs Qminmax Lqa.
From Stdlib Require Import Sorted Permutation.
Import ListNotations.
Open Scope string_scope.

(* ------------------------------------------------------------------ *)
(** ** Python string helpers *)

Definition lower_ascii (c : ascii) : ascii :=
  let n := nat_of_ascii c in
  if ((65 <=? n) && (n <=? 90))%nat then ascii_of_nat (n + 32)%nat else c.

(** [str.lower] *)
Fixpoint lower (s : string) : string :=
  match s with
  | EmptyString => EmptyString
  | String c s' => String (lower_ascii c) (lower s')
  end.

(** [str.startswith] *)
Fixpoint prefixb (p s : string) : bool :=
  match p, s with
  | EmptyString, _ => true
  | String c p', String d s' => Ascii.eqb c d && prefixb p' s'
  | String _ _, EmptyString => false
  end.

(** [kw in s] *)
Fixpoint contains (s kw : string) : bool :=
  prefixb kw s ||
  match s with
  | EmptyString => false
  | String _ s' => contains s' kw
  end.

(** [str.isspace] on one ASCII character: \t \n \v \f \r, \x1c-\x1f, space.
    This is also the class [\s] of Python's [re] on [str] patterns. *)
Definition is_space (c : ascii) : bool :=
  let n := nat_of_ascii c in
  (((9 <=? n) && (n <=? 13)) || ((28 <=? n) && (n <=? 32)))%nat.

Definition is_digit (c : ascii) : bool :=
  let n := nat_of_ascii c in ((48 <=? n) && (n <=? 57))%nat.

Definition is_lower_alpha (c : ascii) : bool :=
  let n := nat_of_ascii c in ((97 <=? n) && (n <=? 122))%nat.

Definition is_alpha (c : ascii) : bool := is_lower_alpha (lower_ascii c).

Fixpoint lstrip (s : string) : string :=
  match s with
  | EmptyString => EmptyString
  | String c s' => if is_space c then lstrip s' else s
  end.

Fixpoint rev_str (s acc : string) : string :=
  match s with
  | EmptyString => acc
  | String c s' => rev_str s' (String c acc)
  end.

(** [str.strip()] *)
Definition strip (s : string) : string :=
  rev_str (lstrip (rev_str (lstrip s) EmptyString)) EmptyString.

Definition is_emptyb (s : string) : bool :=
  match s with EmptyString => true | _ => false end.

Definition memb (x : string) (l : list string) : bool :=
  existsb (String.eqb x) l.

(* ------------------------------------------------------------------ *)
(** ** Exceptions, and the state/exception monad of the async engine *)

Inductive result (A : Type) : Type :=
| Ok (a : A)
| Err (msg : string).
Arguments Ok {A} a.
Arguments Err {A} msg.

(** Rows of the three tables the engine writes. *)
Record stmt_row := mk_stmt_row { rs_id : string; rs_is_matched : bool }.
Record bus_row := mk_bus_row { rb_id : string; rb_status : string }.

(** [reconciliation_data] of [_create_reconciliation_record]. *)
Record recon_data := mk_recon_data {
  rd_statement_transaction_id : string;
  rd_business_transaction_id : string;
  rd_business_transaction_type : string;
  rd_match_type : string;
  rd_confidence_score : Q;
  rd_reconciled_by : string }.

Record db := mk_db {
  reconciliation_records : list recon_data;
  statement_transactions : list stmt_row;
  outgoing_transactions : list bus_row;
  incoming_transactions : list bus_row }.

(** The world: the store, the outcome of each future store call ([false]:
    the call raises; an exhausted list means every call succeeds) and the
    lines printed on stdout. *)
Record world := mk_world { w_db : db; w_outcomes : list bool; w_stdout : list string }.

Definition M (A : Type) : Type := world -> result A * world.

Definition ret {A} (a : A) : M A := fun w => (Ok a, w).
Definition bind {A B} (m : M A) (f : A -> M B) : M B :=
  fun w => match m w with
           | (Ok a, w') => f a w'
           | (Err e, w') => (Err e, w')
           end.
Definition raise {A} (msg : string) : M A := fun w => (Err msg, w).

(** [try: m  except Exception as e: h e] *)
Definition try_except {A} (m : M A) (h : string -> M A) : M A :=
  fun w => match m w with
           | (Ok a, w') => (Ok a, w')
           | (Err e, w') => h e w'
           end.

Notation "x <- m ;; k" := (bind m (fun x => k)) (at level 61, m at next level, right associativity).
Notation "m ;;; k" := (bind m (fun _ => k)) (at level 61, right associativity).

Definition print (line : string) : M unit :=
  fun w => (Ok tt, mk_world (w_db w) (w_outcomes w) (app (w_stdout w) [line])).

(** One round trip to the store: consumes the next outcome. *)
Definition next_outcome : M bool :=
  fun w => match w_outcomes w with
           | [] => (Ok true, w)
           | b :: bs => (Ok b, mk_world (w_db w) bs (w_stdout w))
           end.

Definition modify_db (f : db -> db) : M unit :=
  fun w => (Ok tt, mk_world (f (w_db w)) (w_outcomes w) (w_stdout w)).

(** [client.table(t).<op>(...).execute()]: raises when the call fails. *)
Definition execute (f : db -> db) : M unit :=
  ok <- next_outcome ;;
  if ok then modify_db f else raise "APIError".

(* ------------------------------------------------------------------ *)
(** ** [TransactionManager] writes (supabase_manager.py) *)

Definition set_bus_status (id status : string) (rows : list bus_row) : list bus_row :=
  map (fun r => if String.eqb (rb_id r) id then mk_bus_row (rb_id r) status else r) rows.

Definition set_stmt_matched (id : string) (m : bool) (rows : list stmt_row) : list stmt_row :=
  map (fun r => if String.eqb (rs_id r) id then mk_stmt_row (rs_id r) m else r) rows.

Definition update_table (table id status : string) (d : db) : db :=
  if String.eqb table "outgoing_transactions" then
    mk_db (reconciliation_records d) (statement_transactions d)
          (set_bus_status id status (outgoing_transactions d)) (incoming_transactions d)
  else if String.eqb table "incoming_transactions" then
    mk_db (reconciliation_records d) (statement_transactions d)
          (outgoing_transactions d) (set_bus_status id status (incoming_transactions d))
  else d.

Definition insert_record (r : recon_data) (d : db) : db :=
  mk_db (app (reconciliation_records d) [r]) (statement_transactions d)
        (outgoing_transactions d) (incoming_transactions d).

Definition update_statement_rows (id : string) (m : bool) (d : db) : db :=
  mk_db (reconciliation_records d) (set_stmt_matched id m (statement_transactions d))
        (outgoing_transactions d) (incoming_transactions d).

(** [TransactionManager.update_transaction_reconciliation_status] *)
Definition update_transaction_reconciliation_status (table id status : string) : M unit :=
  try_except (execute (update_table table id status))
    (fun e => raise ("Error updating transaction reconciliation status: " ++ e)).

(** [TransactionManager.update_statement_transaction_match] *)
Definition update_statement_transaction_match (id : string) (m : bool) : M unit :=
  try_except (execute (update_statement_rows id m))
    (fun e => raise ("Error updating statement transaction match: " ++ e)).

(** [TransactionManager.create_reconciliation]: insert, then flip the
    business row, then flip the statement row. *)
Definition create_reconciliation (r : recon_data) : M unit :=
  try_except
    (execute (insert_record r) ;;;
     (if String.eqb (rd_business_transaction_type r) "outgoing" then
        update_transaction_reconciliation_status "outgoing_transactions"
          (rd_business_transaction_id r) "matched"
      else if String.eqb (rd_business_transaction_type r) "incoming" then
        update_transaction_reconciliation_status "incoming_transactions"
          (rd_business_transaction_id r) "matched"
      else ret tt) ;;;
     update_statement_transaction_match (rd_statement_transaction_id r) true)
    (fun e => raise ("Error creating reconciliation: " ++ e)).

(* ------------------------------------------------------------------ *)
(** ** Transactions and matches (reconciliation_engine.py) *)

(** A statement transaction row.  [st_amount] is [float(t.get('amount', 0))]
    ([None] when the conversion raises); [st_transaction_date] is
    [_parse_date(t.get('transaction_date'))]; [st_transaction_type] is
    [t.get('transaction_type', '')] ([None] for a stored null). *)
Record statement_trans := mk_statement_trans {
  st_id : string;
  st_amount : option Q;
  st_transaction_date : option Z;
  st_transaction_type : option string;
  st_description : string }.

Record business_trans := mk_business_trans {
  bt_id : string;
  bt_amount : option Q;
  bt_transaction_date : option Z;
  bt_description : string;
  bt_vendor_name : string }.

Record match_rec := mk_match {
  m_statement_transaction : statement_trans;
  m_business_transaction : business_trans;
  m_business_transaction_type : string;
  m_confidence_score : Q;
  m_match_type : string }.

(** [t.get('transaction_type', '').lower() != expected]; a null type makes
    [.lower()] raise, which [is_match] turns into [False]. *)
Definition type_is (ty : option string) (expected : string) : bool :=
  match ty with
  | Some t => String.eqb (lower t) expected
  | None => false
  end.

(** [ExactMatcher.is_match] *)
Definition exact_is_match (s : statement_trans) (b : business_trans) (business_type : string) : bool :=
  match st_amount s, bt_amount b with
  | Some sa, Some ba =>
      let stmt_amount := Qabs sa in
      if Qlt_le_dec (1 # 100) (Qabs (stmt_amount - ba)) then false
      else
        match st_transaction_date s, bt_transaction_date b with
        | Some sd, Some bd =>
            let date_diff := Z.abs (sd - bd) in
            if Z.ltb 3 date_diff then false
            else if String.eqb business_type "outgoing" && negb (type_is (st_transaction_type s) "debit")
            then false
            else if String.eqb business_type "incoming" && negb (type_is (st_transaction_type s) "credit")
            then false
            else true
        | _, _ => false
        end
  | _, _ => false
  end.

(** [_create_reconciliation_record] *)
Definition reconciliation_data (m : match_rec) : recon_data :=
  mk_recon_data (st_id (m_statement_transaction m)) (bt_id (m_business_transaction m))
    (m_business_transaction_type m) (m_match_type m) (m_confidence_score m) "system".

Definition create_reconciliation_record (m : match_rec) : M unit :=
  try_except (create_reconciliation (reconciliation_data m))
    (fun e => print ("Warning: Could not create reconciliation record: " ++ e)).

(** Inner loop of [_run_exact_matching]: the first business transaction not
    yet consumed that [is_match] accepts ([break] after it). *)
Fixpoint find_business (business_type : string) (s : statement_trans)
    (bs : list business_trans) (matched_business : list string) : option business_trans :=
  match bs with
  | [] => None
  | b :: bs' =>
      if memb (bt_id b) matched_business then find_business business_type s bs' matched_business
      else if exact_is_match s b business_type then Some b
      else find_business business_type s bs' matched_business
  end.

(** One outer loop of [_run_exact_matching] over [statements], with the
    sets [matched_statements], [matched_business] and the list
    [results['exact_matches']] threaded through. *)
Fixpoint exact_loop (business_type : string) (bs : list business_trans)
    (stmts : list statement_trans) (matched_statements matched_business : list string)
    (acc : list match_rec) : M (list string * list string * list match_rec) :=
  match stmts with
  | [] => ret (matched_statements, matched_business, acc)
  | s :: ss =>
      if memb (st_id s) matched_statements then
        exact_loop business_type bs ss matched_statements matched_business acc
      else
        match find_business business_type s bs matched_business with
        | None => exact_loop business_type bs ss matched_statements matched_business acc
        | Some b =>
            let m := mk_match s b business_type 1 "exact" in
            create_reconciliation_record m ;;;
            exact_loop business_type bs ss (app matched_statements [st_id s])
              (app matched_business [bt_id b]) (app acc [m])
        end
  end.

(* ------------------------------------------------------------------ *)
(** ** [FuzzyMatcher] *)

(** [s.replace(old, new)] for a non-empty [old]: left to right,
    non-overlapping; [skip] counts the characters of an occurrence already
    replaced. *)
Fixpoint replace_go (old new s : string) (skip : nat) : string :=
  match s with
  | EmptyString => EmptyString
  | String c s' =>
      match skip with
      | S k => replace_go old new s' k
      | O => if prefixb old s then new ++ replace_go old new s' (String.length old - 1)
             else String c (replace_go old new s' 0)
      end
  end.

Definition replace (old new s : string) : string := replace_go old new s 0.

Definition banking_terms : list string :=
  ["debit"; "credit"; "purchase"; "payment"; "transfer"; "withdrawal"].

(** [re.sub(r'[^a-z0-9\s]', ' ', s)] *)
Fixpoint sub_non_alnum (s : string) : string :=
  match s with
  | EmptyString => EmptyString
  | String c s' =>
      if is_lower_alpha c || is_digit c || is_space c then String c (sub_non_alnum s')
      else String " " (sub_non_alnum s')
  end.

(** [re.sub(r'\s+', ' ', s)]; [in_ws] is true inside a run already replaced. *)
Fixpoint collapse_ws (s : string) (in_ws : bool) : string :=
  match s with
  | EmptyString => EmptyString
  | String c s' =>
      if is_space c then (if in_ws then collapse_ws s' true else String " " (collapse_ws s' true))
      else String c (collapse_ws s' false)
  end.

(** [FuzzyMatcher._clean_description] *)
Definition clean_description (description : string) : string :=
  if is_emptyb description then ""
  else
    let cleaned := lower description in
    let cleaned := fold_left (fun acc term => replace term "" acc) banking_terms cleaned in
    let cleaned := sub_non_alnum cleaned in
    strip (collapse_ws cleaned false).

Section Fuzzy.
(** [difflib.SequenceMatcher(None, a, b).ratio()] (library code). *)
Variable ratio : string -> string -> Q.

(** [FuzzyMatcher._calculate_similarity] *)
Definition calculate_similarity (text1 text2 : string) : Q :=
  if is_emptyb text1 || is_emptyb text2 then 0 else ratio text1 text2.

(** The [text_similarity] of [FuzzyMatcher.is_match]. *)
Definition text_similarity (s : statement_trans) (b : business_trans) : Q :=
  let stmt_desc := clean_description (st_description s) in
  let business_desc := clean_description (bt_description b) in
  let vendor_similarity :=
    if is_emptyb (bt_vendor_name b) then 0
    else calculate_similarity stmt_desc (clean_description (bt_vendor_name b)) in
  let desc_similarity := calculate_similarity stmt_desc business_desc in
  Qmax desc_similarity vendor_similarity.

(** [FuzzyMatcher.is_match] with [self.similarity_threshold = threshold].
    A zero [max(stmt_amount, business_amount)] raises [ZeroDivisionError],
    caught into [(False, 0.0)]. *)
Definition fuzzy_is_match (threshold : Q) (s : statement_trans) (b : business_trans)
    (business_type : string) : bool * Q :=
  match st_amount s, bt_amount b with
  | Some sa, Some business_amount =>
      let stmt_amount := Qabs sa in
      let denom := Qmax stmt_amount business_amount in
      if Qeq_bool denom 0 then (false, 0)
      else
        let amount_diff_pct := Qabs (stmt_amount - business_amount) / denom in
        if Qlt_le_dec (5 # 100) amount_diff_pct then (false, 0)
        else
          match st_transaction_date s, bt_transaction_date b with
          | Some sd, Some bd =>
              let date_diff := Z.abs (sd - bd) in
              if Z.ltb 7 date_diff then (false, 0)
              else
                let amount_score := 1 - amount_diff_pct in
                let date_score := Qmax 0 (1 - inject_Z date_diff / 7) in
                let text_score := text_similarity s b in
                let confidence := amount_score * (4 # 10) + date_score * (2 # 10)
                                  + text_score * (4 # 10) in
                (Qle_bool threshold confidence, confidence)
          | _, _ => (false, 0)
          end
  | _, _ => (false, 0)
  end.
End Fuzzy.

(** [FuzzyMatcher.__init__] default. *)
Definition default_similarity_threshold : Q := 8 # 10.

(* ------------------------------------------------------------------ *)
(** ** [ReconciliationEngine] *)

Record results := mk_results {
  exact_matches : list match_rec;
  fuzzy_matches : list match_rec;
  amount_matches : list match_rec;
  date_matches : list match_rec;
  unmatched_statements : list statement_trans;
  unmatched_business : list business_trans }.

Definition empty_results : results := mk_results [] [] [] [] [] [].

Definition set_exact_matches (r : results) (l : list match_rec) : results :=
  mk_results l (fuzzy_matches r) (amount_matches r) (date_matches r)
    (unmatched_statements r) (unmatched_business r).

(** [_run_exact_matching]: the outgoing loop, then the incoming loop, sharing
    [matched_statements] and [matched_business]. *)
Definition run_exact_matching (statements : list statement_trans)
    (outgoing incoming : list business_trans) (r : results) : M results :=
  p <- exact_loop "outgoing" outgoing statements [] [] (exact_matches r) ;;
  let '(ms, mb, acc) := p in
  q <- exact_loop "incoming" incoming statements ms mb acc ;;
  let '(_, _, acc') := q in
  ret (set_exact_matches r acc').

(** [_run_fuzzy_matching]: builds the available lists and stops there. *)
Definition run_fuzzy_matching (statements : list statement_trans)
    (outgoing incoming : list business_trans) (r : results) : M results :=
  let matched_stmt_ids := map (fun m => st_id (m_statement_transaction m)) (exact_matches r) in
  let matched_business_ids := map (fun m => bt_id (m_business_transaction m)) (exact_matches r) in
  let _available_statements := filter (fun s => negb (memb (st_id s) matched_stmt_ids)) statements in
  let _available_outgoing := filter (fun o => negb (memb (bt_id o) matched_business_ids)) outgoing in
  let _available_incoming := filter (fun i => negb (memb (bt_id i) matched_business_ids)) incoming in
  ret r.

(** [_run_amount_matching] and [_run_date_matching]: [pass]. *)
Definition run_amount_matching (statements : list statement_trans)
    (outgoing incoming : list business_trans) (r : results) : M results := ret r.
Definition run_date_matching (statements : list statement_trans)
    (outgoing incoming : list business_trans) (r : results) : M results := ret r.

Record summary := mk_summary {
  total_matches_found : nat;
  sum_exact_matches : nat;
  sum_fuzzy_matches : nat;
  sum_amount_matches : nat;
  sum_date_matches : nat;
  sum_unmatched_statements : nat;
  sum_unmatched_business_transactions : nat;
  reconciliation_rate : Q }.

(** Python's true division [a / b]. *)
Definition py_div (a b : Q) : result Q :=
  if Qeq_bool b 0 then Err "ZeroDivisionError: division by zero" else Ok (a / b).

(** [_generate_summary] *)
Definition generate_summary (r : results) : result summary :=
  let total_matches := (length (exact_matches r) + length (fuzzy_matches r)
                        + length (amount_matches r) + length (date_matches r))%nat in
  let rate :=
    if (0 <? total_matches)%nat
    then py_div (inject_Z (Z.of_nat total_matches))
                (inject_Z (Z.of_nat (total_matches + length (unmatched_statements r))))
    else Ok 0 in
  match rate with
  | Err e => Err e
  | Ok rate =>
      Ok (mk_summary total_matches (length (exact_matches r)) (length (fuzzy_matches r))
            (length (amount_matches r)) (length (date_matches r))
            (length (unmatched_statements r)) (length (unmatched_business r)) rate)
  end.

(** [run_reconciliation] after [get_unreconciled_transactions] and the
    optional [_filter_by_date]: the arguments are the lists they return. *)
Definition run_reconciliation (statements : list statement_trans)
    (outgoing incoming : list business_trans) : M (results * summary) :=
  try_except
    (r <- run_exact_matching statements outgoing incoming empty_results ;;
     r <- run_fuzzy_matching statements outgoing incoming r ;;
     r <- run_amount_matching statements outgoing incoming r ;;
     r <- run_date_matching statements outgoing incoming r ;;
     match generate_summary r with
     | Ok s => ret (r, s)
     | Err e => raise e
     end)
    (fun e => raise ("Error running reconciliation: " ++ e)).

(** All matches of one run, every strategy. *)
Definition all_matches (r : results) : list match_rec :=
  app (exact_matches r) (app (fuzzy_matches r) (app (amount_matches r) (date_matches r))).

(* ------------------------------------------------------------------ *)
(** ** [DocumentProcessor._classify_document_advanced] *)

(** [sum(1 for keyword in keywords if keyword in text_lower)] *)
Definition count_keywords (keywords : list string) (text_lower : string) : nat :=
  length (filter (contains text_lower) keywords).

Definition invoice_keywords : list string :=
  ["invoice"; "bill to"; "due date"; "subtotal"; "tax"; "total amount"].
Definition bank_keywords : list string :=
  ["bank statement"; "balance"; "deposit"; "debit"; "credit"; "account"].
Definition check_keywords : list string :=
  ["check"; "pay to"; "dollars"; "routing number"].
Definition sales_keywords : list string :=
  ["sales report"; "daily sales"; "units"; "payment methods"].
Definition receipt_keywords : list string :=
  ["receipt"; "total"; "cash"; "credit card"; "thank you"].

Definition classify_document_advanced (text : string) : string :=
  if is_emptyb text || prefixb "[" text then "unknown"
  else
    let text_lower := lower text in
    if (2 <=? count_keywords invoice_keywords text_lower)%nat then "invoice"
    else if (2 <=? count_keywords bank_keywords text_lower)%nat then "bank_statement"
    else if (2 <=? count_keywords check_keywords text_lower)%nat then "check"
    else if (2 <=? count_keywords sales_keywords text_lower)%nat then "sales_report"
    else if (2 <=? count_keywords receipt_keywords text_lower)%nat then "receipt"
    else "general_document".

(* ------------------------------------------------------------------ *)
(** ** The regular expressions of the field extractors

    Every pattern of the extractors is a sequence of quantified character
    classes, one group spanning a contiguous run of them.  [match_at] is
    Python's backtracking matcher on such a sequence (greedy: the largest
    repetition count is tried first, then one less, ...), [search] is
    [re.search] (leftmost start position first). *)

Inductive quant := One | Opt | Star | Plus.

Record atom := mk_atom { a_cls : ascii -> bool; a_q : quant; a_cap : bool }.

Fixpoint run_len (p : ascii -> bool) (s : string) : nat :=
  match s with
  | EmptyString => 0
  | String c s' => if p c then S (run_len p s') else 0
  end%nat.

Fixpoint str_take (k : nat) (s : string) : string :=
  match k, s with
  | O, _ => EmptyString
  | S k', String c s' => String c (str_take k' s')
  | S _, EmptyString => EmptyString
  end.

Fixpoint str_drop (k : nat) (s : string) : string :=
  match k, s with
  | O, _ => s
  | S k', String _ s' => str_drop k' s'
  | S _, EmptyString => EmptyString
  end.

(** (minimum, maximum) repetition count when [n] characters of the class
    are available. *)
Definition bounds (q : quant) (n : nat) : nat * nat :=
  match q with
  | One => (1, Nat.min 1 n)
  | Opt => (0, Nat.min 1 n)
  | Star => (0, n)
  | Plus => (1, n)
  end%nat.

(** Try the counts [k], [k-1], ..., [lo]. *)
Fixpoint greedy (f : nat -> option string) (k lo : nat) : option string :=
  if (k <? lo)%nat then None
  else
    match f k with
    | Some g => Some g
    | None => match k with O => None | S k' => greedy f k' lo end
    end.

(** The text captured by group 1 when the pattern matches at the start. *)
Fixpoint match_at (atoms : list atom) (s : string) : option string :=
  match atoms with
  | [] => Some EmptyString
  | a :: rest =>
      let '(lo, hi) := bounds (a_q a) (run_len (a_cls a) s) in
      greedy (fun k => match match_at rest (str_drop k s) with
                       | Some g => Some (if a_cap a then str_take k s ++ g else g)
                       | None => None
                       end) hi lo
  end.

(** [re.search(pattern, s).group(1)] *)
Fixpoint search (atoms : list atom) (s : string) : option string :=
  match match_at atoms s with
  | Some g => Some g
  | None => match s with EmptyString => None | String _ s' => search atoms s' end
  end.

(** A literal under [re.IGNORECASE]. *)
Definition ci_char (c : ascii) : ascii -> bool :=
  fun d => Ascii.eqb (lower_ascii d) (lower_ascii c).

Fixpoint lit (w : string) : list atom :=
  match w with
  | EmptyString => []
  | String c w' => mk_atom (ci_char c) One false :: lit w'
  end.

Definition star (p : ascii -> bool) : atom := mk_atom p Star false.
Definition plus (p : ascii -> bool) : atom := mk_atom p Plus false.
Definition opt (c : ascii) : atom := mk_atom (ci_char c) Opt false.

(** [r'[A-Z0-9-]'] under [re.IGNORECASE] *)
Definition id_class (c : ascii) : bool := is_alpha c || is_digit c || Ascii.eqb c "-".
(** [r'[^\n]'] *)
Definition not_newline (c : ascii) : bool := negb (Ascii.eqb c "010").
(** [r'[\d,]'] *)
Definition amount_class (c : ascii) : bool := is_digit c || Ascii.eqb c ",".
(** [r'[X*\d-]'] under [re.IGNORECASE] *)
Definition account_class (c : ascii) : bool :=
  Ascii.eqb (lower_ascii c) "x" || Ascii.eqb c "*" || is_digit c || Ascii.eqb c "-".

(** [r'\$?([\d,]+\.?\d*' + ')'] *)
Definition money_tail : list atom :=
  [opt "$"; mk_atom amount_class Plus true; mk_atom (ci_char ".") Opt true;
   mk_atom is_digit Star true].

(** [r'invoice\s*#?:?\s*([A-Z0-9-]+)'] *)
Definition invoice_re : list atom :=
  lit "invoice" ++ [star is_space; opt "#"; opt ":"; star is_space; mk_atom id_class Plus true].
(** [r'from:?\s*\n?([^\n]+)'] *)
Definition from_re : list atom :=
  lit "from" ++ [opt ":"; star is_space; opt "010"; mk_atom not_newline Plus true].
(** [r'due\s+date:?\s*([^\n]+)'] *)
Definition due_re : list atom :=
  lit "due" ++ [plus is_space] ++ lit "date" ++ [opt ":"; star is_space; mk_atom not_newline Plus true].
(** [r'total:?\s*\$?([\d,]+\.?\d*' + ')'] *)
Definition total_re : list atom := lit "total" ++ [opt ":"; star is_space] ++ money_tail.
(** [r'balance:?\s*\$?([\d,]+\.?\d*' + ')'] *)
Definition balance_re : list atom := lit "balance" ++ [opt ":"; star is_space] ++ money_tail.
(** [r'account\s*#?:?\s*([X*\d-]+)'] *)
Definition account_re : list atom :=
  lit "account" ++ [star is_space; opt "#"; opt ":"; star is_space; mk_atom account_class Plus true].
(** [r'check\s*#?:?\s*(\d+)'] *)
Definition check_re : list atom :=
  lit "check" ++ [star is_space; opt "#"; opt ":"; star is_space; mk_atom is_digit Plus true].
(** [r'pay\s+to:?\s*([^\n]+)'] *)
Definition payto_re : list atom :=
  lit "pay" ++ [plus is_space] ++ lit "to" ++ [opt ":"; star is_space; mk_atom not_newline Plus true].
(** [r'amount:?\s*\$?([\d,]+\.?\d*' + ')'] *)
Definition amount_re : list atom := lit "amount" ++ [opt ":"; star is_space] ++ money_tail.
(** [r'location:?\s*([^\n]+)'] *)
Definition location_re : list atom :=
  lit "location" ++ [opt ":"; star is_space; mk_atom not_newline Plus true].

(* ------------------------------------------------------------------ *)
(** ** Field extractors *)

(** A Python [dict] built by fresh-key assignments, in insertion order. *)
Definition fields := list (string * string).

Definition set_field (k : string) (v : option string) (f : fields) : fields :=
  match v with Some v => app f [(k, v)] | None => f end.

Fixpoint lookup (k : string) (f : fields) : option string :=
  match f with
  | [] => None
  | (k', v) :: f' => if String.eqb k k' then Some v else lookup k f'
  end.

(** [s.split(sep)] *)
Fixpoint split_on (sep : ascii) (s : string) : list string :=
  match s with
  | EmptyString => [EmptyString]
  | String c s' =>
      if Ascii.eqb c sep then EmptyString :: split_on sep s'
      else match split_on sep s' with
           | [] => [String c EmptyString]
           | l :: ls => String c l :: ls
           end
  end.

Definition extract_invoice_fields (text : string) : fields :=
  let f := set_field "invoice_number" (search invoice_re text) [] in
  let f := set_field "vendor_name" (option_map strip (search from_re text)) f in
  let f := set_field "due_date" (option_map strip (search due_re text)) f in
  set_field "total_amount" (search total_re text) f.

Definition extract_bank_statement_fields (text : string) : fields :=
  let f := set_field "balance" (search balance_re text) [] in
  set_field "account_number" (search account_re text) f.

Definition extract_check_fields (text : string) : fields :=
  let f := set_field "check_number" (search check_re text) [] in
  let f := set_field "pay_to" (option_map strip (search payto_re text)) f in
  set_field "amount" (search amount_re text) f.

Definition extract_sales_report_fields (text : string) : fields :=
  let f := set_field "location" (option_map strip (search location_re text)) [] in
  set_field "total_sales" (search total_re text) f.

Definition extract_receipt_fields (text : string) : fields :=
  let lines := split_on "010" text in
  let f := match lines with
           | [] => []
           | l :: _ => [("merchant_name", strip l)]
           end in
  let f := set_field "total_amount" (search total_re text) f in
  let payment_method :=
    if contains (lower text) "cash" then Some "Cash"
    else if contains (lower text) "credit" then Some "Credit Card"
    else if contains (lower text) "debit" then Some "Debit Card"
    else None in
  set_field "payment_method" payment_method f.

(** [DocumentProcessor._extract_structured_fields] *)
Definition extract_structured_fields (text doc_type : string) : fields :=
  if String.eqb doc_type "invoice" then extract_invoice_fields text
  else if String.eqb doc_type "bank_statement" then extract_bank_statement_fields text
  else if String.eqb doc_type "check" then extract_check_fields text
  else if String.eqb doc_type "sales_report" then extract_sales_report_fields text
  else if String.eqb doc_type "receipt" then extract_receipt_fields text
  else [].

(* ------------------------------------------------------------------ *)
(** ** [DocumentProcessor._extract_text_advanced] *)

Record extraction := mk_extraction { ex_text : string; ex_confidence : Q; ex_method : string }.

(** [str.rfind(c)] *)
Fixpoint rfind_go (c : ascii) (s : string) (pos : nat) (found : option nat) : option nat :=
  match s with
  | EmptyString => found
  | String d s' => rfind_go c s' (S pos) (if Ascii.eqb c d then Some pos else found)
  end.

(** [PurePosixPath(p).name]: the last component, with empty and [.]
    components dropped. *)
Definition path_name (p : string) : string :=
  last (filter (fun c => negb (String.eqb c "" || String.eqb c ".")) (split_on "/" p)) "".

(** [PurePath.suffix]: [i = name.rfind('.')]; [name[i:]] if
    [0 < i < len(name) - 1], else [''] *)
Definition path_suffix (p : string) : string :=
  let name := path_name p in
  match rfind_go "." name 0 None with
  | Some i => if (0 <? i) && (i <? String.length name - 1) then str_drop i name else ""
  | None => ""
  end%nat.

Definition image_extensions : list string := [".jpg"; ".jpeg"; ".png"; ".bmp"; ".tiff"; ".tif"].
Definition pdf_extensions : list string := [".pdf"].
Definition text_extensions : list string := [".txt"; ".csv"; ".json"].

Section TextExtraction.
(** The OCR, PDF and file-reading branches (I/O through Tesseract, PyPDF2,
    pdf2image and [open]). *)
Variable extract_image_text_ocr : string -> extraction.
Variable extract_pdf_text_advanced : string -> extraction.
Variable extract_text_file_content : string -> extraction.

Definition extract_text_advanced (file_path : string) : extraction :=
  let extension := lower (path_suffix file_path) in
  if memb extension image_extensions then extract_image_text_ocr file_path
  else if memb extension pdf_extensions then extract_pdf_text_advanced file_path
  else if memb extension text_extensions then extract_text_file_content file_path
  else mk_extraction ("[Unsupported file type: " ++ extension ++ "]") 0 "unsupported".
End TextExtraction.

(** The repository's sample invoice ([create_sample_documents.py]). *)
Definition nl : string := String "010" EmptyString.
Definition sample_invoice : string :=
  nl ++ "VENDOR INVOICE" ++ nl ++ nl ++
  "Invoice #: INV-2024-001" ++ nl ++
  "Date: January 15, 2024" ++ nl ++
  "Due Date: February 14, 2024" ++ nl ++ nl ++
  "Bill To:" ++ nl ++ "Dunkin' Donuts Franchise" ++ nl ++ nl ++
  "From:" ++ nl ++ "ABC Coffee Supplies Inc." ++ nl ++ nl ++
  "Description                    Qty    Unit Price    Total" ++ nl ++
  "Coffee Beans - Colombian       50 lbs    $8.50     $425.00" ++ nl ++ nl ++
  "                               Subtotal:           $955.00" ++ nl ++
  "                               Tax (6.25%):         $59.69" ++ nl ++
  "                               Total:            $1,014.69" ++ nl.

(* ------------------------------------------------------------------ *)
(** ** Spec-side definitions compared with the code *)

(** The classifier as the spec describes it (section 4.2): the classes in
    priority order with their keyword sets, the first class reaching two
    keyword hits wins. *)
Definition spec_classes : list (string * list string) :=
  [("invoice", ["invoice"; "bill to"; "due date"; "subtotal"; "tax"; "total amount"]);
   ("bank_statement", ["bank statement"; "balance"; "deposit"; "debit"; "credit"; "account"]);
   ("check", ["check"; "pay to"; "dollars"; "routing number"]);
   ("sales_report", ["sales report"; "daily sales"; "units"; "payment methods"]);
   ("receipt", ["receipt"; "total"; "cash"; "credit card"; "thank you"])].

Definition classify_spec (text : string) : string :=
  if is_emptyb text || prefixb "[" text then "unknown"
  else
    match find (fun ck => (2 <=? count_keywords (snd ck) (lower text))%nat) spec_classes with
    | Some (c, _) => c
    | None => "general_document"
    end.

(** [str.find] ([None] for [-1]). *)
Fixpoint find_from (s kw : string) (pos : nat) : option nat :=
  if prefixb kw s then Some pos
  else match s with EmptyString => None | String _ s' => find_from s' kw (S pos) end.

Definition str_find (s kw : string) : option nat := find_from s kw 0.

(** A line of text ends where the rest is empty or starts with a newline. *)
Definition line_end (rest : string) : bool := is_emptyb rest || prefixb nl rest.

Definition field_bearing_types : list string :=
  ["invoice"; "bank_statement"; "check"; "sales_report"; "receipt"].

Definition supported_extensions : list string :=
  app image_extensions (app pdf_extensions text_extensions).

(* ------------------------------------------------------------------ *)
(** ** [ReconciliationEngine._filter_by_date] *)

Section DateFilter.
Context {A : Type}.
(** [trans.get('transaction_date')] ([None] for a missing key or a null). *)
Variable transaction_date : A -> option string.
(** [datetime.fromisoformat(s).date()] as a day number ([None] when it
    raises). *)
Variable fromisoformat : string -> option Z.

Fixpoint filter_by_date (start_date end_date : Z) (transactions : list A) : list A :=
  match transactions with
  | [] => []
  | trans :: rest =>
      match transaction_date trans with
      | Some trans_date_str =>
          if is_emptyb trans_date_str then filter_by_date start_date end_date rest
          else
            match fromisoformat trans_date_str with
            | Some trans_date =>
                if (start_date <=? trans_date) && (trans_date <=? end_date)
                then trans :: filter_by_date start_date end_date rest
                else filter_by_date start_date end_date rest
            | None => filter_by_date start_date end_date rest
            end
      | None => filter_by_date start_date end_date rest
      end
  end%Z.
End DateFilter.

(* ------------------------------------------------------------------ *)
(** ** [TransactionManager.get_unreconciled_transactions] *)

(** [query.execute().data or []] of a select: one round trip to the store. *)
Definition select {A} (f : db -> A) : M A :=
  ok <- next_outcome ;;
  if ok then (fun w => (Ok (f (w_db w)), w)) else raise "APIError".

Section Unreconciled.
(** The [payment_account_id] column of each table, by row id (the engine
    neither reads nor writes it). *)
Variable statement_account outgoing_account incoming_account : string -> option string.

(** [if account_id: query = query.eq('payment_account_id', account_id)]:
    an empty id is falsy and adds no filter; a null column never equals. *)
Definition account_filter (account_id : option string) (acct : option string) : bool :=
  match account_id with
  | None => true
  | Some a =>
      if is_emptyb a then true
      else match acct with Some b => String.eqb b a | None => false end
  end.

Definition get_unreconciled_transactions (account_id : option string)
    : M (list bus_row * list bus_row * list stmt_row) :=
  try_except
    (outgoing <- select (fun d =>
        filter (fun r => String.eqb (rb_status r) "unreconciled"
                         && account_filter account_id (outgoing_account (rb_id r)))
          (outgoing_transactions d)) ;;
     incoming <- select (fun d =>
        filter (fun r => String.eqb (rb_status r) "unreconciled"
                         && account_filter account_id (incoming_account (rb_id r)))
          (incoming_transactions d)) ;;
     statements <- select (fun d =>
        filter (fun r => negb (rs_is_matched r)
                         && account_filter account_id (statement_account (rs_id r)))
          (statement_transactions d)) ;;
     ret (outgoing, incoming, statements))
    (fun e => raise ("Error fetching unreconciled transactions: " ++ e)).
End Unreconciled.

(** The three writes [create_reconciliation] makes for a record when none
    of them fails. *)
Definition record_writes (r : recon_data) (d : db) : db :=
  update_statement_rows (rd_statement_transaction_id r) true
    (update_table (rd_business_transaction_type r ++ "_transactions")
       (rd_business_transaction_id r) "matched" (insert_record r d)).

(* ------------------------------------------------------------------ *)
(** ** [AmountMatcher] and [DateMatcher] *)

(** [bind] of the exception type, for the pure matchers. *)
Definition rbind {A B} (m : result A) (f : A -> result B) : result B :=
  match m with Ok a => f a | Err e => Err e end.

(** [stmt.get('transaction_type', '').lower()]: raises on a stored null. *)
Definition lower_type (ty : option string) : result string :=
  match ty with
  | Some t => Ok (lower t)
  | None => Err "AttributeError: 'NoneType' object has no attribute 'lower'"
  end.

(** The two [continue] tests on the transaction type in [find_matches]. *)
Definition type_misaligned (business_type : string) (s : statement_trans) : result bool :=
  if String.eqb business_type "outgoing" then
    rbind (lower_type (st_transaction_type s)) (fun t => Ok (negb (String.eqb t "debit")))
  else if String.eqb business_type "incoming" then
    rbind (lower_type (st_transaction_type s)) (fun t => Ok (negb (String.eqb t "credit")))
  else Ok false.

(** [(stmt, business_trans, confidence)] *)
Definition candidate : Type := (statement_trans * business_trans * Q)%type.

Definition cand_conf (c : candidate) : Q := snd c.

(** [matches.sort(key=lambda x: x[2], reverse=True)]: stable, by decreasing
    confidence; a later element goes after the earlier ones of equal key. *)
Fixpoint insert_desc (x : candidate) (l : list candidate) : list candidate :=
  match l with
  | [] => [x]
  | y :: l' =>
      if Qlt_le_dec (cand_conf y) (cand_conf x) then x :: l else y :: insert_desc x l'
  end.

Definition sort_desc (l : list candidate) : list candidate :=
  fold_left (fun acc x => insert_desc x acc) l [].

Definition float_error : string := "ValueError: could not convert string to float".

(** Inner loop of [AmountMatcher.find_matches] for one statement. *)
Fixpoint amount_inner (amount_tolerance : Q) (business_type : string) (stmt : statement_trans)
    (stmt_amount : Q) (bs : list business_trans) : result (list candidate) :=
  match bs with
  | [] => Ok []
  | b :: bs' =>
      match bt_amount b with
      | None => Err float_error
      | Some business_amount =>
          if Qle_bool (Qabs (stmt_amount - business_amount)) amount_tolerance then
            rbind (type_misaligned business_type stmt) (fun skip =>
              if skip then amount_inner amount_tolerance business_type stmt stmt_amount bs'
              else
                let amount_diff := Qabs (stmt_amount - business_amount) in
                rbind (py_div amount_diff (Qmax stmt_amount business_amount)) (fun q =>
                  let confidence := 1 - q in
                  rbind (amount_inner amount_tolerance business_type stmt stmt_amount bs')
                    (fun rest => Ok ((stmt, b, confidence) :: rest))))
          else amount_inner amount_tolerance business_type stmt stmt_amount bs'
      end
  end.

Fixpoint amount_outer (amount_tolerance : Q) (business_type : string)
    (stmts : list statement_trans) (bs : list business_trans) : result (list candidate) :=
  match stmts with
  | [] => Ok []
  | s :: ss =>
      match st_amount s with
      | None => Err float_error
      | Some a =>
          rbind (amount_inner amount_tolerance business_type s (Qabs a) bs) (fun m1 =>
            rbind (amount_outer amount_tolerance business_type ss bs) (fun m2 => Ok (app m1 m2)))
      end
  end.

(** [AmountMatcher(amount_tolerance).find_matches] *)
Definition amount_find_matches (amount_tolerance : Q) (statements : list statement_trans)
    (business_transactions : list business_trans) (business_type : string)
    : result (list candidate) :=
  rbind (amount_outer amount_tolerance business_type statements business_transactions)
    (fun matches => Ok (sort_desc matches)).

Definition default_amount_tolerance : Q := 1 # 100.

(** Inner loop of [DateMatcher.find_matches] for one statement. *)
Fixpoint date_inner (date_tolerance_days : Z) (business_type : string) (stmt : statement_trans)
    (stmt_date : Z) (bs : list business_trans) : result (list candidate) :=
  match bs with
  | [] => Ok []
  | b :: bs' =>
      match bt_transaction_date b with
      | None => date_inner date_tolerance_days business_type stmt stmt_date bs'
      | Some business_date =>
          let date_diff := Z.abs (stmt_date - business_date) in
          if (date_diff <=? date_tolerance_days)%Z then
            rbind (type_misaligned business_type stmt) (fun skip =>
              if skip then date_inner date_tolerance_days business_type stmt stmt_date bs'
              else
                rbind (py_div (inject_Z date_diff) (inject_Z (date_tolerance_days + 1))) (fun q =>
                  let confidence := 1 - q in
                  rbind (date_inner date_tolerance_days business_type stmt stmt_date bs')
                    (fun rest => Ok ((stmt, b, confidence) :: rest))))
          else date_inner date_tolerance_days business_type stmt stmt_date bs'
      end
  end.

Fixpoint date_outer (date_tolerance_days : Z) (business_type : string)
    (stmts : list statement_trans) (bs : list business_trans) : result (list candidate) :=
  match stmts with
  | [] => Ok []
  | s :: ss =>
      match st_transaction_date s with
      | None => date_outer date_tolerance_days business_type ss bs
      | Some sd =>
          rbind (date_inner date_tolerance_days business_type s sd bs) (fun m1 =>
            rbind (date_outer date_tolerance_days business_type ss bs) (fun m2 => Ok (app m1 m2)))
      end
  end.

(** [DateMatcher(date_tolerance_days).find_matches] *)
Definition date_find_matches (date_tolerance_days : Z) (statements : list statement_trans)
    (business_transactions : list business_trans) (business_type : string)
    : result (list candidate) :=
  rbind (date_outer date_tolerance_days business_type statements business_transactions)
    (fun matches => Ok (sort_desc matches)).

Definition default_date_tolerance_days : Z := 1.

(* ------------------------------------------------------------------ *)
(** ** [DocumentProcessor._extract_financial_data] *)

(** [\w] on an ASCII character: letters, digits and [_]. *)
Definition is_word (c : ascii) : bool := is_alpha c || is_digit c || Ascii.eqb c "_".

Definition word_before (prev : option ascii) : bool :=
  match prev with Some c => is_word c | None => false end.

Definition word_after (s : string) : bool :=
  match s with String c _ => is_word c | EmptyString => false end.

(** [\b] between the character before the position ([None] at the start of
    the text) and the rest [s]. *)
Definition at_boundary (prev : option ascii) (s : string) : bool :=
  xorb (word_before prev) (word_after s).

(** The last character of [s], [d] when [s] is empty. *)
Fixpoint last_char (s : string) (d : option ascii) : option ascii :=
  match s with
  | EmptyString => d
  | String c s' => last_char s' (Some c)
  end.

(** One element of a pattern without groups: a character class repeated
    between [lo] and [hi] times ([None]: no upper bound), or [\b]. *)
Inductive pitem :=
| PRep (p : ascii -> bool) (lo : nat) (hi : option nat)
| PBound.

(** Python's backtracking match of a sequence of items at the start of [s]
    (the largest repetition count first), returning the matched text. *)
Fixpoint match_seq (items : list pitem) (prev : option ascii) (s : string) : option string :=
  match items with
  | [] => Some EmptyString
  | PBound :: rest => if at_boundary prev s then match_seq rest prev s else None
  | PRep p lo hi :: rest =>
      let n := run_len p s in
      let top := match hi with Some h => Nat.min h n | None => n end in
      greedy (fun k => match match_seq rest (last_char (str_take k s) prev) (str_drop k s) with
                       | Some g => Some (str_take k s ++ g)
                       | None => None
                       end) top lo
  end.

(** [A|B|...]: the first alternative that matches. *)
Fixpoint match_alt (alts : list (list pitem)) (prev : option ascii) (s : string) : option string :=
  match alts with
  | [] => None
  | a :: alts' =>
      match match_seq a prev s with
      | Some g => Some g
      | None => match_alt alts' prev s
      end
  end.

(** [re.findall] for a pattern without groups, scanning from left to right
    and resuming after each match.  None of the patterns below matches the
    empty string; an empty match would be kept and the scan moved on by one
    character. *)
Fixpoint findall_go (fuel : nat) (alts : list (list pitem)) (prev : option ascii) (s : string)
  : list string :=
  match fuel with
  | O => []
  | S fuel' =>
      match match_alt alts prev s with
      | Some g =>
          if (String.length g =? 0)%nat then
            g :: match s with
                 | EmptyString => []
                 | String c s' => findall_go fuel' alts (Some c) s'
                 end
          else g :: findall_go fuel' alts (last_char g prev) (str_drop (String.length g) s)
      | None =>
          match s with
          | EmptyString => []
          | String c s' => findall_go fuel' alts (Some c) s'
          end
      end
  end.

Definition findall (alts : list (list pitem)) (s : string) : list string :=
  findall_go (S (String.length s)) alts None s.

Definition chr (c : ascii) : ascii -> bool := Ascii.eqb c.

(** [r'\$[\d,]+\.?\d*'] *)
Definition amounts_pattern : list (list pitem) :=
  ([[PRep (chr "$") 1 (Some 1); PRep amount_class 1 None; PRep (chr ".") 0 (Some 1);
    PRep is_digit 0 None]])%nat.

(** [r'\b\d{1,2}[/-]\d{1,2}[/-]\d{2,4}\b|\b\w+ \d{1,2}, \d{4}\b'] *)
Definition slash_dash (c : ascii) : bool := Ascii.eqb c "/" || Ascii.eqb c "-".
Definition dates_pattern : list (list pitem) :=
  ([[PBound; PRep is_digit 1 (Some 2); PRep slash_dash 1 (Some 1); PRep is_digit 1 (Some 2);
    PRep slash_dash 1 (Some 1); PRep is_digit 2 (Some 4); PBound];
   [PBound; PRep is_word 1 None; PRep (chr " ") 1 (Some 1); PRep is_digit 1 (Some 2);
    PRep (chr ",") 1 (Some 1); PRep (chr " ") 1 (Some 1); PRep is_digit 4 (Some 4); PBound]])%nat.

(** [r'\*+[-]?\d{4}'] *)
Definition account_numbers_pattern : list (list pitem) :=
  ([[PRep (chr "*") 1 None; PRep (chr "-") 0 (Some 1); PRep is_digit 4 (Some 4)]])%nat.

(** [str(n)] for a non-negative [int]. *)
Fixpoint digits_go (fuel n : nat) (acc : string) : string :=
  match fuel with
  | O => acc
  | S fuel' =>
      let acc' := String (ascii_of_nat (48 + n mod 10)) acc in
      if (n <? 10)%nat then acc' else digits_go fuel' (n / 10) acc'
  end.

Definition str_of_nat (n : nat) : string := digits_go (S n) n "".

(** [s[a:b]] with Python's treatment of negative and out-of-range bounds. *)
Definition py_slice (s : string) (a b : Z) : string :=
  let n := Z.of_nat (String.length s) in
  let norm x := if (x <? 0)%Z then Z.max 0 (x + n) else Z.min x n in
  let st := norm a in
  let en := norm b in
  str_take (Z.to_nat (en - st)) (str_drop (Z.to_nat st) s).

(** [s.find(kw)], [-1] when absent. *)
Definition py_find (s kw : string) : Z :=
  match str_find s kw with Some i => Z.of_nat i | None => (-1)%Z end.

(** [text.lower()[text.lower().find(amount.lower())-20:text.lower().find(amount.lower())+20]] *)
Definition total_window (text amount : string) : string :=
  let i := py_find (lower text) (lower amount) in
  py_slice (lower text) (i - 20) (i + 20).

(** [for amount in reversed(amounts): if 'total' in window: ... break] *)
Fixpoint find_main_total (text : string) (rev_amounts : list string) : option string :=
  match rev_amounts with
  | [] => None
  | a :: l => if contains (total_window text a) "total" then Some a else find_main_total text l
  end.

(** The values of the [financial_data] dict. *)
Inductive fvalue := FList (l : list string) | FStr (s : string).

Definition fdict := list (string * fvalue).

Fixpoint flookup (k : string) (d : fdict) : option fvalue :=
  match d with
  | [] => None
  | (k', v) :: d' => if String.eqb k k' then Some v else flookup k d'
  end.

Definition extract_financial_data (text : string) : fdict :=
  if is_emptyb text || prefixb "[" text then []
  else
    let amounts := findall amounts_pattern text in
    let fd : fdict :=
      match amounts with
      | [] => []
      | _ :: _ =>
          let fd := [("amounts_found", FList amounts);
                     ("total_amounts", FStr (str_of_nat (length amounts)))] in
          match find_main_total text (rev amounts) with
          | Some a => app fd [("main_total", FStr a)]
          | None => fd
          end
      end in
    let dates := findall dates_pattern text in
    let fd := match dates with [] => fd | _ :: _ => app fd [("dates_found", FList dates)] end in
    let account_numbers := findall account_numbers_pattern text in
    match account_numbers with
    | [] => fd
    | _ :: _ => app fd [("account_numbers", FList account_numbers)]
    end.

Definition t1 := extract_financial_data sample_invoice.




(* ------------------------------------------------------------------ *)
(** ** [DocumentProcessor.process_document] *)

Record document_metadata := mk_document_metadata {
  document_type : string;
  confidence_score : Q;
  extracted_fields : fields;
  processing_time : Q;
  file_size : nat;
  extraction_method : string;
  text_content : string;
  financial_data : fdict;
  processing_status : string }.

Section ProcessDocument.
Variable extract_image_text_ocr : string -> extraction.
Variable extract_pdf_text_advanced : string -> extraction.
Variable extract_text_file_content : string -> extraction.
(** [(datetime.now() - start_time).total_seconds()] *)
Variable elapsed : Q.
(** [file_path.exists()] *)
Variable path_exists : string -> bool.
(** [file_path.stat().st_size]; an [OSError] it raises is [Err] with its
    message. *)
Variable stat_size : string -> result nat.

Definition process_document (file_path : string) : document_metadata :=
  let extraction_result :=
    extract_text_advanced extract_image_text_ocr extract_pdf_text_advanced
      extract_text_file_content file_path in
  let text := ex_text extraction_result in
  let doc_type := classify_document_advanced text in
  let flds := extract_structured_fields text doc_type in
  let fin := extract_financial_data text in
  let size := if path_exists file_path then stat_size file_path else Ok 0%nat in
  match size with
  | Ok n =>
      mk_document_metadata doc_type (ex_confidence extraction_result) flds elapsed n
        (ex_method extraction_result) text fin "success"
  | Err e =>
      mk_document_metadata "unknown" 0 [] elapsed 0 "error"
        ("[Processing Error: " ++ e ++ "]") [] "failed"
  end.
End ProcessDocument.

(* ------------------------------------------------------------------ *)
(** ** Shapes of strings *)

Fixpoint all_chars (p : ascii -> bool) (s : string) : bool :=
  match s with
  | EmptyString => true
  | String c s' => p c && all_chars p s'
  end.

(** The normal form [_clean_description] produces: lower-case letters,
    digits and single spaces, with no space at either end. *)
Definition normal_form (s : string) : Prop :=
  all_chars (fun c => is_lower_alpha c || is_digit c || Ascii.eqb c " ") s = true /\
  ~ (exists p q, s = p ++ "  " ++ q) /\
  ~ (exists q, s = " " ++ q) /\
  ~ (exists p, s = p ++ " ").

(** What a match of a sequence of items consists of: one chunk per
    repetition, of the class and within the counts. *)
Fixpoint shape (items : list pitem) (g : string) : Prop :=
  match items with
  | [] => g = EmptyString
  | PBound :: rest => shape rest g
  | PRep p lo hi :: rest =>
      exists x y, g = x ++ y /\ all_chars p x = true /\ (lo <= String.length x)%nat /\
        match hi with Some h => (String.length x <= h)%nat | None => True end /\ shape rest y
  end.

(** The texts [r'\$[\d,]+\.?\d*'] matches. *)
Definition amount_shape (a : string) : Prop :=
  exists x y z, a = "$" ++ x ++ y ++ z /\ x <> EmptyString /\ all_chars amount_class x = true /\
    (y = EmptyString \/ y = ".") /\ all_chars is_digit z = true.

(** The texts the two alternatives of the date pattern match (the [\b]
    assertions apart). *)
Definition numeric_date_shape (a : string) : Prop :=
  exists d1 s1 d2 s2 d3, a = d1 ++ s1 ++ d2 ++ s2 ++ d3 /\
    all_chars is_digit d1 = true /\ (1 <= String.length d1 <= 2)%nat /\
    (s1 = "/" \/ s1 = "-") /\
    all_chars is_digit d2 = true /\ (1 <= String.length d2 <= 2)%nat /\
    (s2 = "/" \/ s2 = "-") /\
    all_chars is_digit d3 = true /\ (2 <= String.length d3 <= 4)%nat.

Definition word_date_shape (a : string) : Prop :=
  exists w d y, a = w ++ " " ++ d ++ ", " ++ y /\
    w <> EmptyString /\ all_chars is_word w = true /\
    all_chars is_digit d = true /\ (1 <= String.length d <= 2)%nat /\
    all_chars is_digit y = true /\ String.length y = 4%nat.

(** The texts [r'\*+[-]?\d{4}'] matches. *)
Definition account_number_shape (a : string) : Prop :=
  exists st h d, a = st ++ h ++ d /\ st <> EmptyString /\ all_chars (chr "*") st = true /\
    (h = EmptyString \/ h = "-") /\ all_chars is_digit d = true /\ String.length d = 4%nat.

(* ------------------------------------------------------------------ *)
(** ** Auxiliary definitions of the properties below *)

(** The store after the writes of [_create_reconciliation_record] for each
    match in turn, none failing. *)
Definition writes_of (l : list match_rec) (d : db) : db :=
  fold_left (fun d m => record_writes (reconciliation_data m) d) l d.

(** Rows a reconciliation has flipped. *)
Definition stmt_done (id : string) (rows : list stmt_row) : Prop :=
  forall r, In r rows -> rs_id r = id -> rs_is_matched r = true.
Definition bus_done (id : string) (rows : list bus_row) : Prop :=
  forall r, In r rows -> rb_id r = id -> rb_status r = "matched".

Definition rec_done (r : recon_data) (d : db) : Prop :=
  stmt_done (rd_statement_transaction_id r) (statement_transactions d) /\
  (rd_business_transaction_type r = "outgoing" ->
     bus_done (rd_business_transaction_id r) (outgoing_transactions d)) /\
  (rd_business_transaction_type r = "incoming" ->
     bus_done (rd_business_transaction_id r) (incoming_transactions d)).

Definition conf_desc (x y : candidate) : Prop := cand_conf y <= cand_conf x.

(** Sample rows. *)
Definition demo_zero_statement : statement_trans :=
  mk_statement_trans "s0" (Some 0) (Some 19737%Z) (Some "debit") "REFUND".
Definition demo_zero_outgoing : business_trans :=
  mk_business_trans "o0" (Some 0) (Some 19737%Z) "Refund" "".
Definition demo_untyped_statement : statement_trans :=
  mk_statement_trans "s3" (Some (-425)) (Some 19738%Z) None "ABC COFFEE SUPPLIES".

(** An extractor returning a fixed text, and two sample texts. *)
Definition dummy_extraction (_ : string) : extraction := mk_extraction "text" 1 "stub".

Definition early_total_text : string :=
  "Total: $5.00" ++ nl ++ "Thank you for your business, come again.".

Definition statement_excerpt : string :=
  "Account: ****-4821" ++ nl ++ "Card ending **7730, paid 03/02/2024".

(* ------------------------------------------------------------------ *)
(** ** General lemmas *)

Lemma memb_false (x : string) (l : list string) : ~ In x l -> memb x l = false.
Proof.
  induction l as [|y l IH]; simpl; intros H; [reflexivity|].
  destruct (String.eqb_spec x y) as [->|Hne]; [exfalso; auto|].
  simpl; apply IH; intros Hin; auto.
Qed.

Lemma memb_true (x : string) (l : list string) : memb x l = true -> In x l.
Proof.
  induction l as [|y l IH]; simpl; [discriminate|].
  destruct (String.eqb_spec x y) as [->|Hne]; simpl; auto.
Qed.

Lemma NoDup_snoc {A} (l : list A) (x : A) : NoDup l -> ~ In x l -> NoDup (app l [x]).
Proof.
  induction l as [|y l IH]; simpl; intros Hnd Hx.
  - constructor; [intros []|constructor].
  - inversion Hnd; subst. constructor.
    + rewrite in_app_iff. intros [Hin|[<-|[]]]; auto.
    + apply IH; auto.
Qed.

Lemma incl_snoc {A} (l m : list A) (x : A) : incl l m -> incl (app l [x]) (app m [x]).
Proof.
  intros H a Ha. rewrite in_app_iff in *. destruct Ha as [Ha|Ha]; auto.
Qed.

Lemma incl_app_r {A} (l m : list A) (x : A) : incl l m -> incl l (app m [x]).
Proof. intros H a Ha. apply in_or_app. left. auto. Qed.

(* ------------------------------------------------------------------ *)
(** ** C3: the classifier is the spec's priority-ordered threshold rule *)

(** C3: on every text, [_classify_document_advanced] returns [unknown] for an
    empty or ['[']-prefixed text, and otherwise the first class of the fixed
    order invoice, bank_statement, check, sales_report, receipt whose keyword
    set (as listed in the spec) has at least two substring hits in the
    lower-cased text, or [general_document] when there is none; in
    particular an earlier class reaching two hits wins over a later class
    with more hits. *)
Theorem classify_matches_priority_spec (text : string) :
  classify_document_advanced text = classify_spec text.
Proof.
  unfold classify_document_advanced, classify_spec.
  destruct (is_emptyb text || prefixb "[" text); [reflexivity|].
  cbn [find spec_classes snd].
  unfold invoice_keywords, bank_keywords, check_keywords, sales_keywords, receipt_keywords.
  repeat match goal with
         | |- context [ (2 <=? ?c)%nat ] => destruct (2 <=? c)%nat
         end; reflexivity.
Qed.

(* ------------------------------------------------------------------ *)
(** ** C6: the reconciliation rate *)

(** C6: for every results record, [_generate_summary] raises no
    [ZeroDivisionError]; its rate is [total / (total + unmatched)] whenever
    that denominator is positive, is [0] when there are no matches (also
    with no unmatched statements), and lies in [[0, 1]]. *)
Theorem generate_summary_rate_safe (r : results) :
  let total := (length (exact_matches r) + length (fuzzy_matches r)
                + length (amount_matches r) + length (date_matches r))%nat in
  let unmatched := length (unmatched_statements r) in
  exists s, generate_summary r = Ok s /\
    total_matches_found s = total /\
    ((0 < total + unmatched)%nat ->
       reconciliation_rate s == inject_Z (Z.of_nat total) / inject_Z (Z.of_nat (total + unmatched))) /\
    (total = 0%nat -> reconciliation_rate s == 0) /\
    0 <= reconciliation_rate s <= 1.
Proof.
  intros total unmatched. unfold generate_summary. fold total.
  destruct (Nat.ltb_spec 0 total) as [Hpos|Hz].
  - unfold py_div.
    destruct (Qeq_bool (inject_Z (Z.of_nat (total + length (unmatched_statements r)))) 0) eqn:E.
    + apply Qeq_bool_eq in E. unfold Qeq in E. simpl in E. lia.
    + eexists; split; [reflexivity|]. cbn [total_matches_found reconciliation_rate].
      fold unmatched. split; [reflexivity|]. split; [intros; reflexivity|]. split; [intros; lia|].
      assert (Hd : 0 < inject_Z (Z.of_nat (total + unmatched))).
      { unfold Qlt; simpl; lia. }
      split.
      * apply Qle_shift_div_l; [exact Hd|]. rewrite Qmult_0_l.
        unfold Qle; simpl; lia.
      * apply Qle_shift_div_r; [exact Hd|]. rewrite Qmult_1_l.
        unfold Qle; simpl; lia.
  - assert (total = 0%nat) as H0 by lia.
    eexists; split; [reflexivity|]. cbn [total_matches_found reconciliation_rate].
    split; [reflexivity|]. split.
    + intros _. rewrite H0. reflexivity.
    + split; [intros; reflexivity|]. split; discriminate.
Qed.

(* ------------------------------------------------------------------ *)
(** ** C9: unsupported extensions *)

(** C9: for every path whose lower-cased suffix is none of the supported
    image, PDF or text extensions, [_extract_text_advanced] returns a result
    (it does not raise) with confidence 0, method [unsupported] and a text
    that begins with ['[']. *)
Theorem unsupported_extension_sentinel
    (ocr pdf txt : string -> extraction) (file_path : string)
    (Hunsupported : ~ In (lower (path_suffix file_path)) supported_extensions) :
  let r := extract_text_advanced ocr pdf txt file_path in
  ex_confidence r = 0 /\ ex_method r = "unsupported" /\ prefixb "[" (ex_text r) = true.
Proof.
  unfold supported_extensions in Hunsupported.
  rewrite !in_app_iff in Hunsupported.
  unfold extract_text_advanced.
  rewrite !memb_false by tauto.
  repeat split.
Qed.

(* ------------------------------------------------------------------ *)
(** ** C10: no fields outside the five field-bearing types *)

(** C10: for every text and every document type outside
    invoice, bank_statement, check, sales_report and receipt (for instance
    [unknown] and [general_document]), [_extract_structured_fields] returns
    the empty mapping. *)
Theorem structured_fields_empty_outside
    (text doc_type : string) (Hty : ~ In doc_type field_bearing_types) :
  extract_structured_fields text doc_type = [].
Proof.
  unfold field_bearing_types in Hty. simpl in Hty.
  unfold extract_structured_fields.
  repeat match goal with
         | |- context [String.eqb doc_type ?c] =>
             destruct (String.eqb_spec doc_type c); [subst; exfalso; apply Hty; auto 7|]
         end.
  reflexivity.
Qed.

(* ------------------------------------------------------------------ *)
(** ** The store writes of one match *)

Lemma memb_false_notin (x : string) (l : list string) : memb x l = false -> ~ In x l.
Proof.
  induction l as [|y l IH]; simpl; [auto|].
  destruct (String.eqb_spec x y) as [->|Hne]; simpl; [discriminate|].
  intros H [Hy|Hin]; [congruence|]. apply IH; auto.
Qed.

Ltac crunch_world :=
  repeat match goal with
         | |- context [match ?l with [] => _ | _ :: _ => _ end] => destruct l
         | |- context [if ?b then _ else _] => destruct b
         end.

(** [_create_reconciliation_record] never raises, and it leaves the
    reconciliation table as it was or with the match's record appended. *)
Lemma create_reconciliation_record_records (m : match_rec) (w : world) :
  exists w', create_reconciliation_record m w = (Ok tt, w') /\
    (reconciliation_records (w_db w') = reconciliation_records (w_db w) \/
     reconciliation_records (w_db w') =
       app (reconciliation_records (w_db w)) [reconciliation_data m]).
Proof.
  destruct w as [d os out].
  cbv beta iota zeta delta [create_reconciliation_record create_reconciliation try_except bind
    execute next_outcome modify_db raise ret print
    update_transaction_reconciliation_status update_statement_transaction_match].
  cbn [w_outcomes w_db w_stdout].
  repeat (crunch_world; cbn [w_outcomes w_db w_stdout]);
    eexists; (split; [reflexivity|]); cbn; auto.
Qed.

(* ------------------------------------------------------------------ *)
(** ** The exact-matching loop *)

Definition stmt_ids (l : list match_rec) : list string :=
  map (fun m => st_id (m_statement_transaction m)) l.
Definition business_ids (l : list match_rec) : list string :=
  map (fun m => bt_id (m_business_transaction m)) l.

(** What the loop keeps true of [matched_statements], [matched_business],
    the matches so far and the records written so far. *)
Definition loop_inv (ms mb : list string) (acc : list match_rec) (recs : list recon_data) : Prop :=
  NoDup (stmt_ids acc) /\ NoDup (business_ids acc) /\
  NoDup (map rd_statement_transaction_id recs) /\ NoDup (map rd_business_transaction_id recs) /\
  incl (stmt_ids acc) ms /\ incl (business_ids acc) mb /\
  incl (map rd_statement_transaction_id recs) ms /\ incl (map rd_business_transaction_id recs) mb.

(** What every exact match satisfies. *)
Definition good_exact (m : match_rec) : Prop :=
  exact_is_match (m_statement_transaction m) (m_business_transaction m)
    (m_business_transaction_type m) = true /\
  m_confidence_score m = 1 /\ m_match_type m = "exact" /\
  (m_business_transaction_type m = "outgoing" \/ m_business_transaction_type m = "incoming").

Lemma find_business_spec (bt : string) (s : statement_trans) (bs : list business_trans)
    (mb : list string) (b : business_trans) :
  find_business bt s bs mb = Some b ->
  memb (bt_id b) mb = false /\ exact_is_match s b bt = true.
Proof.
  induction bs as [|b' bs IH]; simpl; [discriminate|].
  destruct (memb (bt_id b') mb) eqn:Em; [exact IH|].
  destruct (exact_is_match s b' bt) eqn:Ex; [|exact IH].
  intros H; injection H as <-; auto.
Qed.

Lemma loop_inv_step (ms mb : list string) (acc : list match_rec) (recs : list recon_data)
    (m : match_rec) (added : list recon_data) :
  loop_inv ms mb acc recs ->
  ~ In (st_id (m_statement_transaction m)) ms ->
  ~ In (bt_id (m_business_transaction m)) mb ->
  added = [] \/ added = [reconciliation_data m] ->
  loop_inv (app ms [st_id (m_statement_transaction m)]) (app mb [bt_id (m_business_transaction m)])
    (app acc [m]) (app recs added).
Proof.
  intros (H1 & H2 & H3 & H4 & H5 & H6 & H7 & H8) Hs Hb Hadd.
  unfold loop_inv, stmt_ids, business_ids in *. rewrite !map_app. cbn [map].
  unfold incl in *.
  destruct Hadd as [-> | ->]; cbn [map]; rewrite ?app_nil_r;
    repeat split;
    try (apply NoDup_snoc; [assumption|]; intros Hin; eauto);
    try (apply incl_snoc; assumption);
    try (apply incl_app_r; assumption); try assumption.
Qed.

Lemma exact_loop_inv (bt : string) (bs : list business_trans)
    (Hbt : bt = "outgoing" \/ bt = "incoming") (R0 : list recon_data) :
  forall stmts ms mb acc recs w,
    reconciliation_records (w_db w) = app R0 recs ->
    loop_inv ms mb acc recs -> Forall good_exact acc ->
    exists ms' mb' acc' recs' w',
      exact_loop bt bs stmts ms mb acc w = (Ok (ms', mb', acc'), w') /\
      reconciliation_records (w_db w') = app R0 recs' /\
      loop_inv ms' mb' acc' recs' /\ Forall good_exact acc'.
Proof.
  induction stmts as [|s ss IH]; intros ms mb acc recs w Hrec Hinv Hgood; simpl.
  - do 5 eexists; split; [reflexivity|]. eauto.
  - destruct (memb (st_id s) ms) eqn:Hms; [eauto|].
    destruct (find_business bt s bs mb) as [b|] eqn:Hf; [|eauto].
    destruct (find_business_spec _ _ _ _ _ Hf) as [Hmb Hm].
    unfold bind.
    destruct (create_reconciliation_record_records (mk_match s b bt 1 "exact") w)
      as (w1 & -> & Hw1).
    assert (exists added, reconciliation_records (w_db w1) = app R0 (app recs added) /\
              (added = [] \/ added = [reconciliation_data (mk_match s b bt 1 "exact")]))
      as (added & Hr1 & Hadd).
    { destruct Hw1 as [E|E]; rewrite E, Hrec.
      - exists []. rewrite app_nil_r. auto.
      - exists [reconciliation_data (mk_match s b bt 1 "exact")].
        rewrite app_assoc. auto. }
    apply IH with (recs := app recs added); [exact Hr1| |].
    + apply (loop_inv_step _ _ _ _ (mk_match s b bt 1 "exact")); cbn;
        auto using memb_false_notin.
    + apply Forall_app; split; [exact Hgood|].
      constructor; [|constructor]. unfold good_exact; cbn. auto.
Qed.

(** [_generate_summary] never raises. *)
Lemma generate_summary_ok (r : results) : exists s, generate_summary r = Ok s.
Proof.
  unfold generate_summary. cbv zeta.
  destruct (Nat.ltb_spec 0 (length (exact_matches r) + length (fuzzy_matches r)
                            + length (amount_matches r) + length (date_matches r))) as [Hpos|_].
  - unfold py_div.
    match goal with |- context [Qeq_bool ?x 0] => destruct (Qeq_bool x 0) eqn:E end.
    + apply Qeq_bool_eq in E. unfold Qeq in E. simpl in E. lia.
    + eexists; reflexivity.
  - eexists; reflexivity.
Qed.

(** One run: exact matches only (the other passes add nothing), no error,
    and the records written are appended to the table. *)
Lemma run_reconciliation_shape (statements : list statement_trans)
    (outgoing incoming : list business_trans) (w : world) :
  exists r s w' recs,
    run_reconciliation statements outgoing incoming w = (Ok (r, s), w') /\
    fuzzy_matches r = [] /\ amount_matches r = [] /\ date_matches r = [] /\
    reconciliation_records (w_db w') = app (reconciliation_records (w_db w)) recs /\
    (exists ms mb, loop_inv ms mb (exact_matches r) recs) /\
    Forall good_exact (exact_matches r).
Proof.
  assert (Hi0 : loop_inv [] [] [] []) by (repeat split; constructor || (intros ? []) ).
  destruct (exact_loop_inv "outgoing" outgoing (or_introl eq_refl) (reconciliation_records (w_db w))
              statements [] [] [] [] w ltac:(rewrite app_nil_r; reflexivity) Hi0 (Forall_nil _))
    as (ms1 & mb1 & acc1 & recs1 & w1 & E1 & Hr1 & Hi1 & Hg1).
  destruct (exact_loop_inv "incoming" incoming (or_intror eq_refl) (reconciliation_records (w_db w))
              statements ms1 mb1 acc1 recs1 w1 Hr1 Hi1 Hg1)
    as (ms2 & mb2 & acc2 & recs2 & w2 & E2 & Hr2 & Hi2 & Hg2).
  set (r := set_exact_matches empty_results acc2).
  destruct (generate_summary_ok r) as (sm & Hsm).
  exists r, sm, w2, recs2.
  cbv beta iota zeta delta [run_reconciliation try_except bind run_exact_matching
    run_fuzzy_matching run_amount_matching run_date_matching ret].
  cbn [exact_matches empty_results]. rewrite E1. cbv beta iota.
  rewrite E2. cbv beta iota. fold r. rewrite Hsm.
  repeat split; eauto.
Qed.

Lemma exact_is_match_true (s : statement_trans) (b : business_trans) (bt : string) :
  exact_is_match s b bt = true ->
  exists sa ba sd bd,
    st_amount s = Some sa /\ bt_amount b = Some ba /\ Qabs (Qabs sa - ba) <= 1 # 100 /\
    st_transaction_date s = Some sd /\ bt_transaction_date b = Some bd /\ (Z.abs (sd - bd) <= 3)%Z /\
    (bt = "outgoing" -> type_is (st_transaction_type s) "debit" = true) /\
    (bt = "incoming" -> type_is (st_transaction_type s) "credit" = true).
Proof.
  unfold exact_is_match.
  destruct (st_amount s) as [sa|]; [|discriminate].
  destruct (bt_amount b) as [ba|]; [|discriminate].
  destruct (Qlt_le_dec (1 # 100) (Qabs (Qabs sa - ba))) as [_|Hle]; [discriminate|].
  destruct (st_transaction_date s) as [sd|]; [|discriminate].
  destruct (bt_transaction_date b) as [bd|]; [|discriminate].
  destruct (Z.ltb_spec 3 (Z.abs (sd - bd))) as [_|Hd]; [discriminate|].
  destruct (String.eqb_spec bt "outgoing") as [Ho|Ho];
    destruct (type_is (st_transaction_type s) "debit") eqn:Hdeb; cbn; try discriminate;
    destruct (String.eqb_spec bt "incoming") as [Hi|Hi];
    destruct (type_is (st_transaction_type s) "credit") eqn:Hcr; cbn; try discriminate;
    intros _; exists sa, ba, sd, bd; repeat split; auto; intros; congruence.
Qed.

(* ------------------------------------------------------------------ *)
(** ** C1: at most one match per transaction *)

(** C1: every run of [run_reconciliation], on every list of statement,
    outgoing and incoming transactions and in every store (whatever store
    calls fail), returns normally; no statement id and no business id
    occurs twice among the matches it reports (all strategies together),
    and the reconciliation records it appends to the store repeat neither
    a statement id nor a business id. *)
Theorem reconcile_at_most_one_match (statements : list statement_trans)
    (outgoing incoming : list business_trans) (w : world) :
  exists r s w' recs,
    run_reconciliation statements outgoing incoming w = (Ok (r, s), w') /\
    NoDup (stmt_ids (all_matches r)) /\ NoDup (business_ids (all_matches r)) /\
    reconciliation_records (w_db w') = app (reconciliation_records (w_db w)) recs /\
    NoDup (map rd_statement_transaction_id recs) /\ NoDup (map rd_business_transaction_id recs).
Proof.
  destruct (run_reconciliation_shape statements outgoing incoming w)
    as (r & s & w' & recs & E & Hf & Ha & Hd & Hrec & (ms & mb & Hinv) & _).
  destruct Hinv as (H1 & H2 & H3 & H4 & _).
  exists r, s, w', recs. unfold all_matches. rewrite Hf, Ha, Hd. cbn [app].
  rewrite app_nil_r. auto 7.
Qed.

(* ------------------------------------------------------------------ *)
(** ** C2: the exact matcher *)

(** C2: [ExactMatcher.is_match] rejects every pair whose amounts
    ([abs] of the statement amount against the business amount) differ by
    more than 0.01, whatever the dates, descriptions and types; and every
    match the exact pass reports has amounts within 0.01, both dates present
    and at most 3 days apart, a statement type equal to [debit] (after
    [.lower()]) for an outgoing match and to [credit] for an incoming one,
    confidence 1.0 and match type [exact]. *)
Theorem exact_matcher_amount_gate_and_accepted_matches :
  (forall s b business_type sa ba,
      st_amount s = Some sa -> bt_amount b = Some ba ->
      1 # 100 < Qabs (Qabs sa - ba) ->
      exact_is_match s b business_type = false) /\
  (forall statements outgoing incoming w,
      exists r sm w', run_reconciliation statements outgoing incoming w = (Ok (r, sm), w') /\
      Forall (fun m =>
        let s := m_statement_transaction m in
        let b := m_business_transaction m in
        exists sa ba sd bd,
          st_amount s = Some sa /\ bt_amount b = Some ba /\ Qabs (Qabs sa - ba) <= 1 # 100 /\
          st_transaction_date s = Some sd /\ bt_transaction_date b = Some bd /\
          (Z.abs (sd - bd) <= 3)%Z /\
          (m_business_transaction_type m = "outgoing" /\ type_is (st_transaction_type s) "debit" = true \/
           m_business_transaction_type m = "incoming" /\ type_is (st_transaction_type s) "credit" = true) /\
          m_confidence_score m = 1 /\ m_match_type m = "exact") (exact_matches r)).
Proof.
  split.
  - intros s b bt sa ba Hsa Hba Hgt. unfold exact_is_match. rewrite Hsa, Hba.
    destruct (Qlt_le_dec (1 # 100) (Qabs (Qabs sa - ba))) as [_|Hle]; [reflexivity|].
    exfalso. apply (Qlt_not_le _ _ Hgt Hle).
  - intros statements outgoing incoming w.
    destruct (run_reconciliation_shape statements outgoing incoming w)
      as (r & s & w' & recs & E & _ & _ & _ & _ & _ & Hg).
    exists r, s, w'. split; [exact E|].
    eapply Forall_impl; [|exact Hg].
    intros m (Hm & Hc & Hk & Hty). cbv zeta.
    destruct (exact_is_match_true _ _ _ Hm)
      as (sa & ba & sd & bd & H1 & H2 & H3 & H4 & H5 & H6 & H7 & H8).
    exists sa, ba, sd, bd. repeat split; auto.
    destruct Hty as [Ho|Hi]; [left|right]; auto.
Qed.

(* ------------------------------------------------------------------ *)
(** ** C4 and C5: the fuzzy confidence *)

(** [amount_diff_pct] of [FuzzyMatcher.is_match]. *)
Definition rel_amount_diff (sa ba : Q) : Q := Qabs (Qabs sa - ba) / Qmax (Qabs sa) ba.

(** The spec's formula: 0.4 amount_score + 0.2 date_score + 0.4 text_score. *)
Definition spec_confidence (pct : Q) (days : Z) (text_score : Q) : Q :=
  (4 # 10) * (1 - pct) + (2 # 10) * Qmax 0 (1 - inject_Z days / 7) + (4 # 10) * text_score.

(** The pairs [FuzzyMatcher.is_match] scores: amounts convertible with a
    non-zero larger amount, relative difference at most 5%, both dates
    present and at most 7 days apart. *)
Definition fuzzy_region (s : statement_trans) (b : business_trans) (sa ba : Q) (sd bd : Z) : Prop :=
  st_amount s = Some sa /\ bt_amount b = Some ba /\ ~ (Qmax (Qabs sa) ba == 0) /\
  rel_amount_diff sa ba <= 5 # 100 /\
  st_transaction_date s = Some sd /\ bt_transaction_date b = Some bd /\ (Z.abs (sd - bd) <= 7)%Z.

Lemma fuzzy_confidence_formula (ratio : string -> string -> Q) (threshold : Q)
    (s : statement_trans) (b : business_trans) (bt : string) (sa ba : Q) (sd bd : Z) :
  fuzzy_region s b sa ba sd bd ->
  snd (fuzzy_is_match ratio threshold s b bt)
    == spec_confidence (rel_amount_diff sa ba) (Z.abs (sd - bd)) (text_similarity ratio s b).
Proof.
  intros (Hsa & Hba & Hnz & Hpct & Hsd & Hbd & Hdd).
  unfold fuzzy_is_match. rewrite Hsa, Hba.
  destruct (Qeq_bool (Qmax (Qabs sa) ba) 0) eqn:E.
  { exfalso. apply Hnz. apply Qeq_bool_eq. exact E. }
  fold (rel_amount_diff sa ba).
  destruct (Qlt_le_dec (5 # 100) (rel_amount_diff sa ba)) as [Hlt|_].
  { exfalso. exact (Qlt_not_le _ _ Hlt Hpct). }
  rewrite Hsd, Hbd.
  destruct (Z.ltb_spec 7 (Z.abs (sd - bd))) as [Hlt|_]; [lia|].
  cbn [snd]. unfold spec_confidence. ring.
Qed.

Lemma Qmax_0_mono (x y : Q) : x <= y -> Qmax 0 x <= Qmax 0 y.
Proof.
  intros H.
  destruct (Q.max_spec 0 x) as [[H1 H2]|[H1 H2]]; rewrite H2;
  destruct (Q.max_spec 0 y) as [[H3 H4]|[H3 H4]]; rewrite H4; lra.
Qed.

Lemma fuzzy_region_result (ratio : string -> string -> Q) (threshold : Q)
    (s : statement_trans) (b : business_trans) (bt : string) (sa ba : Q) (sd bd : Z) :
  fuzzy_region s b sa ba sd bd ->
  exists c, fuzzy_is_match ratio threshold s b bt = (Qle_bool threshold c, c) /\
    c == spec_confidence (rel_amount_diff sa ba) (Z.abs (sd - bd)) (text_similarity ratio s b).
Proof.
  intros Hreg. pose proof (fuzzy_confidence_formula ratio threshold s b bt _ _ _ _ Hreg) as Hf.
  destruct Hreg as (Hsa & Hba & Hnz & Hpct & Hsd & Hbd & Hdd).
  revert Hf. unfold fuzzy_is_match. rewrite Hsa, Hba.
  destruct (Qeq_bool (Qmax (Qabs sa) ba) 0) eqn:E.
  { exfalso. apply Hnz. apply Qeq_bool_eq. exact E. }
  fold (rel_amount_diff sa ba).
  destruct (Qlt_le_dec (5 # 100) (rel_amount_diff sa ba)) as [Hlt|_].
  { exfalso. exact (Qlt_not_le _ _ Hlt Hpct). }
  rewrite Hsd, Hbd.
  destruct (Z.ltb_spec 7 (Z.abs (sd - bd))) as [Hlt|_]; [lia|].
  intros Hf. eexists; split; [reflexivity|exact Hf].
Qed.

(** C4: for every pair in the fuzzy matcher's scoring region (amount within
    5% relative tolerance with a non-zero larger amount, both dates parsed
    and at most 7 days apart), the confidence [FuzzyMatcher.is_match] returns
    is 0.4 (1 - relative amount difference) + 0.2 max(0, 1 - days/7)
    + 0.4 text similarity; and it does not increase when the relative amount
    difference or the day difference grows or the text similarity drops
    (each with the others held fixed, or together). *)
Theorem fuzzy_confidence_formula_monotone (ratio : string -> string -> Q) (threshold : Q) :
  (forall s b bt sa ba sd bd,
      fuzzy_region s b sa ba sd bd ->
      snd (fuzzy_is_match ratio threshold s b bt)
        == spec_confidence (rel_amount_diff sa ba) (Z.abs (sd - bd)) (text_similarity ratio s b)) /\
  (forall s1 b1 bt1 sa1 ba1 sd1 bd1 s2 b2 bt2 sa2 ba2 sd2 bd2,
      fuzzy_region s1 b1 sa1 ba1 sd1 bd1 -> fuzzy_region s2 b2 sa2 ba2 sd2 bd2 ->
      rel_amount_diff sa1 ba1 <= rel_amount_diff sa2 ba2 ->
      (Z.abs (sd1 - bd1) <= Z.abs (sd2 - bd2))%Z ->
      text_similarity ratio s2 b2 <= text_similarity ratio s1 b1 ->
      snd (fuzzy_is_match ratio threshold s2 b2 bt2) <= snd (fuzzy_is_match ratio threshold s1 b1 bt1)).
Proof.
  split.
  - intros s b bt sa ba sd bd Hreg. exact (fuzzy_confidence_formula ratio threshold s b bt _ _ _ _ Hreg).
  - intros s1 b1 bt1 sa1 ba1 sd1 bd1 s2 b2 bt2 sa2 ba2 sd2 bd2 Hr1 Hr2 Hpct Hdd Hts.
    rewrite (fuzzy_confidence_formula ratio threshold s1 b1 bt1 _ _ _ _ Hr1),
            (fuzzy_confidence_formula ratio threshold s2 b2 bt2 _ _ _ _ Hr2).
    unfold spec_confidence.
    assert (Hd : inject_Z (Z.abs (sd1 - bd1)) <= inject_Z (Z.abs (sd2 - bd2)))
      by (rewrite <- Zle_Qle; exact Hdd).
    assert (Hm : Qmax 0 (1 - inject_Z (Z.abs (sd2 - bd2)) / 7)
                 <= Qmax 0 (1 - inject_Z (Z.abs (sd1 - bd1)) / 7)).
    { apply Qmax_0_mono. unfold Qdiv. change (/ 7) with (1 # 7). lra. }
    lra.
Qed.

(** C5: a pair 5 days apart with a 3% relative amount difference is
    accepted by the default fuzzy matcher (threshold 0.8) with a confidence
    of at least 0.8 when its text similarity (description or vendor name)
    is 0.9, and rejected with a confidence below 0.8 when it is 0. *)
Theorem fuzzy_scenario_five_days_three_percent (ratio : string -> string -> Q)
    (s : statement_trans) (b : business_trans) (bt : string) (sa ba : Q) (sd bd : Z)
    (Hsa : st_amount s = Some sa) (Hba : bt_amount b = Some ba)
    (Hpct : rel_amount_diff sa ba == 3 # 100)
    (Hsd : st_transaction_date s = Some sd) (Hbd : bt_transaction_date b = Some bd)
    (Hdays : Z.abs (sd - bd) = 5%Z) :
  (text_similarity ratio s b == 9 # 10 ->
     fst (fuzzy_is_match ratio default_similarity_threshold s b bt) = true /\
     default_similarity_threshold <= snd (fuzzy_is_match ratio default_similarity_threshold s b bt)) /\
  (text_similarity ratio s b == 0 ->
     fst (fuzzy_is_match ratio default_similarity_threshold s b bt) = false /\
     snd (fuzzy_is_match ratio default_similarity_threshold s b bt) < default_similarity_threshold).
Proof.
  assert (Hreg : fuzzy_region s b sa ba sd bd).
  { repeat split; auto.
    - intros Hz. revert Hpct. unfold rel_amount_diff. rewrite Hz.
      unfold Qdiv. rewrite Qmult_comm. intros H. discriminate H.
    - rewrite Hpct. discriminate.
    - lia. }
  destruct (fuzzy_region_result ratio default_similarity_threshold s b bt _ _ _ _ Hreg)
    as (c & -> & Hc). cbn [fst snd].
  rewrite Hdays in Hc. unfold spec_confidence in Hc. rewrite Hpct in Hc.
  assert (Hmax : Qmax 0 (1 - inject_Z 5 / 7) == 2 # 7) by reflexivity.
  rewrite Hmax in Hc.
  split; intros Hts; rewrite Hts in Hc; unfold default_similarity_threshold.
  - assert (H : 8 # 10 <= c) by (rewrite Hc; discriminate).
    split; [apply Qle_bool_iff; exact H | exact H].
  - assert (H : c < 8 # 10) by (rewrite Hc; reflexivity).
    split; [|exact H].
    destruct (Qle_bool (8 # 10) c) eqn:E; [|reflexivity].
    apply Qle_bool_iff in E. exfalso. exact (Qlt_not_le _ _ H E).
Qed.

(* ------------------------------------------------------------------ *)
(** ** C7: the three writes of a match *)

(** C7 (as the code does it): for a match of type outgoing or incoming,
    [_create_reconciliation_record] performs, in order and not atomically,
    the record insert, the business row flip to [matched] and the statement
    row flip to [is_matched = true]; the first failing call stops the
    remaining ones, the writes already done stay in the store, and the
    failure is caught and only printed as one warning line: the call always
    returns normally to the matching loop. *)
Theorem create_reconciliation_record_best_effort (m : match_rec) (d : db)
    (o1 o2 o3 : bool) (rest : list bool) (out : list string)
    (Hty : m_business_transaction_type m = "outgoing" \/ m_business_transaction_type m = "incoming") :
  let d1 := insert_record (reconciliation_data m) d in
  let d2 := update_table (m_business_transaction_type m ++ "_transactions")
              (bt_id (m_business_transaction m)) "matched" d1 in
  let d3 := update_statement_rows (st_id (m_statement_transaction m)) true d2 in
  let res := create_reconciliation_record m (mk_world d (o1 :: o2 :: o3 :: rest) out) in
  fst res = Ok tt /\
  w_db (snd res) = (if o1 then if o2 then if o3 then d3 else d2 else d1 else d) /\
  (o1 && o2 && o3 = true -> w_stdout (snd res) = out) /\
  (o1 && o2 && o3 = false -> exists warning, w_stdout (snd res) = app out [warning]).
Proof.
  destruct m as [s b ty c k]. cbn [m_business_transaction_type] in *.
  destruct Hty as [-> | ->];
  cbv beta iota zeta delta [create_reconciliation_record create_reconciliation try_except bind
    execute next_outcome modify_db raise ret print reconciliation_data
    update_transaction_reconciliation_status update_statement_transaction_match];
  cbn [rd_business_transaction_type rd_business_transaction_id rd_statement_transaction_id
       w_outcomes w_db w_stdout m_business_transaction m_statement_transaction String.eqb
       Ascii.eqb Bool.eqb andb];
  destruct o1, o2, o3; cbn; (split; [reflexivity|]); (split; [reflexivity|]);
  (split; intros H; [try discriminate H; reflexivity|try discriminate H; eexists; reflexivity]).
Qed.

(** A statement transaction and an outgoing transaction that match exactly. *)
Definition demo_statement : statement_trans :=
  mk_statement_trans "s1" (Some (-425)) (Some 19737%Z) (Some "debit") "ABC COFFEE SUPPLIES".
Definition demo_outgoing : business_trans :=
  mk_business_trans "o1" (Some 425) (Some 19737%Z) "Coffee beans" "ABC Coffee Supplies Inc.".
Definition demo_db : db :=
  mk_db [] [mk_stmt_row "s1" false] [mk_bus_row "o1" "unreconciled"] [].

(** C7 fails: the record insert succeeds and the business row update raises;
    the run still returns normally with the match reported, the record
    stays, and neither source row is flipped. *)
Lemma partial_write_failure_swallowed :
  let '(res, w') := run_reconciliation [demo_statement] [demo_outgoing] []
                      (mk_world demo_db [true; false] []) in
  (exists r sm, res = Ok (r, sm) /\ length (exact_matches r) = 1%nat) /\
  length (reconciliation_records (w_db w')) = 1%nat /\
  statement_transactions (w_db w') = [mk_stmt_row "s1" false] /\
  outgoing_transactions (w_db w') = [mk_bus_row "o1" "unreconciled"] /\
  length (w_stdout w') = 1%nat.
Proof.
  vm_compute. split; [|repeat split].
  eexists _, _. split; reflexivity.
Qed.

(* ------------------------------------------------------------------ *)
(** ** C8: the invoice scenario *)

Lemma lower_app (a b : string) : lower (a ++ b) = lower a ++ lower b.
Proof. induction a as [|c a IH]; simpl; [reflexivity|]. rewrite IH. reflexivity. Qed.

Lemma prefixb_app (kw a b : string) : prefixb kw a = true -> prefixb kw (a ++ b) = true.
Proof.
  revert a. induction kw as [|c kw IH]; intros [|d a]; simpl; try discriminate; auto.
  intros H. apply andb_true_iff in H as [H1 H2]. rewrite H1. simpl. auto.
Qed.

Lemma contains_app_mid (a b c kw : string) : contains b kw = true -> contains (a ++ b ++ c) kw = true.
Proof.
  intros Hb. induction a as [|x a IH]; simpl.
  - induction b as [|y b IHb]; simpl in *.
    + apply orb_true_iff in Hb as [H|H]; [|discriminate].
      destruct kw; [destruct c; reflexivity|discriminate].
    + apply orb_true_iff in Hb as [H|H].
      * pose proof (prefixb_app _ _ c H) as H'. simpl in H'. rewrite H'. reflexivity.
      * rewrite IHb by exact H. apply orb_true_r.
  - rewrite IH. apply orb_true_r.
Qed.

Lemma str_drop_lower (i : nat) (s : string) : str_drop i (lower s) = lower (str_drop i s).
Proof. revert s; induction i as [|i IH]; intros [|c s]; simpl; auto. Qed.

Lemma find_from_before (kw s : string) (pos n : nat) :
  find_from s kw pos = Some n ->
  forall i, (pos + i < n)%nat -> prefixb kw (str_drop i s) = false.
Proof.
  revert pos. induction s as [|c s IH]; intros pos H i Hi; simpl in H.
  - destruct (prefixb kw ""); [injection H as <-; lia|discriminate].
  - destruct (prefixb kw (String c s)) eqn:E.
    + injection H as <-. lia.
    + destruct i as [|i]; [exact E|].
      simpl. apply (IH (S pos) H). lia.
Qed.

Lemma search_skip (atoms : list atom) (p t : string) :
  (forall i, (i < String.length p)%nat -> match_at atoms (str_drop i (p ++ t)) = None) ->
  search atoms (p ++ t) = search atoms t.
Proof.
  induction p as [|c p IH]; intros H; [reflexivity|].
  pose proof (H 0%nat ltac:(simpl; lia)) as H0. simpl in H0 |- *. rewrite H0.
  apply IH. intros i Hi. apply (H (S i)). simpl. lia.
Qed.

Lemma search_here (atoms : list atom) (s g : string) :
  match_at atoms s = Some g -> search atoms s = Some g.
Proof. intros H. destruct s; simpl; rewrite H; reflexivity. Qed.

Lemma ci_char_lower (c d : ascii) : ci_char c d = true -> lower_ascii c = lower_ascii d.
Proof. unfold ci_char. intros H. apply Ascii.eqb_eq in H. congruence. Qed.

(** A case-insensitive literal matches only where the lower-cased text
    starts with the lower-cased literal. *)
Lemma match_at_lit_prefix (w : string) (rest : list atom) (u g : string) :
  match_at (app (lit w) rest) u = Some g -> prefixb (lower w) (lower u) = true.
Proof.
  revert u g. induction w as [|c w IH]; intros u g H; [reflexivity|].
  destruct u as [|d u].
  - discriminate H.
  - cbn [lit app match_at a_q a_cls bounds run_len] in H.
    destruct (ci_char c d) eqn:Hcd; [|discriminate H].
    cbn in H.
    destruct (match_at (app (lit w) rest) u) as [g'|] eqn:Hm; [|discriminate H].
    simpl. rewrite (ci_char_lower _ _ Hcd), Ascii.eqb_refl. simpl. exact (IH _ _ Hm).
Qed.

(** [re.search] with a pattern that starts with the literal [kw] finds its
    match at the first case-insensitive occurrence of [kw] when the pattern
    matches there. *)
Lemma search_first_occurrence (kw : string) (tail : list atom) (p L s g : string) :
  str_find (lower (p ++ L ++ s)) (lower kw) = Some (String.length p) ->
  match_at (app (lit kw) tail) (L ++ s) = Some g ->
  search (app (lit kw) tail) (p ++ L ++ s) = Some g.
Proof.
  intros Hf Hm. rewrite search_skip; [exact (search_here _ _ _ Hm)|].
  intros i Hi.
  destruct (match_at (app (lit kw) tail) (str_drop i (p ++ L ++ s))) as [g'|] eqn:E; [|reflexivity].
  exfalso. apply match_at_lit_prefix in E.
  rewrite <- str_drop_lower in E.
  rewrite (find_from_before _ _ 0 _ Hf i) in E; [discriminate|lia].
Qed.

Lemma line_end_cases (s : string) : line_end s = true -> s = "" \/ exists s', s = nl ++ s'.
Proof.
  unfold line_end, nl. destruct s as [|c s']; [auto|].
  cbn [is_emptyb orb prefixb]. intros H. right. exists s'.
  apply andb_true_iff in H as [H _]. apply Ascii.eqb_eq in H. subst. reflexivity.
Qed.

Lemma invoice_line_match (s : string) :
  line_end s = true -> match_at invoice_re ("Invoice #: INV-2024-001" ++ s) = Some "INV-2024-001".
Proof. intros H. destruct (line_end_cases s H) as [->|[s' ->]]; reflexivity. Qed.

Lemma total_line_match (s : string) :
  line_end s = true -> match_at total_re ("Total: $1,014.69" ++ s) = Some "1,014.69".
Proof. intros H. destruct (line_end_cases s H) as [->|[s' ->]]; reflexivity. Qed.

Lemma due_line_match (s : string) :
  line_end s = true -> match_at due_re ("Due Date: February 14, 2024" ++ s) = Some "February 14, 2024".
Proof. intros H. destruct (line_end_cases s H) as [->|[s' ->]]; reflexivity. Qed.

(** The repository's sample invoice: the invoice-number pattern matches the
    heading [VENDOR INVOICE] and the total pattern matches inside
    [Subtotal:]. *)
Lemma sample_invoice_extraction :
  classify_document_advanced sample_invoice = "invoice" /\
  lookup "invoice_number" (extract_invoice_fields sample_invoice) = Some "Invoice" /\
  lookup "total_amount" (extract_invoice_fields sample_invoice) = Some "955.00" /\
  lookup "due_date" (extract_invoice_fields sample_invoice) = Some "February 14, 2024".
Proof. vm_compute. repeat split. Qed.

(** C8 fails: a text holding the three lines but starting with the ['[']
    failure sentinel is classified [unknown]. *)
Lemma invoice_scenario_bracket_prefix :
  let t := "[scan]" ++ nl ++ "Invoice #: INV-2024-001" ++ nl ++ "Total: $1,014.69" ++ nl ++
           "Due Date: February 14, 2024" in
  contains t "Invoice #: INV-2024-001" = true /\ contains t "Total: $1,014.69" = true /\
  contains t "Due Date: February 14, 2024" = true /\ classify_document_advanced t = "unknown".
Proof. vm_compute. repeat split. Qed.

(** C8 (as the code does it): a text that does not start with ['['] and
    holds the lines [Invoice #: INV-2024-001], [Total: $1,014.69] and
    [Due Date: February 14, 2024] (each ending at a newline or at the end of
    the text), where each line holds the first case-insensitive occurrence
    of [invoice], [total] and [due] respectively, is classified [invoice],
    and its fields are invoice_number = [INV-2024-001],
    total_amount = [1,014.69] and due_date = [February 14, 2024]. *)
Theorem invoice_scenario_first_occurrences (t p1 s1 p2 s2 p3 s3 : string)
    (Hnb : prefixb "[" t = false)
    (H1 : t = p1 ++ "Invoice #: INV-2024-001" ++ s1) (E1 : line_end s1 = true)
    (H2 : t = p2 ++ "Total: $1,014.69" ++ s2) (E2 : line_end s2 = true)
    (H3 : t = p3 ++ "Due Date: February 14, 2024" ++ s3) (E3 : line_end s3 = true)
    (F1 : str_find (lower t) "invoice" = Some (String.length p1))
    (F2 : str_find (lower t) "total" = Some (String.length p2))
    (F3 : str_find (lower t) "due" = Some (String.length p3)) :
  classify_document_advanced t = "invoice" /\
  let f := extract_structured_fields t (classify_document_advanced t) in
  lookup "invoice_number" f = Some "INV-2024-001" /\
  lookup "total_amount" f = Some "1,014.69" /\
  lookup "due_date" f = Some "February 14, 2024".
Proof.
  assert (Ci : contains (lower t) "invoice" = true).
  { rewrite H1, !lower_app. apply contains_app_mid. reflexivity. }
  assert (Cd : contains (lower t) "due date" = true).
  { rewrite H3, !lower_app. apply contains_app_mid. reflexivity. }
  assert (Hc : classify_document_advanced t = "invoice").
  { unfold classify_document_advanced.
    assert (He : is_emptyb t = false) by (rewrite H1; destruct p1; reflexivity).
    rewrite He, Hnb. cbv zeta.
    unfold count_keywords, invoice_keywords. cbn [filter]. rewrite Ci, Cd.
    repeat match goal with
           | |- context [contains (lower t) ?k] => destruct (contains (lower t) k)
           end; reflexivity. }
  assert (Si : search invoice_re t = Some "INV-2024-001").
  { rewrite H1. apply (search_first_occurrence "invoice").
    - rewrite <- H1. exact F1.
    - apply invoice_line_match. exact E1. }
  assert (St : search total_re t = Some "1,014.69").
  { rewrite H2. apply (search_first_occurrence "total").
    - rewrite <- H2. exact F2.
    - apply total_line_match. exact E2. }
  assert (Sd : search due_re t = Some "February 14, 2024").
  { rewrite H3. apply (search_first_occurrence "due").
    - rewrite <- H3. exact F3.
    - apply due_line_match. exact E3. }
  split; [exact Hc|]. rewrite Hc. cbv zeta.
  unfold extract_structured_fields. rewrite String.eqb_refl.
  unfold extract_invoice_fields. rewrite Si, St, Sd.
  destruct (search from_re t); vm_compute; auto.
Qed.

(* ------------------------------------------------------------------ *)
(** ** Instances of the claims' theorems on concrete inputs *)

(** C2 on a pair whose amounts differ by 5. *)
Lemma exact_matcher_amount_gate_witness :
  exact_is_match demo_statement
    (mk_business_trans "o9" (Some 430) (Some 19737%Z) "Coffee beans" "ABC Coffee Supplies Inc.")
    "outgoing" = false.
Proof.
  apply (proj1 exact_matcher_amount_gate_and_accepted_matches) with (sa := -425) (ba := 430);
    reflexivity.
Defined.

(** C6 on the empty results: the rate is 0. *)
Lemma generate_summary_rate_safe_witness :
  exists s, generate_summary empty_results = Ok s /\ reconciliation_rate s == 0.
Proof.
  destruct (generate_summary_rate_safe empty_results) as (s & H1 & _ & _ & H4 & _).
  exists s. split; [exact H1|]. apply H4. reflexivity.
Defined.

(** C4 on the demo pair, with a constant text similarity of 0.9. *)
Lemma fuzzy_confidence_formula_monotone_witness :
  fuzzy_region demo_statement demo_outgoing (-425) 425 19737%Z 19737%Z /\
  snd (fuzzy_is_match (fun _ _ => 9 # 10) default_similarity_threshold
         demo_statement demo_outgoing "outgoing")
    == spec_confidence (rel_amount_diff (-425) 425) (Z.abs (19737 - 19737))
         (text_similarity (fun _ _ => 9 # 10) demo_statement demo_outgoing).
Proof.
  assert (Hr : fuzzy_region demo_statement demo_outgoing (-425) 425 19737%Z 19737%Z).
  { unfold fuzzy_region.
    repeat split; first [reflexivity | lia | (vm_compute; intros H; discriminate H)]. }
  split; [exact Hr|].
  exact (proj1 (fuzzy_confidence_formula_monotone (fun _ _ => 9 # 10) default_similarity_threshold)
           demo_statement demo_outgoing "outgoing" _ _ _ _ Hr).
Defined.

(** C5 on amounts 100 and 97 (3%) five days apart, text similarity 0.9. *)
Lemma fuzzy_scenario_five_days_three_percent_witness :
  rel_amount_diff (-100) 97 == 3 # 100 /\
  fst (fuzzy_is_match (fun _ _ => 9 # 10) default_similarity_threshold
         (mk_statement_trans "s2" (Some (-100)) (Some 19737%Z) (Some "debit") "ACME COFFEE")
         (mk_business_trans "o2" (Some 97) (Some 19732%Z) "Acme coffee" "Acme Coffee Co")
         "outgoing") = true.
Proof.
  split; [reflexivity|].
  apply (proj1 (fuzzy_scenario_five_days_three_percent (fun _ _ => 9 # 10)
    (mk_statement_trans "s2" (Some (-100)) (Some 19737%Z) (Some "debit") "ACME COFFEE")
    (mk_business_trans "o2" (Some 97) (Some 19732%Z) "Acme coffee" "Acme Coffee Co")
    "outgoing" (-100) 97 19737%Z 19732%Z eq_refl eq_refl ltac:(reflexivity) eq_refl eq_refl
    ltac:(reflexivity))).
  vm_compute. reflexivity.
Defined.

(** C7 on the demo match with the statement update raising. *)
Lemma create_reconciliation_record_best_effort_witness :
  fst (create_reconciliation_record (mk_match demo_statement demo_outgoing "outgoing" 1 "exact")
         (mk_world demo_db [true; true; false] [])) = Ok tt.
Proof.
  apply (create_reconciliation_record_best_effort
           (mk_match demo_statement demo_outgoing "outgoing" 1 "exact") demo_db true true false [] []).
  left. reflexivity.
Defined.

(** C8 on a three-line invoice. *)
Lemma invoice_scenario_first_occurrences_witness :
  classify_document_advanced
    ("Invoice #: INV-2024-001" ++ nl ++ "Due Date: February 14, 2024" ++ nl ++ "Total: $1,014.69")
    = "invoice".
Proof.
  apply (invoice_scenario_first_occurrences
    ("Invoice #: INV-2024-001" ++ nl ++ "Due Date: February 14, 2024" ++ nl ++ "Total: $1,014.69")
    "" (nl ++ "Due Date: February 14, 2024" ++ nl ++ "Total: $1,014.69")
    ("Invoice #: INV-2024-001" ++ nl ++ "Due Date: February 14, 2024" ++ nl) ""
    ("Invoice #: INV-2024-001" ++ nl) (nl ++ "Total: $1,014.69"));
    vm_compute; reflexivity.
Defined.

(** C9 on [scan.docx]. *)
Lemma unsupported_extension_sentinel_witness :
  ex_method (extract_text_advanced (fun _ => mk_extraction "" 0 "ocr") (fun _ => mk_extraction "" 0 "pdf")
               (fun _ => mk_extraction "" 0 "txt") "scan.docx") = "unsupported".
Proof.
  apply (unsupported_extension_sentinel (fun _ => mk_extraction "" 0 "ocr")
           (fun _ => mk_extraction "" 0 "pdf") (fun _ => mk_extraction "" 0 "txt") "scan.docx").
  vm_compute. intuition discriminate.
Defined.

(** C10 on the type [unknown]. *)
Lemma structured_fields_empty_outside_witness :
  extract_structured_fields "Total: $5.00" "unknown" = [].
Proof.
  apply structured_fields_empty_outside. vm_compute. intuition discriminate.
Defined.

(* ------------------------------------------------------------------ *)
(** * Further properties of the code *)




Lemma create_reconciliation_record_no_fail (m : match_rec) (d : db) (out : list string)
    (Hty : m_business_transaction_type m = "outgoing" \/ m_business_transaction_type m = "incoming") :
  create_reconciliation_record m (mk_world d [] out) =
    (Ok tt, mk_world (record_writes (reconciliation_data m) d) [] out).
Proof.
  destruct m as [s b ty c k]. cbn in Hty. destruct Hty as [-> | ->]; reflexivity.
Qed.


Lemma exact_loop_no_fail (bt : string) (bs : list business_trans)
    (Hbt : bt = "outgoing" \/ bt = "incoming") :
  forall stmts ms mb acc d out, exists ms' mb' new,
    exact_loop bt bs stmts ms mb acc (mk_world d [] out) =
      (Ok (ms', mb', app acc new), mk_world (writes_of new d) [] out) /\
    Forall (fun m => m_business_transaction_type m = bt) new.
Proof.
  induction stmts as [|s ss IH]; intros ms mb acc d out; cbn [exact_loop].
  - exists ms, mb, []. rewrite app_nil_r. split; [reflexivity|constructor].
  - destruct (memb (st_id s) ms); [apply IH|].
    destruct (find_business bt s bs mb) as [b|]; [|apply IH].
    unfold bind at 1. rewrite create_reconciliation_record_no_fail by (cbn; exact Hbt).
    destruct (IH (app ms [st_id s]) (app mb [bt_id b]) (app acc [mk_match s b bt 1 "exact"])
                (record_writes (reconciliation_data (mk_match s b bt 1 "exact")) d) out)
      as (ms' & mb' & new & E & F).
    exists ms', mb', (mk_match s b bt 1 "exact" :: new). rewrite E, <- app_assoc.
    split; [reflexivity|]. constructor; [reflexivity|exact F].
Qed.

Lemma run_reconciliation_no_fail (statements : list statement_trans)
    (outgoing incoming : list business_trans) (d : db) (out : list string) :
  exists r s, run_reconciliation statements outgoing incoming (mk_world d [] out) =
      (Ok (r, s), mk_world (writes_of (exact_matches r) d) [] out) /\
    Forall (fun m => m_business_transaction_type m = "outgoing" \/
                     m_business_transaction_type m = "incoming") (exact_matches r).
Proof.
  destruct (exact_loop_no_fail "outgoing" outgoing (or_introl eq_refl) statements [] [] [] d out)
    as (ms1 & mb1 & new1 & E1 & F1).
  destruct (exact_loop_no_fail "incoming" incoming (or_intror eq_refl) statements ms1 mb1
              (app [] new1) (writes_of new1 d) out)
    as (ms2 & mb2 & new2 & E2 & F2).
  set (r := set_exact_matches empty_results (app (app [] new1) new2)).
  destruct (generate_summary_ok r) as (sm & Hsm).
  exists r, sm.
  cbv beta iota zeta delta [run_reconciliation try_except bind run_exact_matching
    run_fuzzy_matching run_amount_matching run_date_matching ret].
  cbn [exact_matches empty_results]. rewrite E1. cbv beta iota.
  rewrite E2. cbv beta iota. fold r. rewrite Hsm. split.
  - unfold writes_of. cbn [r exact_matches set_exact_matches app]. rewrite fold_left_app. reflexivity.
  - cbn [r exact_matches set_exact_matches app]. apply Forall_app.
    split; [eapply Forall_impl; [|exact F1]|eapply Forall_impl; [|exact F2]]; cbn; auto.
Qed.

Lemma record_writes_records (r : recon_data) (d : db) :
  reconciliation_records (record_writes r d) = app (reconciliation_records d) [r].
Proof.
  unfold record_writes, update_statement_rows, update_table, insert_record.
  destruct (String.eqb _ "outgoing_transactions"); [reflexivity|].
  destruct (String.eqb _ "incoming_transactions"); reflexivity.
Qed.

Lemma writes_of_records (l : list match_rec) (d : db) :
  reconciliation_records (writes_of l d) =
    app (reconciliation_records d) (map reconciliation_data l).
Proof.
  revert d. induction l as [|m l IH]; intros d; cbn.
  - rewrite app_nil_r. reflexivity.
  - unfold writes_of in IH. rewrite IH, record_writes_records, <- app_assoc. reflexivity.
Qed.

(** When no store call fails, [run_reconciliation] appends exactly one
    reconciliation record per exact match, in match order, and prints
    nothing. *)
Theorem run_reconciliation_no_failure_records (statements : list statement_trans)
    (outgoing incoming : list business_trans) (w : world) (Hw : w_outcomes w = []) :
  exists r s w', run_reconciliation statements outgoing incoming w = (Ok (r, s), w') /\
    reconciliation_records (w_db w') =
      app (reconciliation_records (w_db w)) (map reconciliation_data (exact_matches r)) /\
    w_stdout w' = w_stdout w.
Proof.
  destruct w as [d os out]. cbn in Hw. subst os.
  destruct (run_reconciliation_no_fail statements outgoing incoming d out) as (r & s & E & _).
  eexists r, s, _. split; [exact E|]. cbn. split; [apply writes_of_records|reflexivity].
Qed.



Lemma set_stmt_matched_done (id : string) (rows : list stmt_row) :
  stmt_done id (set_stmt_matched id true rows).
Proof.
  intros r Hin Hid. unfold set_stmt_matched in Hin. apply in_map_iff in Hin.
  destruct Hin as (r0 & <- & _). destruct (String.eqb_spec (rs_id r0) id); cbn in *; congruence.
Qed.

Lemma set_stmt_matched_keep (id id' : string) (rows : list stmt_row) :
  stmt_done id' rows -> stmt_done id' (set_stmt_matched id true rows).
Proof.
  intros H r Hin Hid. unfold set_stmt_matched in Hin. apply in_map_iff in Hin.
  destruct Hin as (r0 & <- & Hr0). destruct (String.eqb_spec (rs_id r0) id); cbn in *; auto.
Qed.

Lemma set_bus_status_done (id : string) (rows : list bus_row) :
  bus_done id (set_bus_status id "matched" rows).
Proof.
  intros r Hin Hid. unfold set_bus_status in Hin. apply in_map_iff in Hin.
  destruct Hin as (r0 & <- & _). destruct (String.eqb_spec (rb_id r0) id); cbn in *; congruence.
Qed.

Lemma set_bus_status_keep (id id' : string) (rows : list bus_row) :
  bus_done id' rows -> bus_done id' (set_bus_status id "matched" rows).
Proof.
  intros H r Hin Hid. unfold set_bus_status in Hin. apply in_map_iff in Hin.
  destruct Hin as (r0 & <- & Hr0). destruct (String.eqb_spec (rb_id r0) id); cbn in *; auto.
Qed.

Lemma record_writes_done (r : recon_data) (d : db)
    (Hty : rd_business_transaction_type r = "outgoing" \/ rd_business_transaction_type r = "incoming") :
  rec_done r (record_writes r d).
Proof.
  destruct r as [sid bid ty mt c rby]. cbn in Hty.
  unfold rec_done, record_writes, update_statement_rows, update_table, insert_record; cbn.
  destruct Hty as [-> | ->]; cbn; (split; [apply set_stmt_matched_done|]);
    split; intros H; try discriminate H; apply set_bus_status_done.
Qed.

Lemma record_writes_keep (r r' : recon_data) (d : db) :
  rec_done r' d -> rec_done r' (record_writes r d).
Proof.
  intros (H1 & H2 & H3).
  unfold rec_done, record_writes, update_statement_rows, update_table, insert_record.
  destruct (String.eqb _ "outgoing_transactions"); cbn;
    [|destruct (String.eqb _ "incoming_transactions"); cbn].
  all: split; [apply set_stmt_matched_keep; exact H1|].
  all: split; intros H; try apply set_bus_status_keep; auto.
Qed.

Lemma writes_of_keep (l : list match_rec) (d : db) (r' : recon_data) :
  rec_done r' d -> rec_done r' (writes_of l d).
Proof.
  revert d. induction l as [|m l IH]; intros d H; cbn; [exact H|].
  apply IH. apply record_writes_keep. exact H.
Qed.

Lemma writes_of_done (l : list match_rec) (d : db) :
  Forall (fun m => m_business_transaction_type m = "outgoing" \/
                   m_business_transaction_type m = "incoming") l ->
  Forall (fun m => rec_done (reconciliation_data m) (writes_of l d)) l.
Proof.
  revert d. induction l as [|m l IH]; intros d Hf; [constructor|].
  inversion Hf as [|? ? Hm Hl]; subst. constructor.
  - cbn. apply writes_of_keep. apply record_writes_done. exact Hm.
  - apply IH. exact Hl.
Qed.

Lemma get_unreconciled_no_fail (sa oa ia : string -> option string) (account_id : option string)
    (d : db) (out : list string) :
  get_unreconciled_transactions sa oa ia account_id (mk_world d [] out) =
    (Ok (filter (fun r => String.eqb (rb_status r) "unreconciled"
                          && account_filter account_id (oa (rb_id r))) (outgoing_transactions d),
         filter (fun r => String.eqb (rb_status r) "unreconciled"
                          && account_filter account_id (ia (rb_id r))) (incoming_transactions d),
         filter (fun r => negb (rs_is_matched r)
                          && account_filter account_id (sa (rs_id r))) (statement_transactions d)),
     mk_world d [] out).
Proof. reflexivity. Qed.

Lemma excluded_stmt (id : string) (rows : list stmt_row) (p : stmt_row -> bool) :
  stmt_done id rows -> ~ In id (map rs_id (filter (fun r => negb (rs_is_matched r) && p r) rows)).
Proof.
  intros H Hin. apply in_map_iff in Hin. destruct Hin as (r & Hid & Hr).
  apply filter_In in Hr. destruct Hr as [Hr Hp]. rewrite (H r Hr Hid) in Hp. discriminate.
Qed.

Lemma excluded_bus (id : string) (rows : list bus_row) (p : bus_row -> bool) :
  bus_done id rows ->
  ~ In id (map rb_id (filter (fun r => String.eqb (rb_status r) "unreconciled" && p r) rows)).
Proof.
  intros H Hin. apply in_map_iff in Hin. destruct Hin as (r & Hid & Hr).
  apply filter_In in Hr. destruct Hr as [Hr Hp]. rewrite (H r Hr Hid) in Hp. discriminate.
Qed.

(** When no store call fails, a later [get_unreconciled_transactions] (for
    any account filter) no longer returns the statement row or the business
    row of any exact match of the run. *)
Theorem run_then_unreconciled_excludes_matches
    (statement_account outgoing_account incoming_account : string -> option string)
    (account_id : option string) (statements : list statement_trans)
    (outgoing incoming : list business_trans) (w : world) (Hw : w_outcomes w = []) :
  exists r s w', run_reconciliation statements outgoing incoming w = (Ok (r, s), w') /\
    exists og ic ss,
      get_unreconciled_transactions statement_account outgoing_account incoming_account
        account_id w' = (Ok (og, ic, ss), w') /\
      Forall (fun m =>
        ~ In (st_id (m_statement_transaction m)) (map rs_id ss) /\
        (m_business_transaction_type m = "outgoing" ->
           ~ In (bt_id (m_business_transaction m)) (map rb_id og)) /\
        (m_business_transaction_type m = "incoming" ->
           ~ In (bt_id (m_business_transaction m)) (map rb_id ic))) (exact_matches r).
Proof.
  destruct w as [d os out]. cbn in Hw. subst os.
  destruct (run_reconciliation_no_fail statements outgoing incoming d out) as (r & s & E & F).
  eexists r, s, _. split; [exact E|].
  eexists _, _, _. split; [apply get_unreconciled_no_fail|].
  pose proof (writes_of_done (exact_matches r) d F) as D.
  eapply Forall_impl; [|exact D].
  intros m (H1 & H2 & H3). cbn in H1, H2, H3.
  split; [apply excluded_stmt; exact H1|].
  split; intros Ht; [apply excluded_bus; apply H2; exact Ht|apply excluded_bus; apply H3; exact Ht].
Qed.

Lemma create_reconciliation_ok_db (r : recon_data) (w w1 : world)
    (Hty : rd_business_transaction_type r = "outgoing" \/ rd_business_transaction_type r = "incoming") :
  create_reconciliation r w = (Ok tt, w1) -> w_db w1 = record_writes r (w_db w).
Proof.
  destruct r as [sid bid ty mt c rby]. cbn in Hty. destruct w as [d os out].
  destruct Hty as [-> | ->];
  cbv beta iota zeta delta [create_reconciliation try_except bind execute next_outcome
    modify_db raise ret update_transaction_reconciliation_status
    update_statement_transaction_match];
  cbn [rd_business_transaction_type rd_business_transaction_id rd_statement_transaction_id
       w_outcomes w_db w_stdout String.eqb Ascii.eqb Bool.eqb andb];
  repeat (crunch_world; cbn [w_outcomes w_db w_stdout]);
  intros H; try discriminate H; injection H as <-; reflexivity.
Qed.

Lemma get_unreconciled_ok (sa oa ia : string -> option string) (account_id : option string)
    (w w2 : world) og ic ss :
  get_unreconciled_transactions sa oa ia account_id w = (Ok (og, ic, ss), w2) ->
  og = filter (fun r => String.eqb (rb_status r) "unreconciled"
                        && account_filter account_id (oa (rb_id r))) (outgoing_transactions (w_db w)) /\
  ic = filter (fun r => String.eqb (rb_status r) "unreconciled"
                        && account_filter account_id (ia (rb_id r))) (incoming_transactions (w_db w)) /\
  ss = filter (fun r => negb (rs_is_matched r)
                        && account_filter account_id (sa (rs_id r))) (statement_transactions (w_db w)).
Proof.
  destruct w as [d os out].
  cbv beta iota zeta delta [get_unreconciled_transactions try_except bind select next_outcome
    raise ret].
  cbn [w_outcomes w_db w_stdout].
  repeat (crunch_world; cbn [w_outcomes w_db w_stdout]);
  intros H; try discriminate H; injection H as <- <- <- _; auto.
Qed.

(** After [create_reconciliation] succeeds for an outgoing or incoming
    record, a successful [get_unreconciled_transactions] excludes the linked
    statement row and the linked business row. *)
Theorem create_reconciliation_then_unreconciled_excludes
    (statement_account outgoing_account incoming_account : string -> option string)
    (account_id : option string) (r : recon_data) (w w1 w2 : world)
    (og ic : list bus_row) (ss : list stmt_row)
    (Hty : rd_business_transaction_type r = "outgoing" \/ rd_business_transaction_type r = "incoming")
    (Hc : create_reconciliation r w = (Ok tt, w1))
    (Hq : get_unreconciled_transactions statement_account outgoing_account incoming_account
            account_id w1 = (Ok (og, ic, ss), w2)) :
  ~ In (rd_statement_transaction_id r) (map rs_id ss) /\
  (rd_business_transaction_type r = "outgoing" -> ~ In (rd_business_transaction_id r) (map rb_id og)) /\
  (rd_business_transaction_type r = "incoming" -> ~ In (rd_business_transaction_id r) (map rb_id ic)).
Proof.
  apply get_unreconciled_ok in Hq. destruct Hq as (-> & -> & ->).
  rewrite (create_reconciliation_ok_db r w w1 Hty Hc).
  destruct (record_writes_done r (w_db w) Hty) as (H1 & H2 & H3).
  split; [apply excluded_stmt; exact H1|].
  split; intros Ht; [apply excluded_bus; apply H2; exact Ht|apply excluded_bus; apply H3; exact Ht].
Qed.

Lemma create_reconciliation_then_unreconciled_excludes_witness :
  let r := mk_recon_data "s1" "o1" "outgoing" "exact" 1 "system" in
  let w := mk_world demo_db [] [] in
  ~ In "s1" (map rs_id []) /\ (True -> ~ In "o1" (map rb_id [])).
Proof.
  intros r w.
  destruct (create_reconciliation_then_unreconciled_excludes (fun _ => None) (fun _ => None)
              (fun _ => None) None r w (mk_world (record_writes r demo_db) [] [])
              (mk_world (record_writes r demo_db) [] []) [] [] []
              (or_introl eq_refl) eq_refl eq_refl) as (H1 & H2 & _).
  split; [exact H1|intros _; exact (H2 eq_refl)].
Defined.

(** [_filter_by_date] twice is [_filter_by_date] once on the intersection
    of the two ranges. *)
Theorem filter_by_date_compose {A : Type} (transaction_date : A -> option string)
    (fromisoformat : string -> option Z) (lo1 hi1 lo2 hi2 : Z) (transactions : list A) :
  filter_by_date transaction_date fromisoformat lo2 hi2
    (filter_by_date transaction_date fromisoformat lo1 hi1 transactions) =
  filter_by_date transaction_date fromisoformat (Z.max lo1 lo2) (Z.min hi1 hi2) transactions.
Proof.
  induction transactions as [|t l IH]; cbn; [reflexivity|].
  destruct (transaction_date t) as [ds|] eqn:Ed; [|exact IH].
  destruct (is_emptyb ds) eqn:Ee; [exact IH|].
  destruct (fromisoformat ds) as [dd|] eqn:Ef; [|exact IH].
  destruct ((lo1 <=? dd) && (dd <=? hi1))%Z eqn:E1; cbn;
    [rewrite Ed, Ee, Ef, IH|rewrite IH].
  - destruct ((lo2 <=? dd) && (dd <=? hi2))%Z eqn:E2;
      destruct ((Z.max lo1 lo2 <=? dd) && (dd <=? Z.min hi1 hi2))%Z eqn:E3; try reflexivity;
      exfalso; rewrite !andb_true_iff, !Z.leb_le in *;
      rewrite ?andb_false_iff, ?Z.leb_gt in *; lia.
  - destruct ((Z.max lo1 lo2 <=? dd) && (dd <=? Z.min hi1 hi2))%Z eqn:E3; [|reflexivity].
    exfalso. rewrite !andb_true_iff, !Z.leb_le in E3.
    rewrite andb_false_iff, !Z.leb_gt in E1. lia.
Qed.

(** [_filter_by_date] keeps exactly the transactions whose date is present,
    non-empty, parses, and lies in the closed range. *)
Theorem filter_by_date_In {A : Type} (transaction_date : A -> option string)
    (fromisoformat : string -> option Z) (start_date end_date : Z) (transactions : list A) (t : A) :
  In t (filter_by_date transaction_date fromisoformat start_date end_date transactions) <->
  In t transactions /\
  exists s d, transaction_date t = Some s /\ s <> "" /\ fromisoformat s = Some d /\
              (start_date <= d <= end_date)%Z.
Proof.
  induction transactions as [|t' l IH]; cbn.
  - split; [intros []|intros [[] _]].
  - destruct (transaction_date t') as [ds|] eqn:Ed.
    2:{ rewrite IH. split; [intros [H1 H2]; auto|].
        intros [[<-|H1] H2]; [exfalso; destruct H2 as (s & d & Hs & _); congruence|].
        split; assumption. }
    destruct (is_emptyb ds) eqn:Ee.
    { rewrite IH. split; [intros [H1 H2]; auto|].
      intros [[<-|H1] H2]; [exfalso|split; assumption].
      destruct H2 as (s & d & Hs & Hne & _).
      apply Hne. rewrite Ed in Hs. injection Hs as <-. destruct ds; [reflexivity|discriminate]. }
    destruct (fromisoformat ds) as [dd|] eqn:Ef.
    2:{ rewrite IH. split; [intros [H1 H2]; auto|].
        intros [[<-|H1] H2]; [exfalso|split; assumption].
        destruct H2 as (s & d & Hs & _ & Hf & _).
        rewrite Ed in Hs. injection Hs as <-. congruence. }
    destruct ((start_date <=? dd) && (dd <=? end_date))%Z eqn:Er.
    + cbn. rewrite IH. split.
      * intros [<-|[H1 H2]]; [|auto]. split; [auto|].
        exists ds, dd. rewrite andb_true_iff, !Z.leb_le in Er.
        repeat split; auto; try lia. intros ->. discriminate.
      * intros [[<-|H1] H2]; auto.
    + rewrite IH. split; [intros [H1 H2]; auto|].
      intros [[<-|H1] H2]; [exfalso|split; assumption].
      destruct H2 as (s & d & Hs & _ & Hf & Hr).
      rewrite Ed in Hs. injection Hs as <-. rewrite Ef in Hf. injection Hf as <-.
      rewrite andb_false_iff, !Z.leb_gt in Er. lia.
Qed.

(** ** Sorting *)

Lemma insert_desc_perm (x : candidate) (l : list candidate) :
  Permutation (insert_desc x l) (x :: l).
Proof.
  induction l as [|y l IH]; cbn; [reflexivity|].
  destruct (Qlt_le_dec (cand_conf y) (cand_conf x)); [reflexivity|].
  etransitivity; [apply perm_skip; exact IH|apply perm_swap].
Qed.

Lemma sort_desc_perm (l : list candidate) : Permutation (sort_desc l) l.
Proof.
  unfold sort_desc.
  assert (H : forall acc, Permutation (fold_left (fun acc x => insert_desc x acc) l acc) (app l acc)).
  { induction l as [|x l IH]; intros acc; cbn; [reflexivity|].
    etransitivity; [apply IH|].
    etransitivity; [apply Permutation_app_head; apply insert_desc_perm|].
    symmetry. apply Permutation_middle. }
  rewrite <- (app_nil_r l) at 2. apply H.
Qed.


Lemma insert_desc_hd (a x : candidate) (l : list candidate) :
  HdRel conf_desc a l -> conf_desc a x -> HdRel conf_desc a (insert_desc x l).
Proof.
  intros H Hax. destruct l as [|y l]; cbn; [constructor; exact Hax|].
  destruct (Qlt_le_dec (cand_conf y) (cand_conf x)); constructor; [exact Hax|].
  inversion H; assumption.
Qed.

Lemma insert_desc_sorted (x : candidate) (l : list candidate) :
  Sorted conf_desc l -> Sorted conf_desc (insert_desc x l).
Proof.
  induction l as [|y l IH]; intros H; cbn; [repeat constructor|].
  inversion H as [|? ? Hl Hhd]; subst.
  destruct (Qlt_le_dec (cand_conf y) (cand_conf x)) as [Hlt|Hle].
  - constructor; [exact H|]. constructor. unfold conf_desc. apply Qlt_le_weak. exact Hlt.
  - constructor; [apply IH; exact Hl|]. apply insert_desc_hd; [exact Hhd|exact Hle].
Qed.

Lemma sort_desc_sorted (l : list candidate) : Sorted conf_desc (sort_desc l).
Proof.
  unfold sort_desc.
  assert (H : forall acc, Sorted conf_desc acc ->
                Sorted conf_desc (fold_left (fun acc x => insert_desc x acc) l acc)).
  { induction l as [|x l IH]; intros acc Hacc; cbn; [exact Hacc|].
    apply IH. apply insert_desc_sorted. exact Hacc. }
  apply H. constructor.
Qed.

Lemma Forall_perm {A} (P : A -> Prop) (l l' : list A) :
  Permutation l l' -> Forall P l' -> Forall P l.
Proof.
  intros Hp Hf. rewrite Forall_forall in *. intros x Hx. apply Hf.
  eapply Permutation_in; [exact Hp|exact Hx].
Qed.

(** ** Transaction-type tests *)

Lemma type_misaligned_false (bt : string) (s : statement_trans) :
  type_misaligned bt s = Ok false ->
  (bt = "outgoing" -> type_is (st_transaction_type s) "debit" = true) /\
  (bt = "incoming" -> type_is (st_transaction_type s) "credit" = true).
Proof.
  unfold type_misaligned, type_is, lower_type, rbind.
  destruct (String.eqb_spec bt "outgoing") as [->|Ho];
    [|destruct (String.eqb_spec bt "incoming") as [->|Hi]];
    destruct (st_transaction_type s) as [t|]; try discriminate;
    try (intros H; injection H as H; apply negb_false_iff in H);
    split; intros E; try discriminate E; try congruence; auto.
Qed.

Lemma type_misaligned_aligned (bt : string) (s : statement_trans) :
  (bt = "outgoing" -> type_is (st_transaction_type s) "debit" = true) ->
  (bt = "incoming" -> type_is (st_transaction_type s) "credit" = true) ->
  type_misaligned bt s = Ok false.
Proof.
  unfold type_misaligned, type_is, lower_type, rbind.
  destruct (String.eqb_spec bt "outgoing") as [->|Ho];
    [|destruct (String.eqb_spec bt "incoming") as [->|Hi]];
    intros H1 H2; try reflexivity;
    [specialize (H1 eq_refl)|specialize (H2 eq_refl)];
    destruct (st_transaction_type s) as [t|]; try discriminate; cbn;
    [rewrite H1|rewrite H2]; reflexivity.
Qed.

Lemma type_misaligned_total (bt : string) (s : statement_trans) :
  st_transaction_type s <> None -> exists k, type_misaligned bt s = Ok k.
Proof.
  intros H. unfold type_misaligned, rbind, lower_type.
  destruct (st_transaction_type s) as [t|]; [|congruence].
  destruct (String.eqb bt "outgoing"); [eexists; reflexivity|].
  destruct (String.eqb bt "incoming"); eexists; reflexivity.
Qed.

(** ** [AmountMatcher.find_matches] *)

Lemma amount_inner_sound (tol : Q) (bt : string) (s : statement_trans) (sa : Q) :
  forall bs l, amount_inner tol bt s sa bs = Ok l ->
  Forall (fun x => fst (fst x) = s /\ In (snd (fst x)) bs /\
    exists ba, bt_amount (snd (fst x)) = Some ba /\ Qabs (sa - ba) <= tol /\
      type_misaligned bt s = Ok false /\ ~ (Qmax sa ba == 0) /\
      snd x = 1 - Qabs (sa - ba) / Qmax sa ba) l.
Proof.
  induction bs as [|b bs IH]; intros l; cbn [amount_inner].
  - intros H; injection H as <-. constructor.
  - destruct (bt_amount b) as [ba|] eqn:Eba; [|discriminate].
    assert (Hw : forall l, Forall (fun x => fst (fst x) = s /\ In (snd (fst x)) bs /\
       exists ba, bt_amount (snd (fst x)) = Some ba /\ Qabs (sa - ba) <= tol /\
       type_misaligned bt s = Ok false /\ ~ (Qmax sa ba == 0) /\
       snd x = 1 - Qabs (sa - ba) / Qmax sa ba) l ->
       Forall (fun x => fst (fst x) = s /\ In (snd (fst x)) (b :: bs) /\
       exists ba, bt_amount (snd (fst x)) = Some ba /\ Qabs (sa - ba) <= tol /\
       type_misaligned bt s = Ok false /\ ~ (Qmax sa ba == 0) /\
       snd x = 1 - Qabs (sa - ba) / Qmax sa ba) l).
    { intros l0. apply Forall_impl. intros x (H1 & H2 & H3). split; [exact H1|].
      split; [right; exact H2|exact H3]. }
    destruct (Qle_bool (Qabs (sa - ba)) tol) eqn:Etol; [|intros H; apply Hw, IH, H].
    destruct (type_misaligned bt s) as [[|]|e] eqn:Emis; cbn [rbind]; [intros H; apply Hw, IH, H| |discriminate].
    unfold py_div. destruct (Qeq_bool (Qmax sa ba) 0) eqn:Ez; cbn [rbind]; [discriminate|].
    destruct (amount_inner tol bt s sa bs) as [rest|e] eqn:Er; cbn [rbind]; [|discriminate].
    intros H; injection H as <-. constructor.
    + cbn. split; [reflexivity|]. split; [left; reflexivity|].
      exists ba. split; [exact Eba|]. split; [apply Qle_bool_iff; exact Etol|].
      split; [reflexivity|]. split; [|reflexivity].
      intros Hq. apply Qeq_bool_iff in Hq. congruence.
    + apply Hw, IH. reflexivity.
Qed.

Lemma amount_outer_sound (tol : Q) (bt : string) (bs : list business_trans) :
  forall stmts l, amount_outer tol bt stmts bs = Ok l ->
  Forall (fun x => In (fst (fst x)) stmts /\ In (snd (fst x)) bs /\
    exists sa ba, st_amount (fst (fst x)) = Some sa /\ bt_amount (snd (fst x)) = Some ba /\
      Qabs (Qabs sa - ba) <= tol /\ type_misaligned bt (fst (fst x)) = Ok false /\
      ~ (Qmax (Qabs sa) ba == 0) /\
      snd x = 1 - Qabs (Qabs sa - ba) / Qmax (Qabs sa) ba) l.
Proof.
  induction stmts as [|s ss IH]; intros l; cbn [amount_outer].
  - intros H; injection H as <-. constructor.
  - destruct (st_amount s) as [sa|] eqn:Esa; [|discriminate].
    destruct (amount_inner tol bt s (Qabs sa) bs) as [m1|e] eqn:E1; cbn; [|discriminate].
    destruct (amount_outer tol bt ss bs) as [m2|e] eqn:E2; cbn; [|discriminate].
    intros H; injection H as <-. apply Forall_app. split.
    + eapply Forall_impl; [|exact (amount_inner_sound _ _ _ _ _ _ E1)].
      intros x (H1 & H2 & ba & H3 & H4 & H5 & H6 & H7). subst s.
      split; [left; reflexivity|]. split; [exact H2|]. exists sa, ba. auto 7.
    + eapply Forall_impl; [|exact (IH _ eq_refl)].
      intros x (H1 & H2 & H3). split; [right; exact H1|]. auto.
Qed.

(** [AmountMatcher.find_matches], when it returns, lists candidates by
    non-increasing confidence; each pairs a given statement with a given
    business transaction whose amounts are within the tolerance, whose type
    agrees with the business side, and whose confidence is
    [1 - diff / max]. *)
Theorem amount_find_matches_sound (amount_tolerance : Q) (statements : list statement_trans)
    (business_transactions : list business_trans) (business_type : string) (l : list candidate)
    (Hok : amount_find_matches amount_tolerance statements business_transactions business_type = Ok l) :
  Sorted (fun x y => cand_conf y <= cand_conf x) l /\
  Forall (fun x => let '(s, b, c) := x in
    In s statements /\ In b business_transactions /\
    exists sa ba, st_amount s = Some sa /\ bt_amount b = Some ba /\
      Qabs (Qabs sa - ba) <= amount_tolerance /\
      (business_type = "outgoing" -> type_is (st_transaction_type s) "debit" = true) /\
      (business_type = "incoming" -> type_is (st_transaction_type s) "credit" = true) /\
      c = 1 - Qabs (Qabs sa - ba) / Qmax (Qabs sa) ba) l.
Proof.
  unfold amount_find_matches in Hok.
  destruct (amount_outer amount_tolerance business_type statements business_transactions)
    as [m|e] eqn:E; cbn in Hok; [|discriminate].
  injection Hok as <-. split; [apply sort_desc_sorted|].
  apply (Forall_perm _ _ m (sort_desc_perm m)).
  eapply Forall_impl; [|exact (amount_outer_sound _ _ _ _ _ E)].
  intros [[s b] c] (H1 & H2 & sa & ba & H3 & H4 & H5 & H6 & H7 & H8). cbn in *.
  apply type_misaligned_false in H6. destruct H6 as [H6 H6'].
  split; [exact H1|]. split; [exact H2|]. exists sa, ba. auto 8.
Qed.

Lemma amount_inner_ok_inv (tol : Q) (bt : string) (s : statement_trans) (sa : Q) :
  forall bs l, amount_inner tol bt s sa bs = Ok l ->
  forall b, In b bs -> exists ba, bt_amount b = Some ba /\
    (Qabs (sa - ba) <= tol -> type_misaligned bt s = Ok false ->
     ~ (Qmax sa ba == 0) /\ exists c, In (s, b, c) l).
Proof.
  induction bs as [|b0 bs IH]; intros l H b Hin; [destruct Hin|].
  cbn [amount_inner] in H.
  destruct (bt_amount b0) as [ba0|] eqn:E0; [|discriminate].
  destruct Hin as [<-|Hin].
  - exists ba0. split; [exact E0|]. intros Htol Hmis.
    assert (Et : Qle_bool (Qabs (sa - ba0)) tol = true) by (apply Qle_bool_iff; exact Htol).
    rewrite Et, Hmis in H. cbn [rbind] in H. unfold py_div in H.
    destruct (Qeq_bool (Qmax sa ba0) 0) eqn:Ez; cbn [rbind] in H; [discriminate|].
    destruct (amount_inner tol bt s sa bs) as [rest|e]; cbn [rbind] in H; [|discriminate].
    injection H as <-. split.
    + intros Hq. apply Qeq_bool_iff in Hq. congruence.
    + eexists. left. reflexivity.
  - assert (Hr : exists rest, amount_inner tol bt s sa bs = Ok rest /\ incl rest l).
    { destruct (Qle_bool (Qabs (sa - ba0)) tol); [|exists l; split; [exact H|apply incl_refl]].
      destruct (type_misaligned bt s) as [[|]|e]; cbn [rbind] in H;
        [exists l; split; [exact H|apply incl_refl]| |discriminate].
      destruct (py_div (Qabs (sa - ba0)) (Qmax sa ba0)); cbn [rbind] in H; [|discriminate].
      destruct (amount_inner tol bt s sa bs) as [rest|e]; cbn [rbind] in H; [|discriminate].
      injection H as <-. exists rest. split; [reflexivity|apply incl_tl, incl_refl]. }
    destruct Hr as (rest & Hr & Hincl).
    destruct (IH _ Hr b Hin) as (ba & Hba & Hk). exists ba. split; [exact Hba|].
    intros Htol Hmis. destruct (Hk Htol Hmis) as (Hz & c & Hc).
    split; [exact Hz|]. exists c. apply Hincl, Hc.
Qed.

Lemma amount_outer_ok_inv (tol : Q) (bt : string) (bs : list business_trans) :
  forall stmts l, amount_outer tol bt stmts bs = Ok l ->
  forall s, In s stmts -> exists sa l1, st_amount s = Some sa /\
    amount_inner tol bt s (Qabs sa) bs = Ok l1 /\ incl l1 l.
Proof.
  induction stmts as [|s0 ss IH]; intros l H s Hin; [destruct Hin|].
  cbn [amount_outer] in H.
  destruct (st_amount s0) as [sa0|] eqn:E0; [|discriminate].
  destruct (amount_inner tol bt s0 (Qabs sa0) bs) as [m1|e] eqn:E1; cbn [rbind] in H; [|discriminate].
  destruct (amount_outer tol bt ss bs) as [m2|e] eqn:E2; cbn [rbind] in H; [|discriminate].
  injection H as <-. destruct Hin as [<-|Hin].
  - exists sa0, m1. split; [exact E0|]. split; [exact E1|]. apply incl_appl, incl_refl.
  - destruct (IH _ eq_refl s Hin) as (sa & l1 & H1 & H2 & H3).
    exists sa, l1. split; [exact H1|]. split; [exact H2|]. apply incl_appr, H3.
Qed.

(** [AmountMatcher.find_matches], when it returns, lists every pair within
    the tolerance whose statement type agrees with the business side. *)
Theorem amount_find_matches_complete (amount_tolerance : Q) (statements : list statement_trans)
    (business_transactions : list business_trans) (business_type : string) (l : list candidate)
    (Hok : amount_find_matches amount_tolerance statements business_transactions business_type = Ok l)
    (s : statement_trans) (b : business_trans) (sa ba : Q)
    (Hs : In s statements) (Hb : In b business_transactions)
    (Hsa : st_amount s = Some sa) (Hba : bt_amount b = Some ba)
    (Htol : Qabs (Qabs sa - ba) <= amount_tolerance)
    (Hout : business_type = "outgoing" -> type_is (st_transaction_type s) "debit" = true)
    (Hin : business_type = "incoming" -> type_is (st_transaction_type s) "credit" = true) :
  exists c, In (s, b, c) l.
Proof.
  unfold amount_find_matches in Hok.
  destruct (amount_outer amount_tolerance business_type statements business_transactions)
    as [m|e] eqn:E; cbn [rbind] in Hok; [|discriminate].
  injection Hok as <-.
  destruct (amount_outer_ok_inv _ _ _ _ _ E s Hs) as (sa' & l1 & H1 & H2 & H3).
  rewrite Hsa in H1. injection H1 as <-.
  destruct (amount_inner_ok_inv _ _ _ _ _ _ H2 b Hb) as (ba' & H4 & H5).
  rewrite Hba in H4. injection H4 as <-.
  destruct (H5 Htol (type_misaligned_aligned _ _ Hout Hin)) as (_ & c & Hc).
  exists c. apply (Permutation_in _ (Permutation_sym (sort_desc_perm m))). apply H3, Hc.
Qed.

(** [AmountMatcher.find_matches] raises when a statement amount does not
    convert, when there is a statement and some business amount does not
    convert, or when a zero statement amount meets a non-positive business
    amount within the tolerance and with an agreeing type. *)
Theorem amount_find_matches_raises (amount_tolerance : Q) (statements : list statement_trans)
    (business_transactions : list business_trans) (business_type : string)
    (H : (exists s, In s statements /\ st_amount s = None) \/
         (statements <> [] /\ exists b, In b business_transactions /\ bt_amount b = None) \/
         (exists s b sa ba, In s statements /\ In b business_transactions /\
            st_amount s = Some sa /\ bt_amount b = Some ba /\ sa == 0 /\ ba <= 0 /\
            Qabs (Qabs sa - ba) <= amount_tolerance /\
            (business_type = "outgoing" -> type_is (st_transaction_type s) "debit" = true) /\
            (business_type = "incoming" -> type_is (st_transaction_type s) "credit" = true))) :
  exists e, amount_find_matches amount_tolerance statements business_transactions business_type = Err e.
Proof.
  destruct (amount_find_matches amount_tolerance statements business_transactions business_type)
    as [l|e] eqn:Ef; [exfalso|eexists; reflexivity].
  unfold amount_find_matches in Ef.
  destruct (amount_outer amount_tolerance business_type statements business_transactions)
    as [m|e] eqn:E; cbn [rbind] in Ef; [|discriminate].
  pose proof (amount_outer_ok_inv _ _ _ _ _ E) as Ho.
  destruct H as [(s & Hs & Hn)|[(Hne & b & Hb & Hn)|(s & b & sa & ba & Hs & Hb & Hsa & Hba & Hz & Hle & Htol & Hout & Hin)]].
  - destruct (Ho s Hs) as (sa & _ & H1 & _). congruence.
  - destruct statements as [|s ss]; [congruence|].
    destruct (Ho s (or_introl eq_refl)) as (sa & l1 & _ & H2 & _).
    destruct (amount_inner_ok_inv _ _ _ _ _ _ H2 b Hb) as (ba & H4 & _). congruence.
  - destruct (Ho s Hs) as (sa' & l1 & H1 & H2 & _). rewrite Hsa in H1. injection H1 as <-.
    destruct (amount_inner_ok_inv _ _ _ _ _ _ H2 b Hb) as (ba' & H4 & H5).
    rewrite Hba in H4. injection H4 as <-.
    destruct (H5 Htol (type_misaligned_aligned _ _ Hout Hin)) as (Hnz & _).
    apply Hnz. assert (Ha : Qabs sa == 0) by (rewrite Hz; reflexivity).
    rewrite Q.max_l; [exact Ha|]. rewrite Ha. exact Hle.
Qed.

Lemma qabs_diff_le_max (x y : Q) : 0 <= x -> 0 <= y -> Qabs (x - y) <= Qmax x y.
Proof.
  intros Hx Hy.
  apply (Qabs_case (x - y) (fun z => z <= Qmax x y)); intros _;
    destruct (Q.max_spec x y) as [[H1 H2]|[H1 H2]]; rewrite H2; lra.
Qed.

(** With non-negative business amounts, every confidence
    [AmountMatcher.find_matches] reports lies in [0, 1]. *)
Theorem amount_find_matches_confidence_range (amount_tolerance : Q)
    (statements : list statement_trans) (business_transactions : list business_trans)
    (business_type : string) (l : list candidate)
    (Hok : amount_find_matches amount_tolerance statements business_transactions business_type = Ok l)
    (Hnn : forall b ba, In b business_transactions -> bt_amount b = Some ba -> 0 <= ba) :
  Forall (fun x => 0 <= cand_conf x <= 1) l.
Proof.
  unfold amount_find_matches in Hok.
  destruct (amount_outer amount_tolerance business_type statements business_transactions)
    as [m|e] eqn:E; cbn [rbind] in Hok; [|discriminate].
  injection Hok as <-.
  apply (Forall_perm _ _ m (sort_desc_perm m)).
  eapply Forall_impl; [|exact (amount_outer_sound _ _ _ _ _ E)].
  intros [[s b] c] (H1 & H2 & sa & ba & H3 & H4 & H5 & H6 & H7 & H8). cbn [fst snd] in *. subst c.
  pose proof (Hnn b ba H2 H4) as Hba. pose proof (Qabs_nonneg sa) as Hsa.
  assert (Hm : 0 < Qmax (Qabs sa) ba).
  { assert (H0 : 0 <= Qmax (Qabs sa) ba) by (eapply Qle_trans; [exact Hsa|apply Q.le_max_l]).
    apply Qle_lteq in H0. destruct H0 as [H0|H0]; [exact H0|].
    exfalso. apply H7. symmetry. exact H0. }
  pose proof (qabs_diff_le_max _ _ Hsa Hba) as Hd.
  pose proof (Qabs_nonneg (Qabs sa - ba)) as Hd0.
  assert (Hq0 : 0 <= Qabs (Qabs sa - ba) / Qmax (Qabs sa) ba).
  { apply Qle_shift_div_l; [exact Hm|]. rewrite Qmult_0_l. exact Hd0. }
  assert (Hq1 : Qabs (Qabs sa - ba) / Qmax (Qabs sa) ba <= 1).
  { apply Qle_shift_div_r; [exact Hm|]. rewrite Qmult_1_l. exact Hd. }
  unfold cand_conf. cbn [snd]. split; lra.
Qed.

(** ** [DateMatcher.find_matches] *)

Lemma date_inner_sound (tol : Z) (bt : string) (s : statement_trans) (sd : Z) :
  forall bs l, date_inner tol bt s sd bs = Ok l ->
  Forall (fun x => fst (fst x) = s /\ In (snd (fst x)) bs /\
    exists bd, bt_transaction_date (snd (fst x)) = Some bd /\ (Z.abs (sd - bd) <= tol)%Z /\
      type_misaligned bt s = Ok false /\
      snd x = 1 - inject_Z (Z.abs (sd - bd)) / inject_Z (tol + 1)) l.
Proof.
  induction bs as [|b bs IH]; intros l; cbn [date_inner].
  - intros H; injection H as <-. constructor.
  - assert (Hw : forall l, Forall (fun x => fst (fst x) = s /\ In (snd (fst x)) bs /\
       exists bd, bt_transaction_date (snd (fst x)) = Some bd /\ (Z.abs (sd - bd) <= tol)%Z /\
       type_misaligned bt s = Ok false /\
       snd x = 1 - inject_Z (Z.abs (sd - bd)) / inject_Z (tol + 1)) l ->
       Forall (fun x => fst (fst x) = s /\ In (snd (fst x)) (b :: bs) /\
       exists bd, bt_transaction_date (snd (fst x)) = Some bd /\ (Z.abs (sd - bd) <= tol)%Z /\
       type_misaligned bt s = Ok false /\
       snd x = 1 - inject_Z (Z.abs (sd - bd)) / inject_Z (tol + 1)) l).
    { intros l0. apply Forall_impl. intros x (H1 & H2 & H3). split; [exact H1|].
      split; [right; exact H2|exact H3]. }
    destruct (bt_transaction_date b) as [bd|] eqn:Ebd; [|intros H; apply Hw, IH, H].
    destruct (Z.abs (sd - bd) <=? tol)%Z eqn:Etol; [|intros H; apply Hw, IH, H].
    destruct (type_misaligned bt s) as [[|]|e] eqn:Emis; cbn [rbind];
      [intros H; apply Hw, IH, H| |discriminate].
    unfold py_div. destruct (Qeq_bool (inject_Z (tol + 1)) 0); cbn [rbind]; [discriminate|].
    destruct (date_inner tol bt s sd bs) as [rest|e] eqn:Er; cbn [rbind]; [|discriminate].
    intros H; injection H as <-. constructor.
    + cbn [fst snd]. split; [reflexivity|]. split; [left; reflexivity|].
      exists bd. split; [exact Ebd|]. split; [apply Z.leb_le; exact Etol|].
      split; reflexivity.
    + apply Hw, IH. reflexivity.
Qed.

Lemma date_outer_sound (tol : Z) (bt : string) (bs : list business_trans) :
  forall stmts l, date_outer tol bt stmts bs = Ok l ->
  Forall (fun x => In (fst (fst x)) stmts /\ In (snd (fst x)) bs /\
    exists sd bd, st_transaction_date (fst (fst x)) = Some sd /\
      bt_transaction_date (snd (fst x)) = Some bd /\ (Z.abs (sd - bd) <= tol)%Z /\
      type_misaligned bt (fst (fst x)) = Ok false /\
      snd x = 1 - inject_Z (Z.abs (sd - bd)) / inject_Z (tol + 1)) l.
Proof.
  induction stmts as [|s ss IH]; intros l; cbn [date_outer].
  - intros H; injection H as <-. constructor.
  - destruct (st_transaction_date s) as [sd|] eqn:Esd.
    + destruct (date_inner tol bt s sd bs) as [m1|e] eqn:E1; cbn [rbind]; [|discriminate].
      destruct (date_outer tol bt ss bs) as [m2|e] eqn:E2; cbn [rbind]; [|discriminate].
      intros H; injection H as <-. apply Forall_app. split.
      * eapply Forall_impl; [|exact (date_inner_sound _ _ _ _ _ _ E1)].
        intros x (H1 & H2 & bd & H3 & H4 & H5 & H6). subst s.
        split; [left; reflexivity|]. split; [exact H2|]. exists sd, bd. auto 6.
      * eapply Forall_impl; [|exact (IH _ eq_refl)].
        intros x (H1 & H2 & H3). split; [right; exact H1|]. auto.
    + intros H. eapply Forall_impl; [|exact (IH _ H)].
      intros x (H1 & H2 & H3). split; [right; exact H1|]. auto.
Qed.

(** [DateMatcher.find_matches], when it returns, lists candidates by
    non-increasing confidence; each pairs dated transactions at most the
    tolerance apart, with an agreeing type, and confidence
    [1 - days / (tolerance + 1)], which lies in (0, 1]. *)
Theorem date_find_matches_sound (date_tolerance_days : Z) (statements : list statement_trans)
    (business_transactions : list business_trans) (business_type : string) (l : list candidate)
    (Hok : date_find_matches date_tolerance_days statements business_transactions business_type = Ok l) :
  Sorted (fun x y => cand_conf y <= cand_conf x) l /\
  Forall (fun x => let '(s, b, c) := x in
    In s statements /\ In b business_transactions /\
    exists sd bd, st_transaction_date s = Some sd /\ bt_transaction_date b = Some bd /\
      (Z.abs (sd - bd) <= date_tolerance_days)%Z /\
      (business_type = "outgoing" -> type_is (st_transaction_type s) "debit" = true) /\
      (business_type = "incoming" -> type_is (st_transaction_type s) "credit" = true) /\
      c = 1 - inject_Z (Z.abs (sd - bd)) / inject_Z (date_tolerance_days + 1) /\
      0 < c <= 1) l.
Proof.
  unfold date_find_matches in Hok.
  destruct (date_outer date_tolerance_days business_type statements business_transactions)
    as [m|e] eqn:E; cbn [rbind] in Hok; [|discriminate].
  injection Hok as <-. split; [apply sort_desc_sorted|].
  apply (Forall_perm _ _ m (sort_desc_perm m)).
  eapply Forall_impl; [|exact (date_outer_sound _ _ _ _ _ E)].
  intros [[s b] c] (H1 & H2 & sd & bd & H3 & H4 & H5 & H6 & H7). cbn [fst snd] in *.
  apply type_misaligned_false in H6. destruct H6 as [H6 H6'].
  split; [exact H1|]. split; [exact H2|]. exists sd, bd.
  do 6 (split; [assumption|]).
  assert (Ht : 0 < inject_Z (date_tolerance_days + 1)).
  { change 0 with (inject_Z 0). rewrite <- Zlt_Qlt. lia. }
  assert (Hq0 : 0 <= inject_Z (Z.abs (sd - bd)) / inject_Z (date_tolerance_days + 1)).
  { apply Qle_shift_div_l; [exact Ht|]. rewrite Qmult_0_l.
    change 0 with (inject_Z 0). rewrite <- Zle_Qle. lia. }
  assert (Hq1 : inject_Z (Z.abs (sd - bd)) / inject_Z (date_tolerance_days + 1) < 1).
  { apply Qlt_shift_div_r; [exact Ht|]. rewrite Qmult_1_l. rewrite <- Zlt_Qlt. lia. }
  subst c. split; lra.
Qed.

Lemma date_inner_ok_inv (tol : Z) (bt : string) (s : statement_trans) (sd : Z) :
  forall bs l, date_inner tol bt s sd bs = Ok l ->
  forall b bd, In b bs -> bt_transaction_date b = Some bd -> (Z.abs (sd - bd) <= tol)%Z ->
  exists k, type_misaligned bt s = Ok k /\ (k = false -> exists c, In (s, b, c) l).
Proof.
  induction bs as [|b0 bs IH]; intros l H b bd Hin Hbd Htol; [destruct Hin|].
  cbn [date_inner] in H.
  destruct Hin as [<-|Hin].
  - rewrite Hbd in H. apply Z.leb_le in Htol. rewrite Htol in H.
    destruct (type_misaligned bt s) as [[|]|e]; cbn [rbind] in H;
      [exists true; split; [reflexivity|discriminate]| |discriminate].
    exists false. split; [reflexivity|intros _].
    destruct (py_div (inject_Z (Z.abs (sd - bd))) (inject_Z (tol + 1))); cbn [rbind] in H; [|discriminate].
    destruct (date_inner tol bt s sd bs); cbn [rbind] in H; [|discriminate].
    injection H as <-. eexists. left. reflexivity.
  - assert (Hr : exists rest, date_inner tol bt s sd bs = Ok rest /\ incl rest l).
    { destruct (bt_transaction_date b0) as [bd0|]; [|exists l; split; [exact H|apply incl_refl]].
      destruct (Z.abs (sd - bd0) <=? tol)%Z; [|exists l; split; [exact H|apply incl_refl]].
      destruct (type_misaligned bt s) as [[|]|e]; cbn [rbind] in H;
        [exists l; split; [exact H|apply incl_refl]| |discriminate].
      destruct (py_div (inject_Z (Z.abs (sd - bd0))) (inject_Z (tol + 1))); cbn [rbind] in H; [|discriminate].
      destruct (date_inner tol bt s sd bs) as [rest|e]; cbn [rbind] in H; [|discriminate].
      injection H as <-. exists rest. split; [reflexivity|apply incl_tl, incl_refl]. }
    destruct Hr as (rest & Hr & Hincl).
    destruct (IH _ Hr b bd Hin Hbd Htol) as (k & Hk & Hc). exists k. split; [exact Hk|].
    intros Hf. destruct (Hc Hf) as (c & Hc'). exists c. apply Hincl, Hc'.
Qed.

Lemma date_outer_ok_inv (tol : Z) (bt : string) (bs : list business_trans) :
  forall stmts l, date_outer tol bt stmts bs = Ok l ->
  forall s sd, In s stmts -> st_transaction_date s = Some sd ->
  exists l1, date_inner tol bt s sd bs = Ok l1 /\ incl l1 l.
Proof.
  induction stmts as [|s0 ss IH]; intros l H s sd Hin Hsd; [destruct Hin|].
  cbn [date_outer] in H.
  destruct (st_transaction_date s0) as [sd0|] eqn:E0.
  - destruct (date_inner tol bt s0 sd0 bs) as [m1|e] eqn:E1; cbn [rbind] in H; [|discriminate].
    destruct (date_outer tol bt ss bs) as [m2|e] eqn:E2; cbn [rbind] in H; [|discriminate].
    injection H as <-. destruct Hin as [<-|Hin].
    + rewrite Hsd in E0. injection E0 as <-. exists m1. split; [exact E1|]. apply incl_appl, incl_refl.
    + destruct (IH _ eq_refl s sd Hin Hsd) as (l1 & H1 & H2).
      exists l1. split; [exact H1|]. apply incl_appr, H2.
  - destruct Hin as [<-|Hin]; [congruence|]. exact (IH _ H s sd Hin Hsd).
Qed.

Lemma date_inner_total (tol : Z) (bt : string) (s : statement_trans) (sd : Z)
    (Hty : st_transaction_type s <> None) :
  forall bs, exists l, date_inner tol bt s sd bs = Ok l.
Proof.
  destruct (type_misaligned_total bt s Hty) as (k & Hk).
  induction bs as [|b bs (rest & IH)]; cbn [date_inner]; [eexists; reflexivity|].
  rewrite IH.
  destruct (bt_transaction_date b) as [bd|]; [|eexists; reflexivity].
  destruct (Z.abs (sd - bd) <=? tol)%Z eqn:Et; [|eexists; reflexivity].
  rewrite Hk. cbn [rbind]. destruct k; [eexists; reflexivity|].
  unfold py_div. destruct (Qeq_bool (inject_Z (tol + 1)) 0) eqn:Ez.
  - exfalso. apply Qeq_bool_iff in Ez. unfold Qeq in Ez. cbn in Ez. apply Z.leb_le in Et.
    pose proof (Z.abs_nonneg (sd - bd)). lia.
  - cbn [rbind]. eexists; reflexivity.
Qed.

Lemma date_outer_total (tol : Z) (bt : string) (bs : list business_trans) :
  forall stmts, (forall s, In s stmts -> st_transaction_type s <> None) ->
  exists l, date_outer tol bt stmts bs = Ok l.
Proof.
  induction stmts as [|s ss IH]; intros Hty; cbn [date_outer]; [eexists; reflexivity|].
  destruct IH as (m2 & E2); [intros s' Hs'; apply Hty; right; exact Hs'|].
  destruct (st_transaction_date s) as [sd|]; [|exists m2; exact E2].
  destruct (date_inner_total tol bt s sd (Hty s (or_introl eq_refl)) bs) as (m1 & E1).
  rewrite E1, E2. cbn [rbind]. eexists; reflexivity.
Qed.

(** When every statement has a transaction type, [DateMatcher.find_matches]
    returns, and lists every dated pair within the tolerance whose type
    agrees with the business side. *)
Theorem date_find_matches_total_complete (date_tolerance_days : Z)
    (statements : list statement_trans) (business_transactions : list business_trans)
    (business_type : string)
    (Hty : forall s, In s statements -> st_transaction_type s <> None) :
  exists l, date_find_matches date_tolerance_days statements business_transactions business_type = Ok l /\
  forall s b sd bd, In s statements -> In b business_transactions ->
    st_transaction_date s = Some sd -> bt_transaction_date b = Some bd ->
    (Z.abs (sd - bd) <= date_tolerance_days)%Z ->
    (business_type = "outgoing" -> type_is (st_transaction_type s) "debit" = true) ->
    (business_type = "incoming" -> type_is (st_transaction_type s) "credit" = true) ->
    exists c, In (s, b, c) l.
Proof.
  destruct (date_outer_total date_tolerance_days business_type business_transactions statements Hty)
    as (m & E).
  exists (sort_desc m). split; [unfold date_find_matches; rewrite E; reflexivity|].
  intros s b sd bd Hs Hb Hsd Hbd Htol Hout Hin.
  destruct (date_outer_ok_inv _ _ _ _ _ E s sd Hs Hsd) as (l1 & H1 & H2).
  destruct (date_inner_ok_inv _ _ _ _ _ _ H1 b bd Hb Hbd Htol) as (k & Hk & Hc).
  rewrite (type_misaligned_aligned _ _ Hout Hin) in Hk. injection Hk as <-.
  destruct (Hc eq_refl) as (c & Hc').
  exists c. apply (Permutation_in _ (Permutation_sym (sort_desc_perm m))). apply H2, Hc'.
Qed.

(** [DateMatcher.find_matches] on the outgoing or incoming side raises when a
    statement with a null type is within the tolerance of some business
    transaction. *)
Theorem date_find_matches_null_type_raises (date_tolerance_days : Z)
    (statements : list statement_trans) (business_transactions : list business_trans)
    (business_type : string) (s : statement_trans) (b : business_trans) (sd bd : Z)
    (Hbt : business_type = "outgoing" \/ business_type = "incoming")
    (Hs : In s statements) (Hb : In b business_transactions)
    (Hsd : st_transaction_date s = Some sd) (Hbd : bt_transaction_date b = Some bd)
    (Htol : (Z.abs (sd - bd) <= date_tolerance_days)%Z)
    (Hnull : st_transaction_type s = None) :
  exists e, date_find_matches date_tolerance_days statements business_transactions business_type = Err e.
Proof.
  destruct (date_find_matches date_tolerance_days statements business_transactions business_type)
    as [l|e] eqn:Ef; [exfalso|eexists; reflexivity].
  unfold date_find_matches in Ef.
  destruct (date_outer date_tolerance_days business_type statements business_transactions)
    as [m|e] eqn:E; cbn [rbind] in Ef; [|discriminate].
  destruct (date_outer_ok_inv _ _ _ _ _ E s sd Hs Hsd) as (l1 & H1 & _).
  destruct (date_inner_ok_inv _ _ _ _ _ _ H1 b bd Hb Hbd Htol) as (k & Hk & _).
  unfold type_misaligned, lower_type in Hk. rewrite Hnull in Hk.
  destruct Hbt as [->| ->]; cbn in Hk; discriminate.
Qed.

(** ** [FuzzyMatcher._clean_description] *)

Lemma str_app_assoc (a b c : string) : (a ++ b) ++ c = a ++ (b ++ c).
Proof. induction a as [|x a IH]; cbn; [reflexivity|rewrite IH; reflexivity]. Qed.

Lemma str_app_nil_r (a : string) : a ++ "" = a.
Proof. induction a as [|x a IH]; cbn; [reflexivity|rewrite IH; reflexivity]. Qed.

Lemma all_chars_app (p : ascii -> bool) (a b : string) :
  all_chars p (a ++ b) = all_chars p a && all_chars p b.
Proof.
  induction a as [|x a IH]; cbn; [reflexivity|]. rewrite IH. apply andb_assoc.
Qed.

Lemma all_chars_sub_non_alnum (s : string) :
  all_chars (fun c => is_lower_alpha c || is_digit c || is_space c) (sub_non_alnum s) = true.
Proof.
  induction s as [|c s IH]; cbn; [reflexivity|].
  destruct (is_lower_alpha c || is_digit c || is_space c) eqn:E; cbn; rewrite ?E, IH; reflexivity.
Qed.

Lemma collapse_ws_shape (s : string) :
  all_chars (fun c => is_lower_alpha c || is_digit c || is_space c) s = true ->
  forall b,
  all_chars (fun c => is_lower_alpha c || is_digit c || Ascii.eqb c " ") (collapse_ws s b) = true /\
  ~ (exists p q, collapse_ws s b = p ++ "  " ++ q) /\
  (b = true -> ~ exists q, collapse_ws s b = " " ++ q).
Proof.
  induction s as [|c s IH]; intros Hs b; cbn [collapse_ws].
  - split; [reflexivity|]. split.
    + intros (p & q & H). destruct p; discriminate.
    + intros _ (q & H). discriminate.
  - cbn [all_chars] in Hs. apply andb_prop in Hs. destruct Hs as [Hc Hs].
    destruct (IH Hs true) as (Ht1 & Ht2 & Ht3). destruct (IH Hs false) as (Hf1 & Hf2 & _).
    destruct (is_space c) eqn:Esp; [destruct b|].
    + split; [exact Ht1|]. split; [exact Ht2|exact Ht3].
    + split; [cbn; rewrite Ht1; reflexivity|]. split; [|discriminate].
      intros (p & q & H). destruct p as [|x p]; cbn in H.
      * injection H as H. apply (Ht3 eq_refl). exists q. exact H.
      * injection H as _ H. apply Ht2. exists p, q. exact H.
    + assert (Hnc : c <> " "%char) by (intros ->; discriminate Esp).
      rewrite orb_false_r in Hc.
      split; [cbn; rewrite Hc, Hf1; reflexivity|]. split.
      * intros (p & q & H). destruct p as [|x p]; cbn in H.
        -- injection H as Hc' _. exact (Hnc Hc').
        -- injection H as _ H. apply Hf2. exists p, q. exact H.
      * intros _ (q & H). cbn in H. injection H as Hc' _. exact (Hnc Hc').
Qed.

Lemma lstrip_suffix (s : string) : exists p, s = p ++ lstrip s.
Proof.
  induction s as [|c s (p & IH)]; cbn; [exists ""; reflexivity|].
  destruct (is_space c); [exists (String c p); cbn; rewrite <- IH; reflexivity|].
  exists ""; reflexivity.
Qed.

Lemma lstrip_head (s q : string) : lstrip s <> " " ++ q.
Proof.
  induction s as [|c s IH]; cbn; [discriminate|].
  destruct (is_space c) eqn:E; [exact IH|].
  intros H. injection H as -> _. discriminate E.
Qed.

Lemma rev_str_acc (s acc : string) : rev_str s acc = rev_str s "" ++ acc.
Proof.
  revert acc. induction s as [|c s IH]; intros acc; cbn; [reflexivity|].
  rewrite IH, (IH (String c "")), str_app_assoc. reflexivity.
Qed.

Lemma rev_str_app (a b : string) : rev_str (a ++ b) "" = rev_str b "" ++ rev_str a "".
Proof.
  induction a as [|c a IH]; cbn; [rewrite str_app_nil_r; reflexivity|].
  rewrite (rev_str_acc (a ++ b)), (rev_str_acc a (String c "")), IH, str_app_assoc. reflexivity.
Qed.

Lemma rev_str_involutive (s : string) : rev_str (rev_str s "") "" = s.
Proof.
  induction s as [|c s IH]; cbn; [reflexivity|].
  rewrite (rev_str_acc s (String c "")), rev_str_app, IH. reflexivity.
Qed.

(** [strip s] is a middle part of [s], with no leading or trailing space. *)
Lemma strip_shape (s : string) :
  (exists p r, s = p ++ strip s ++ r) /\
  ~ (exists q, strip s = " " ++ q) /\ ~ (exists p, strip s = p ++ " ").
Proof.
  unfold strip.
  destruct (lstrip_suffix s) as (p0 & Hp0).
  set (u := rev_str (lstrip s) "").
  destruct (lstrip_suffix u) as (p1 & Hp1).
  assert (Ht : lstrip s = rev_str (lstrip u) "" ++ rev_str p1 "").
  { rewrite <- rev_str_app, <- Hp1. unfold u. rewrite rev_str_involutive. reflexivity. }
  split; [|split].
  - exists p0, (rev_str p1 ""). rewrite <- Ht. exact Hp0.
  - intros (q & Hq). apply (lstrip_head s (q ++ rev_str p1 "")).
    rewrite Ht, Hq. reflexivity.
  - intros (p & Hp). apply (lstrip_head u (rev_str p "")).
    rewrite <- (rev_str_involutive (lstrip u)), Hp, rev_str_app. reflexivity.
Qed.

(** [_clean_description] returns only lower-case letters, digits and single
    spaces, with no space at either end. *)
Theorem clean_description_normal_form (description : string) :
  normal_form (clean_description description).
Proof.
  unfold clean_description, normal_form.
  destruct (is_emptyb description).
  - split; [reflexivity|]. split; [|split].
    + intros (p & q & H). destruct p; discriminate.
    + intros (q & H). discriminate.
    + intros (p & H). destruct p; discriminate.
  - set (w := collapse_ws (sub_non_alnum _) false).
    destruct (collapse_ws_shape _ (all_chars_sub_non_alnum
                (fold_left (fun acc term => replace term "" acc) banking_terms (lower description))) false)
      as (H1 & H2 & _).
    fold w in H1, H2.
    destruct (strip_shape w) as ((p & r & Hw) & H3 & H4).
    split; [|split; [|split]].
    + rewrite Hw, !all_chars_app in H1.
      apply andb_prop in H1 as [_ H1]. apply andb_prop in H1 as [H1 _]. exact H1.
    + intros (p' & q & H). apply H2. exists (p ++ p'), (q ++ r).
      rewrite Hw, H, !str_app_assoc. reflexivity.
    + exact H3.
    + exact H4.
Qed.

(** ** [FuzzyMatcher.is_match] *)

Lemma calculate_similarity_range (ratio : string -> string -> Q)
    (Hr : forall a b, 0 <= ratio a b <= 1) (t1 t2 : string) :
  0 <= calculate_similarity ratio t1 t2 <= 1.
Proof.
  unfold calculate_similarity. destruct (is_emptyb t1 || is_emptyb t2); [split; discriminate|apply Hr].
Qed.

Lemma text_similarity_range (ratio : string -> string -> Q)
    (Hr : forall a b, 0 <= ratio a b <= 1) (s : statement_trans) (b : business_trans) :
  0 <= text_similarity ratio s b <= 1.
Proof.
  unfold text_similarity.
  set (d := calculate_similarity ratio _ (clean_description (bt_description b))).
  set (v := if is_emptyb (bt_vendor_name b) then 0 else _).
  assert (Hd : 0 <= d <= 1) by apply calculate_similarity_range, Hr.
  assert (Hv : 0 <= v <= 1).
  { unfold v. destruct (is_emptyb (bt_vendor_name b)); [split; discriminate|].
    apply calculate_similarity_range, Hr. }
  split.
  - eapply Qle_trans; [apply Hd|apply Q.le_max_l].
  - apply Q.max_lub; [apply Hd|apply Hv].
Qed.


(** With a similarity ratio in [0, 1], the confidence of
    [FuzzyMatcher.is_match] lies in [0, 1]. *)
Theorem fuzzy_is_match_confidence_range (ratio : string -> string -> Q)
    (Hr : forall a b, 0 <= ratio a b <= 1) (threshold : Q)
    (s : statement_trans) (b : business_trans) (business_type : string) :
  0 <= snd (fuzzy_is_match ratio threshold s b business_type) <= 1.
Proof.
  unfold fuzzy_is_match.
  destruct (st_amount s) as [sa|]; [|split; discriminate].
  destruct (bt_amount b) as [ba|]; [|split; discriminate].
  destruct (Qeq_bool (Qmax (Qabs sa) ba) 0) eqn:Ez; [split; discriminate|].
  destruct (Qlt_le_dec (5 # 100) (Qabs (Qabs sa - ba) / Qmax (Qabs sa) ba)) as [_|Hp];
    [split; discriminate|].
  destruct (st_transaction_date s) as [sd|]; [|split; discriminate].
  destruct (bt_transaction_date b) as [bd|]; [|split; discriminate].
  destruct (Z.ltb 7 (Z.abs (sd - bd))); [split; discriminate|].
  cbn [snd].
  assert (Hm : 0 < Qmax (Qabs sa) ba).
  { assert (H0 : 0 <= Qmax (Qabs sa) ba)
      by (eapply Qle_trans; [apply Qabs_nonneg|apply Q.le_max_l]).
    apply Qle_lteq in H0. destruct H0 as [H0|H0]; [exact H0|].
    exfalso. assert (Hq : Qeq_bool (Qmax (Qabs sa) ba) 0 = true)
      by (apply Qeq_bool_iff; symmetry; exact H0). congruence. }
  assert (Hp0 : 0 <= Qabs (Qabs sa - ba) / Qmax (Qabs sa) ba).
  { apply Qle_shift_div_l; [exact Hm|]. rewrite Qmult_0_l. apply Qabs_nonneg. }
  assert (Hd : 0 <= Qmax 0 (1 - inject_Z (Z.abs (sd - bd)) / 7) <= 1).
  { split; [apply Q.le_max_l|]. apply Q.max_lub; [discriminate|].
    assert (0 <= inject_Z (Z.abs (sd - bd)) / 7).
    { apply Qle_shift_div_l; [reflexivity|]. rewrite Qmult_0_l.
      change 0 with (inject_Z 0). rewrite <- Zle_Qle. lia. }
    lra. }
  pose proof (text_similarity_range ratio Hr s b) as Ht.
  split; lra.
Qed.


(** ** [_classify_document_advanced] *)

Lemma lower_ascii_bracket (c : ascii) : Ascii.eqb "[" (lower_ascii c) = Ascii.eqb "[" c.
Proof. destruct c as [[] [] [] [] [] [] [] []]; reflexivity. Qed.

Lemma prefixb_bracket_lower (t : string) : prefixb "[" (lower t) = prefixb "[" t.
Proof. destruct t as [|c t]; cbn [lower prefixb]; [reflexivity|]. rewrite lower_ascii_bracket. reflexivity. Qed.

Lemma is_emptyb_lower (t : string) : is_emptyb (lower t) = is_emptyb t.
Proof. destruct t; reflexivity. Qed.

Lemma lower_idem (t : string) : lower (lower t) = lower t.
Proof.
  induction t as [|c t IH]; cbn; [reflexivity|]. rewrite IH.
  f_equal. destruct c as [[] [] [] [] [] [] [] []]; reflexivity.
Qed.

(** [_classify_document_advanced] ignores letter case: texts with the same
    lower-case form get the same type. *)
Theorem classify_document_advanced_case_insensitive (text1 text2 : string)
    (H : lower text1 = lower text2) :
  classify_document_advanced text1 = classify_document_advanced text2.
Proof.
  unfold classify_document_advanced.
  rewrite <- (is_emptyb_lower text1), <- (is_emptyb_lower text2),
    <- (prefixb_bracket_lower text1), <- (prefixb_bracket_lower text2), H.
  reflexivity.
Qed.

(** ** The regular-expression engine *)

Lemma greedy_eq (f : nat -> option string) (k lo : nat) :
  greedy f k lo =
  if (k <? lo)%nat then None
  else match f k with
       | Some g => Some g
       | None => match k with O => None | S k' => greedy f k' lo end
       end.
Proof. destruct k; reflexivity. Qed.

Lemma greedy_spec (f : nat -> option string) (lo : nat) :
  forall k g, greedy f k lo = Some g -> exists k', (lo <= k' <= k)%nat /\ f k' = Some g.
Proof.
  induction k as [|k IH]; intros g H; rewrite greedy_eq in H.
  - destruct (0 <? lo)%nat eqn:E; [discriminate|]. apply Nat.ltb_ge in E.
    destruct (f 0%nat) eqn:Ef; cbn in H; [|discriminate]. injection H as <-. exists 0%nat. split; [lia|exact Ef].
  - destruct (S k <? lo)%nat eqn:E; [discriminate|]. apply Nat.ltb_ge in E.
    destruct (f (S k)) eqn:Ef; cbn [Nat.ltb] in H.
    + injection H as <-. exists (S k). split; [lia|exact Ef].
    + destruct (IH g H) as (k' & Hk & Hf). exists k'. split; [lia|exact Hf].
Qed.

Lemma bounds_le (q : quant) (n : nat) : (snd (bounds q n) <= n)%nat.
Proof. destruct q; cbn [bounds snd]; lia. Qed.

Lemma all_chars_take_run (p : ascii -> bool) :
  forall s k, (k <= run_len p s)%nat -> all_chars p (str_take k s) = true.
Proof.
  induction s as [|c s IH]; intros k Hk; destruct k as [|k]; cbn in *; try reflexivity.
  destruct (p c) eqn:E; [|lia]. rewrite IH; [reflexivity|lia].
Qed.

Lemma match_at_step (a : atom) (rest : list atom) (s g : string) :
  match_at (a :: rest) s = Some g ->
  exists k g', (fst (bounds (a_q a) (run_len (a_cls a) s)) <= k)%nat /\
    (k <= run_len (a_cls a) s)%nat /\
    match_at rest (str_drop k s) = Some g' /\
    g = (if a_cap a then str_take k s ++ g' else g').
Proof.
  cbn [match_at]. pose proof (bounds_le (a_q a) (run_len (a_cls a) s)) as Hb.
  destruct (bounds (a_q a) (run_len (a_cls a) s)) as [lo hi]. cbn in Hb |- *.
  intros H. destruct (greedy_spec _ _ _ _ H) as (k & Hk & Hf).
  destruct (match_at rest (str_drop k s)) as [g'|] eqn:E; [|discriminate].
  injection Hf as <-. exists k, g'. repeat split; try lia; exact E.
Qed.

Lemma match_at_chars (P : ascii -> bool) :
  forall atoms s g, match_at atoms s = Some g ->
  (forall a, In a atoms -> a_cap a = true -> forall c, a_cls a c = true -> P c = true) ->
  all_chars P g = true.
Proof.
  induction atoms as [|a rest IH]; intros s g H Hp.
  - injection H as <-. reflexivity.
  - destruct (match_at_step _ _ _ _ H) as (k & g' & _ & Hk & Hr & ->).
    assert (Hg' : all_chars P g' = true).
    { apply (IH _ _ Hr). intros a' Ha'. apply Hp. right. exact Ha'. }
    destruct (a_cap a) eqn:Ec; [|exact Hg'].
    rewrite all_chars_app, Hg', andb_true_r.
    assert (Ht : all_chars (a_cls a) (str_take k s) = true) by (apply all_chars_take_run; exact Hk).
    clear -Ht Hp Ec. induction (str_take k s) as [|c t IHt]; [reflexivity|].
    cbn in Ht |- *. apply andb_prop in Ht as [H1 H2].
    rewrite (Hp a (or_introl eq_refl) Ec c H1). apply IHt, H2.
Qed.

Lemma match_at_skip (pre rest : list atom) (Hpre : Forall (fun a => a_cap a = false) pre) :
  forall s g, match_at (app pre rest) s = Some g -> exists s', match_at rest s' = Some g.
Proof.
  induction Hpre as [|a pre Ha Hpre IH]; intros s g H; [exists s; exact H|].
  destruct (match_at_step _ _ _ _ H) as (k & g' & _ & _ & Hr & ->).
  rewrite Ha. exact (IH _ _ Hr).
Qed.

Lemma match_at_plus_cap (a : atom) (rest : list atom) (s g : string)
    (Hq : a_q a = Plus) (Hc : a_cap a = true) :
  match_at (a :: rest) s = Some g -> exists c g', g = String c g' /\ a_cls a c = true.
Proof.
  intros H. destruct (match_at_step _ _ _ _ H) as (k & g' & Hlo & Hk & _ & ->).
  rewrite Hq in Hlo. cbn in Hlo. rewrite Hc.
  destruct s as [|c s]; cbn in Hk; [lia|].
  destruct (a_cls a c) eqn:Ecl; [|lia].
  destruct k as [|k]; [lia|]. cbn. eexists _, _. split; [reflexivity|exact Ecl].
Qed.

Lemma search_match_at (atoms : list atom) :
  forall s g, search atoms s = Some g -> exists s', match_at atoms s' = Some g.
Proof.
  induction s as [|c s IH]; intros g H; cbn in H;
    destruct (match_at atoms _) eqn:E; try (injection H as <-; eexists; exact E).
  - discriminate.
  - exact (IH _ H).
Qed.

Lemma lit_no_cap (w : string) : Forall (fun a => a_cap a = false) (lit w).
Proof. induction w as [|c w IH]; cbn; constructor; [reflexivity|exact IH]. Qed.

Lemma ci_char_dot (d : ascii) : ci_char "." d = true -> d = "."%char.
Proof. unfold ci_char. destruct d as [[] [] [] [] [] [] [] []]; cbn; first [reflexivity|discriminate]. Qed.

(** The group of [money_tail] after a keyword and [:?\s*]. *)
Lemma money_search (w text v : string) :
  search (app (lit w) (app [opt ":"; star is_space] money_tail)) text = Some v ->
  exists c v', v = String c v' /\ amount_class c = true /\
    all_chars (fun c => is_digit c || Ascii.eqb c "," || Ascii.eqb c ".") v = true.
Proof.
  intros H. destruct (search_match_at _ _ _ H) as (s' & Hm).
  assert (Hall : all_chars (fun c => is_digit c || Ascii.eqb c "," || Ascii.eqb c ".") v = true).
  { apply (match_at_chars _ _ _ _ Hm).
    intros a Ha Hc c Hcl. apply in_app_or in Ha. destruct Ha as [Ha|Ha].
    - pose proof (proj1 (Forall_forall _ _) (lit_no_cap w) a Ha) as Hn. cbn beta in Hn.
      rewrite Hn in Hc. discriminate.
    - cbn in Ha. repeat destruct Ha as [<-|Ha]; try discriminate Hc; try destruct Ha;
        cbn in Hcl |- *.
      + unfold amount_class in Hcl. apply orb_prop in Hcl as [->| ->]; [reflexivity|].
        rewrite orb_true_r. reflexivity.
      + rewrite (ci_char_dot _ Hcl). reflexivity.
      + rewrite Hcl. reflexivity. }
  assert (Hpre : Forall (fun a => a_cap a = false) (app (lit w) [opt ":"; star is_space; opt "$"])).
  { apply Forall_app. split; [apply lit_no_cap|repeat constructor]. }
  assert (Heq : app (lit w) (app [opt ":"; star is_space] money_tail) =
                app (app (lit w) [opt ":"; star is_space; opt "$"])
                  [mk_atom amount_class Plus true; mk_atom (ci_char ".") Opt true;
                   mk_atom is_digit Star true]).
  { rewrite <- app_assoc. reflexivity. }
  rewrite Heq in Hm. destruct (match_at_skip _ _ Hpre _ _ Hm) as (s'' & Hm').
  destruct (match_at_plus_cap (mk_atom amount_class Plus true) _ _ _ eq_refl eq_refl Hm') as (c & v' & -> & Hc).
  exists c, v'. split; [reflexivity|]. split; [exact Hc|exact Hall].
Qed.

(** ** Field extractors *)

Lemma lookup_set_field (k k' : string) (v : option string) (f : fields) :
  lookup k (set_field k' v f) =
  match lookup k f with
  | Some x => Some x
  | None => if String.eqb k k' then v else None
  end.
Proof.
  destruct v as [v|]; cbn [set_field].
  - induction f as [|[k1 v1] f IH]; cbn [lookup app]; [destruct (String.eqb k k'); reflexivity|].
    destruct (String.eqb k k1); [reflexivity|exact IH].
  - destruct (lookup k f); [reflexivity|]. destruct (String.eqb k k'); reflexivity.
Qed.

Lemma option_match_id (o : option string) :
  match o with Some x => Some x | None => None end = o.
Proof. destruct o; reflexivity. Qed.

Lemma id_search (w : string) (cls : ascii -> bool) (text v : string) :
  search (app (lit w) [star is_space; opt "#"; opt ":"; star is_space; mk_atom cls Plus true]) text
    = Some v ->
  exists c v', v = String c v' /\ all_chars cls v = true.
Proof.
  intros H. destruct (search_match_at _ _ _ H) as (s' & Hm).
  assert (Hall : all_chars cls v = true).
  { apply (match_at_chars _ _ _ _ Hm).
    intros a Ha Hc c Hcl. apply in_app_or in Ha. destruct Ha as [Ha|Ha].
    - pose proof (proj1 (Forall_forall _ _) (lit_no_cap w) a Ha) as Hn. cbn beta in Hn.
      rewrite Hn in Hc. discriminate.
    - cbn in Ha. repeat destruct Ha as [<-|Ha]; try discriminate Hc; try destruct Ha.
      exact Hcl. }
  assert (Hpre : Forall (fun a => a_cap a = false)
                   (app (lit w) [star is_space; opt "#"; opt ":"; star is_space])).
  { apply Forall_app. split; [apply lit_no_cap|repeat constructor]. }
  assert (Heq : app (lit w) [star is_space; opt "#"; opt ":"; star is_space; mk_atom cls Plus true] =
                app (app (lit w) [star is_space; opt "#"; opt ":"; star is_space])
                  [mk_atom cls Plus true]).
  { rewrite <- app_assoc. reflexivity. }
  rewrite Heq in Hm. destruct (match_at_skip _ _ Hpre _ _ Hm) as (s'' & Hm').
  destruct (match_at_plus_cap (mk_atom cls Plus true) _ _ _ eq_refl eq_refl Hm')
    as (c & v' & -> & _).
  exists c, v'. split; [reflexivity|exact Hall].
Qed.

(** The [total_amount], [balance], [amount] and [total_sales] fields, for
    every document type, start with a digit or a comma and hold only digits,
    commas and dots. *)
Theorem money_fields_numeric (text doc_type k v : string)
    (Hk : In k ["total_amount"; "balance"; "amount"; "total_sales"])
    (H : lookup k (extract_structured_fields text doc_type) = Some v) :
  exists c v', v = String c v' /\ amount_class c = true /\
    all_chars (fun c => is_digit c || Ascii.eqb c "," || Ascii.eqb c ".") v = true.
Proof.
  unfold extract_structured_fields in H.
  destruct (String.eqb doc_type "invoice");
    [|destruct (String.eqb doc_type "bank_statement");
      [|destruct (String.eqb doc_type "check");
        [|destruct (String.eqb doc_type "sales_report");
          [|destruct (String.eqb doc_type "receipt")]]]];
    unfold extract_invoice_fields, extract_bank_statement_fields, extract_check_fields,
      extract_sales_report_fields, extract_receipt_fields in H;
    rewrite ?lookup_set_field in H;
    try destruct (split_on "010" text);
    repeat destruct Hk as [<-|Hk]; try destruct Hk;
    cbn [lookup String.eqb Ascii.eqb Bool.eqb andb] in H; try discriminate H;
    rewrite ?option_match_id in H;
    unfold total_re, balance_re, amount_re in H; exact (money_search _ _ _ H).
Qed.

(** The [invoice_number], [account_number] and [check_number] fields, for
    every document type, are non-empty and drawn from their patterns'
    classes. *)
Theorem identifier_fields_shape (text doc_type v : string) :
  (lookup "invoice_number" (extract_structured_fields text doc_type) = Some v ->
   v <> "" /\ all_chars id_class v = true) /\
  (lookup "account_number" (extract_structured_fields text doc_type) = Some v ->
   v <> "" /\ all_chars account_class v = true) /\
  (lookup "check_number" (extract_structured_fields text doc_type) = Some v ->
   v <> "" /\ all_chars is_digit v = true).
Proof.
  unfold extract_structured_fields.
  split; [|split]; intros H;
  (destruct (String.eqb doc_type "invoice");
    [|destruct (String.eqb doc_type "bank_statement");
      [|destruct (String.eqb doc_type "check");
        [|destruct (String.eqb doc_type "sales_report");
          [|destruct (String.eqb doc_type "receipt")]]]]);
    unfold extract_invoice_fields, extract_bank_statement_fields, extract_check_fields,
      extract_sales_report_fields, extract_receipt_fields in H;
    rewrite ?lookup_set_field in H;
    try destruct (split_on "010" text);
    cbn [lookup String.eqb Ascii.eqb Bool.eqb andb] in H; try discriminate H;
    rewrite ?option_match_id in H;
    unfold invoice_re, account_re, check_re in H;
    destruct (id_search _ _ _ _ H) as (c & v' & -> & Ha); (split; [discriminate|exact Ha]).
Qed.

(** ** Witnesses *)


Lemma run_reconciliation_no_failure_records_witness :
  w_outcomes (mk_world demo_db [] []) = [] /\
  exists r s w', run_reconciliation [demo_statement] [demo_outgoing] [] (mk_world demo_db [] [])
                   = (Ok (r, s), w') /\
    reconciliation_records (w_db w') =
      app (reconciliation_records demo_db) (map reconciliation_data (exact_matches r)) /\
    w_stdout w' = [].
Proof.
  split; [reflexivity|].
  exact (run_reconciliation_no_failure_records [demo_statement] [demo_outgoing] []
           (mk_world demo_db [] []) eq_refl).
Defined.

Lemma run_then_unreconciled_excludes_matches_witness :
  w_outcomes (mk_world demo_db [] []) = [] /\
  exists r s w', run_reconciliation [demo_statement] [demo_outgoing] [] (mk_world demo_db [] [])
                   = (Ok (r, s), w') /\
    exists og ic ss,
      get_unreconciled_transactions (fun _ => None) (fun _ => None) (fun _ => None) None w'
        = (Ok (og, ic, ss), w') /\
      Forall (fun m =>
        ~ In (st_id (m_statement_transaction m)) (map rs_id ss) /\
        (m_business_transaction_type m = "outgoing" ->
           ~ In (bt_id (m_business_transaction m)) (map rb_id og)) /\
        (m_business_transaction_type m = "incoming" ->
           ~ In (bt_id (m_business_transaction m)) (map rb_id ic))) (exact_matches r).
Proof.
  split; [reflexivity|].
  exact (run_then_unreconciled_excludes_matches (fun _ => None) (fun _ => None) (fun _ => None)
           None [demo_statement] [demo_outgoing] [] (mk_world demo_db [] []) eq_refl).
Defined.

Lemma amount_find_matches_sound_witness :
  exists l, amount_find_matches default_amount_tolerance [demo_statement] [demo_outgoing] "outgoing"
              = Ok l /\
    Sorted (fun x y => cand_conf y <= cand_conf x) l /\ length l = 1%nat.
Proof.
  destruct (amount_find_matches default_amount_tolerance [demo_statement] [demo_outgoing] "outgoing")
    as [l|e] eqn:E; [|vm_compute in E; discriminate E].
  exists l. split; [reflexivity|]. split.
  - exact (proj1 (amount_find_matches_sound _ _ _ _ _ E)).
  - vm_compute in E. injection E as <-. reflexivity.
Defined.

Lemma amount_find_matches_complete_witness :
  exists l, amount_find_matches default_amount_tolerance [demo_statement] [demo_outgoing] "outgoing"
              = Ok l /\ exists c, In (demo_statement, demo_outgoing, c) l.
Proof.
  destruct (amount_find_matches default_amount_tolerance [demo_statement] [demo_outgoing] "outgoing")
    as [l|e] eqn:E; [|vm_compute in E; discriminate E].
  exists l. split; [reflexivity|].
  apply (amount_find_matches_complete _ _ _ _ _ E demo_statement demo_outgoing (-425) 425
           (or_introl eq_refl) (or_introl eq_refl) eq_refl eq_refl).
  - apply Qle_bool_iff. reflexivity.
  - intros _. reflexivity.
  - intros H. discriminate H.
Defined.

Lemma amount_find_matches_raises_witness :
  exists e, amount_find_matches default_amount_tolerance [demo_zero_statement] [demo_zero_outgoing]
              "outgoing" = Err e.
Proof.
  apply amount_find_matches_raises. right. right.
  exists demo_zero_statement, demo_zero_outgoing, 0, 0.
  split; [left; reflexivity|]. split; [left; reflexivity|].
  split; [reflexivity|]. split; [reflexivity|]. split; [reflexivity|].
  split; [apply Qle_bool_iff; reflexivity|]. split; [apply Qle_bool_iff; reflexivity|].
  split; [intros _; reflexivity|intros H; discriminate H].
Defined.

Lemma amount_find_matches_confidence_range_witness :
  exists l, amount_find_matches default_amount_tolerance [demo_statement] [demo_outgoing] "outgoing"
              = Ok l /\ Forall (fun x => 0 <= cand_conf x <= 1) l.
Proof.
  destruct (amount_find_matches default_amount_tolerance [demo_statement] [demo_outgoing] "outgoing")
    as [l|e] eqn:E; [|vm_compute in E; discriminate E].
  exists l. split; [reflexivity|].
  apply (amount_find_matches_confidence_range _ _ _ _ _ E).
  intros b ba [<-|[]] H. cbn in H. injection H as <-. apply Qle_bool_iff. reflexivity.
Defined.

Lemma date_find_matches_sound_witness :
  exists l, date_find_matches default_date_tolerance_days [demo_statement] [demo_outgoing] "outgoing"
              = Ok l /\
    Sorted (fun x y => cand_conf y <= cand_conf x) l /\ length l = 1%nat.
Proof.
  destruct (date_find_matches default_date_tolerance_days [demo_statement] [demo_outgoing] "outgoing")
    as [l|e] eqn:E; [|vm_compute in E; discriminate E].
  exists l. split; [reflexivity|]. split.
  - exact (proj1 (date_find_matches_sound _ _ _ _ _ E)).
  - vm_compute in E. injection E as <-. reflexivity.
Defined.

Lemma date_find_matches_total_complete_witness :
  exists l, date_find_matches default_date_tolerance_days [demo_statement] [demo_outgoing] "outgoing"
              = Ok l /\ exists c, In (demo_statement, demo_outgoing, c) l.
Proof.
  destruct (date_find_matches_total_complete default_date_tolerance_days [demo_statement]
              [demo_outgoing] "outgoing") as (l & E & H).
  - intros s [<-|[]]. discriminate.
  - exists l. split; [exact E|].
    apply (H demo_statement demo_outgoing 19737%Z 19737%Z (or_introl eq_refl) (or_introl eq_refl)
             eq_refl eq_refl).
    + vm_compute. discriminate.
    + intros _. reflexivity.
    + intros Hi. discriminate Hi.
Defined.

Lemma date_find_matches_null_type_raises_witness :
  exists e, date_find_matches default_date_tolerance_days [demo_untyped_statement] [demo_outgoing]
              "outgoing" = Err e.
Proof.
  apply (date_find_matches_null_type_raises default_date_tolerance_days [demo_untyped_statement]
           [demo_outgoing] "outgoing" demo_untyped_statement demo_outgoing
           19738%Z 19737%Z (or_introl eq_refl) (or_introl eq_refl) (or_introl eq_refl)
           eq_refl eq_refl).
  - vm_compute. discriminate.
  - reflexivity.
Defined.

Lemma fuzzy_is_match_confidence_range_witness :
  0 <= snd (fuzzy_is_match (fun _ _ => 9 # 10) default_similarity_threshold
              demo_statement demo_outgoing "outgoing") <= 1.
Proof.
  apply fuzzy_is_match_confidence_range.
  intros _ _. split; apply Qle_bool_iff; reflexivity.
Defined.


Lemma classify_document_advanced_case_insensitive_witness :
  classify_document_advanced "INVOICE TOTAL AMOUNT" =
  classify_document_advanced "Invoice total amount".
Proof.
  apply classify_document_advanced_case_insensitive. vm_compute. reflexivity.
Defined.

Lemma money_fields_numeric_witness :
  exists c v', "955.00" = String c v' /\ amount_class c = true /\
    all_chars (fun c => is_digit c || Ascii.eqb c "," || Ascii.eqb c ".") "955.00" = true.
Proof.
  apply (money_fields_numeric sample_invoice "invoice" "total_amount").
  - left. reflexivity.
  - vm_compute. reflexivity.
Defined.

Lemma identifier_fields_shape_witness :
  "Invoice" <> "" /\ all_chars id_class "Invoice" = true.
Proof.
  apply (proj1 (identifier_fields_shape sample_invoice "invoice" "Invoice")).
  vm_compute. reflexivity.
Defined.

(* ------------------------------------------------------------------ *)
(** ** [_extract_financial_data] and [process_document] *)

Lemma run_len_le (p : ascii -> bool) (s : string) : (run_len p s <= String.length s)%nat.
Proof. induction s as [|c s IH]; cbn; [lia|]. destruct (p c); lia. Qed.

Lemma str_take_drop (k : nat) (s : string) : str_take k s ++ str_drop k s = s.
Proof.
  revert s. induction k as [|k IH]; intros [|c s]; cbn; try reflexivity. rewrite IH. reflexivity.
Qed.

Lemma str_take_length (k : nat) (s : string) :
  (k <= String.length s)%nat -> String.length (str_take k s) = k.
Proof.
  revert s. induction k as [|k IH]; intros [|c s] H; cbn in *; try lia. rewrite IH; lia.
Qed.

Lemma str_drop_app (a b : string) : str_drop (String.length a) (a ++ b) = b.
Proof. induction a as [|c a IH]; cbn; [reflexivity|exact IH]. Qed.

Lemma contains_prefix (g r : string) : contains (g ++ r) g = true.
Proof.
  pose proof (contains_app_mid "" g r g) as H. cbn in H. apply H.
  destruct g as [|c g]; cbn; [reflexivity|].
  rewrite Ascii.eqb_refl. cbn.
  assert (Hp : forall t, prefixb t t = true).
  { induction t as [|d t IH]; cbn; [reflexivity|]. rewrite Ascii.eqb_refl. exact IH. }
  rewrite Hp. reflexivity.
Qed.

Lemma contains_app_r (a b kw : string) : contains b kw = true -> contains (a ++ b) kw = true.
Proof.
  intros H. pose proof (contains_app_mid a b "" kw H) as H'. rewrite str_app_nil_r in H'. exact H'.
Qed.

Lemma match_seq_sound (items : list pitem) :
  forall prev s g, match_seq items prev s = Some g -> (exists r, s = g ++ r) /\ shape items g.
Proof.
  induction items as [|it items IH]; intros prev s g H.
  - cbn in H. injection H as <-. split; [exists s; reflexivity|reflexivity].
  - destruct it as [p lo hi|]; cbn [match_seq] in H.
    + apply greedy_spec in H as [k [Hk Hf]].
      destruct (match_seq items (last_char (str_take k s) prev) (str_drop k s)) as [g'|] eqn:E;
        [|discriminate].
      injection Hf as <-. apply IH in E as [[r Hr] Hsh].
      assert (Hkn : (k <= run_len p s)%nat) by (destruct hi; lia).
      pose proof (run_len_le p s) as Hl.
      split.
      * exists r. rewrite str_app_assoc, <- Hr. symmetry. apply str_take_drop.
      * cbn [shape]. exists (str_take k s), g'.
        rewrite str_take_length by lia.
        split; [reflexivity|]. split; [apply all_chars_take_run; exact Hkn|].
        split; [lia|]. split; [destruct hi; lia|exact Hsh].
    + destruct (at_boundary prev s); [|discriminate]. apply IH in H. exact H.
Qed.

Lemma match_alt_sound (alts : list (list pitem)) :
  forall prev s g, match_alt alts prev s = Some g ->
  (exists r, s = g ++ r) /\ exists a, In a alts /\ shape a g.
Proof.
  induction alts as [|a alts IH]; intros prev s g H; cbn in H; [discriminate|].
  destruct (match_seq a prev s) as [g'|] eqn:E.
  - injection H as <-. apply match_seq_sound in E as [Hr Hs].
    split; [exact Hr|]. exists a. split; [left; reflexivity|exact Hs].
  - apply IH in H as [Hr [a' [Ha Hs]]]. split; [exact Hr|]. exists a'. split; [right; exact Ha|exact Hs].
Qed.

Lemma findall_go_sound (alts : list (list pitem)) :
  forall fuel prev s g, In g (findall_go fuel alts prev s) ->
  contains s g = true /\ exists a, In a alts /\ shape a g.
Proof.
  induction fuel as [|fuel IH]; intros prev s g H; cbn in H; [contradiction|].
  destruct (match_alt alts prev s) as [g0|] eqn:E.
  - pose proof (match_alt_sound alts prev s g0 E) as [[r Hr] Hsh].
    destruct (String.length g0 =? 0)%nat eqn:El.
    + destruct H as [<-|H].
      * split; [rewrite Hr; apply contains_prefix|exact Hsh].
      * destruct s as [|c s']; [contradiction|].
        apply IH in H as [Hc Hg]. split; [|exact Hg].
        apply (contains_app_r (String c "") s'). exact Hc.
    + destruct H as [<-|H].
      * split; [rewrite Hr; apply contains_prefix|exact Hsh].
      * apply IH in H as [Hc Hg]. split; [|exact Hg].
        rewrite Hr in Hc |- *. rewrite str_drop_app in Hc. apply contains_app_r. exact Hc.
  - destruct s as [|c s']; [contradiction|].
    apply IH in H as [Hc Hg]. split; [|exact Hg].
    apply (contains_app_r (String c "") s'). exact Hc.
Qed.

Lemma findall_sound (alts : list (list pitem)) (s g : string) :
  In g (findall alts s) ->
  contains s g = true /\ exists a, In a alts /\ shape a g.
Proof. apply findall_go_sound. Qed.

Ltac efd_cases text :=
  unfold extract_financial_data;
  destruct (is_emptyb text || prefixb "[" text); [cbn; discriminate|];
  remember (findall amounts_pattern text) as A eqn:EA;
  remember (findall dates_pattern text) as Dt eqn:ED;
  remember (findall account_numbers_pattern text) as Ac eqn:EC;
  destruct A as [|a0 A']; [|destruct (find_main_total text (rev (a0 :: A'))) as [m|] eqn:EM];
  destruct Dt; destruct Ac; cbn.

Lemma efd_amounts (text : string) (v : fvalue) :
  flookup "amounts_found" (extract_financial_data text) = Some v ->
  v = FList (findall amounts_pattern text) /\ findall amounts_pattern text <> [] /\
  flookup "total_amounts" (extract_financial_data text) =
    Some (FStr (str_of_nat (length (findall amounts_pattern text)))).
Proof.
  efd_cases text; intros H; try discriminate; injection H as <-;
    (split; [reflexivity|split; [discriminate|reflexivity]]).
Qed.

Lemma efd_main_total (text : string) (v : fvalue) :
  flookup "main_total" (extract_financial_data text) = Some v ->
  exists a, v = FStr a /\ find_main_total text (rev (findall amounts_pattern text)) = Some a /\
  flookup "amounts_found" (extract_financial_data text) = Some (FList (findall amounts_pattern text)).
Proof.
  efd_cases text; intros H; try discriminate;
    (injection H as <-; exists m; split; [reflexivity|split; [reflexivity|reflexivity]]).
Qed.

Lemma efd_dates (text : string) (v : fvalue) :
  flookup "dates_found" (extract_financial_data text) = Some v ->
  v = FList (findall dates_pattern text).
Proof. efd_cases text; intros H; try discriminate; (injection H as <-; reflexivity). Qed.

Lemma efd_accounts (text : string) (v : fvalue) :
  flookup "account_numbers" (extract_financial_data text) = Some v ->
  v = FList (findall account_numbers_pattern text).
Proof. efd_cases text; intros H; try discriminate; (injection H as <-; reflexivity). Qed.

Lemma chr_one (c : ascii) (x : string) :
  all_chars (chr c) x = true -> (1 <= String.length x)%nat -> (String.length x <= 1)%nat ->
  x = String c EmptyString.
Proof.
  intros H H1 H2. destruct x as [|d [|e x]]; cbn in *; try lia.
  rewrite andb_true_r in H. unfold chr in H. apply Ascii.eqb_eq in H. subst. reflexivity.
Qed.

Lemma chr_opt (c : ascii) (x : string) :
  all_chars (chr c) x = true -> (String.length x <= 1)%nat ->
  x = EmptyString \/ x = String c EmptyString.
Proof.
  intros H H2. destruct x as [|d x]; [left; reflexivity|right].
  apply chr_one; [exact H|cbn; lia|exact H2].
Qed.

Lemma slash_dash_one (x : string) :
  all_chars slash_dash x = true -> (1 <= String.length x)%nat -> (String.length x <= 1)%nat ->
  x = "/" \/ x = "-".
Proof.
  intros H H1 H2. destruct x as [|d [|e x]]; cbn in *; try lia.
  rewrite andb_true_r in H. unfold slash_dash in H. apply orb_true_iff in H as [H|H];
    apply Ascii.eqb_eq in H; subst; [left|right]; reflexivity.
Qed.

Lemma nonempty_len (x : string) : (1 <= String.length x)%nat -> x <> EmptyString.
Proof. destruct x; cbn; [lia|discriminate]. Qed.

Lemma amounts_shape (g : string) :
  (exists a, In a amounts_pattern /\ shape a g) -> amount_shape g.
Proof.
  intros [a [[<-|[]] Hs]]. cbn [shape] in Hs.
  destruct Hs as (x1 & y1 & -> & H1 & L1 & U1 & x2 & y2 & -> & H2 & L2 & _ & x3 & y3 & -> & H3 & _ & U3 & x4 & y4 & -> & H4 & _ & _ & ->).
  rewrite (chr_one _ _ H1 L1 U1). exists x2, x3, x4. rewrite str_app_nil_r.
  split; [reflexivity|]. split; [apply nonempty_len; exact L2|]. split; [exact H2|].
  split; [exact (chr_opt _ _ H3 U3)|exact H4].
Qed.

Lemma accounts_shape (g : string) :
  (exists a, In a account_numbers_pattern /\ shape a g) -> account_number_shape g.
Proof.
  intros [a [[<-|[]] Hs]]. cbn [shape] in Hs.
  destruct Hs as (x1 & y1 & -> & H1 & L1 & _ & x2 & y2 & -> & H2 & _ & U2 & x3 & y3 & -> & H3 & L3 & U3 & ->).
  exists x1, x2, x3. rewrite str_app_nil_r.
  split; [reflexivity|]. split; [apply nonempty_len; exact L1|]. split; [exact H1|].
  split; [exact (chr_opt _ _ H2 U2)|]. split; [exact H3|lia].
Qed.

Lemma dates_shape (g : string) :
  (exists a, In a dates_pattern /\ shape a g) -> numeric_date_shape g \/ word_date_shape g.
Proof.
  intros [a [[<-|[<-|[]]] Hs]]; cbn [shape] in Hs.
  - left. destruct Hs as (x1 & y1 & -> & H1 & L1 & U1 & x2 & y2 & -> & H2 & L2 & U2 & x3 & y3 & -> & H3 & L3 & U3 & x4 & y4 & -> & H4 & L4 & U4 & x5 & y5 & -> & H5 & L5 & U5 & ->).
    exists x1, x2, x3, x4, x5. rewrite str_app_nil_r.
    split; [reflexivity|]. split; [exact H1|]. split; [lia|].
    split; [exact (slash_dash_one _ H2 L2 U2)|]. split; [exact H3|]. split; [lia|].
    split; [exact (slash_dash_one _ H4 L4 U4)|]. split; [exact H5|lia].
  - right. destruct Hs as (x1 & y1 & -> & H1 & L1 & _ & x2 & y2 & -> & H2 & L2 & U2 & x3 & y3 & -> & H3 & L3 & U3 & x4 & y4 & -> & H4 & L4 & U4 & x5 & y5 & -> & H5 & L5 & U5 & x6 & y6 & -> & H6 & L6 & U6 & ->).
    rewrite (chr_one _ _ H2 L2 U2), (chr_one _ _ H4 L4 U4), (chr_one _ _ H5 L5 U5).
    exists x1, x3, x6. rewrite str_app_nil_r.
    split; [reflexivity|]. split; [apply nonempty_len; exact L1|]. split; [exact H1|].
    split; [exact H3|]. split; [lia|]. split; [exact H6|lia].
Qed.

Lemma lower_length (t : string) : String.length (lower t) = String.length t.
Proof. induction t as [|c t IH]; cbn; [reflexivity|rewrite IH; reflexivity]. Qed.

Lemma find_main_total_spec (text : string) :
  forall l a, find_main_total text l = Some a ->
  exists l1 l2, l = app l1 (a :: l2) /\ contains (total_window text a) "total" = true /\
    Forall (fun b => contains (total_window text b) "total" = false) l1.
Proof.
  induction l as [|b l IH]; intros a H; cbn in H; [discriminate|].
  destruct (contains (total_window text b) "total") eqn:E.
  - injection H as <-. exists [], l. split; [reflexivity|split; [exact E|constructor]].
  - apply IH in H as [l1 [l2 [-> [Ha Hf]]]]. exists (b :: l1), l2.
    split; [reflexivity|split; [exact Ha|constructor; [exact E|exact Hf]]].
Qed.

Lemma total_window_early (text a : string) (i : nat) :
  (40 <= String.length text)%nat -> str_find (lower text) (lower a) = Some i -> (i < 20)%nat ->
  total_window text a = EmptyString.
Proof.
  intros Hlen Hi Hlt. unfold total_window, py_find. rewrite Hi. unfold py_slice.
  rewrite lower_length.
  replace (Z.of_nat i - 20 <? 0)%Z with true by (symmetry; apply Z.ltb_lt; lia).
  replace (Z.of_nat i + 20 <? 0)%Z with false by (symmetry; apply Z.ltb_ge; lia).
  match goal with |- str_take (Z.to_nat ?e) _ = _ => replace (Z.to_nat e) with 0%nat by lia end.
  reflexivity.
Qed.

Lemma classify_unknown (text : string) :
  classify_document_advanced text = "unknown" <-> (is_emptyb text || prefixb "[" text) = true.
Proof.
  unfold classify_document_advanced.
  destruct (is_emptyb text || prefixb "[" text); [split; reflexivity|].
  split; [|discriminate].
  repeat match goal with |- context [if ?b then _ else _] => destruct b end; discriminate.
Qed.

(** [process_document] on a file whose extracted text is empty or starts
    with [[] (the texts of an unsupported extension and of every failing
    extractor): when the file size can be read, the status is ['success'],
    the document type is ['unknown'] exactly for such texts, and then the
    extracted fields and the financial data are empty. *)
Theorem process_document_failed_extraction
  (ocr pdf txt : string -> extraction) (elapsed : Q) (path_exists : string -> bool)
  (stat_size : string -> result nat) (path : string)
  (Hsz : path_exists path = true -> exists n, stat_size path = Ok n) :
  let ex := extract_text_advanced ocr pdf txt path in
  let m := process_document ocr pdf txt elapsed path_exists stat_size path in
  processing_status m = "success" /\ text_content m = ex_text ex /\
  (document_type m = "unknown" <-> (is_emptyb (ex_text ex) || prefixb "[" (ex_text ex)) = true) /\
  ((is_emptyb (ex_text ex) || prefixb "[" (ex_text ex)) = true ->
   extracted_fields m = [] /\ financial_data m = []).
Proof.
  cbv zeta. unfold process_document.
  assert (Hok : exists n, (if path_exists path then stat_size path else Ok 0%nat) = Ok n).
  { destruct (path_exists path); [apply Hsz; reflexivity|exists 0%nat; reflexivity]. }
  destruct Hok as [n Hn]. rewrite Hn. cbn [processing_status text_content document_type
    extracted_fields financial_data].
  split; [reflexivity|]. split; [reflexivity|]. split; [apply classify_unknown|].
  intros Hb. pose proof Hb as Hc. apply classify_unknown in Hc. rewrite Hc.
  split; [reflexivity|]. unfold extract_financial_data. rewrite Hb. reflexivity.
Qed.


Lemma process_document_failed_extraction_witness :
  (is_emptyb (ex_text (extract_text_advanced dummy_extraction dummy_extraction dummy_extraction "report.docx"))
   || prefixb "[" (ex_text (extract_text_advanced dummy_extraction dummy_extraction dummy_extraction "report.docx"))) = true /\
  let ex := extract_text_advanced dummy_extraction dummy_extraction dummy_extraction "report.docx" in
  let m := process_document dummy_extraction dummy_extraction dummy_extraction 0
             (fun _ => false) (fun _ => Ok 0%nat) "report.docx" in
  processing_status m = "success" /\ text_content m = ex_text ex /\
  (document_type m = "unknown" <-> (is_emptyb (ex_text ex) || prefixb "[" (ex_text ex)) = true) /\
  ((is_emptyb (ex_text ex) || prefixb "[" (ex_text ex)) = true ->
   extracted_fields m = [] /\ financial_data m = []).
Proof.
  split; [vm_compute; reflexivity|].
  apply (process_document_failed_extraction dummy_extraction dummy_extraction dummy_extraction 0
           (fun _ => false) (fun _ => Ok 0%nat) "report.docx").
  intros H; discriminate.
Defined.

(** The [amounts_found] of [_extract_financial_data] is a non-empty list of
    substrings of the text, each a [$] followed by digits and commas, an
    optional dot and digits; [total_amounts] is its length in decimal. *)
Theorem financial_data_amounts_found (text : string) (l : list string)
  (H : flookup "amounts_found" (extract_financial_data text) = Some (FList l)) :
  l <> [] /\
  flookup "total_amounts" (extract_financial_data text) = Some (FStr (str_of_nat (length l))) /\
  Forall (fun a => contains text a = true /\ amount_shape a) l.
Proof.
  apply efd_amounts in H as [Hv [Hne Ht]]. injection Hv as ->.
  split; [exact Hne|]. split; [exact Ht|].
  apply Forall_forall. intros a Ha. apply findall_sound in Ha as [Hc Hs].
  split; [exact Hc|apply amounts_shape; exact Hs].
Qed.

Lemma financial_data_amounts_found_witness :
  flookup "amounts_found" (extract_financial_data sample_invoice) =
    Some (FList ["$8.50"; "$425.00"; "$955.00"; "$59.69"; "$1,014.69"]) /\
  (["$8.50"; "$425.00"; "$955.00"; "$59.69"; "$1,014.69"] <> [] /\
   flookup "total_amounts" (extract_financial_data sample_invoice) =
     Some (FStr (str_of_nat (length ["$8.50"; "$425.00"; "$955.00"; "$59.69"; "$1,014.69"]))) /\
   Forall (fun a => contains sample_invoice a = true /\ amount_shape a)
     ["$8.50"; "$425.00"; "$955.00"; "$59.69"; "$1,014.69"]).
Proof.
  assert (E : flookup "amounts_found" (extract_financial_data sample_invoice) =
    Some (FList ["$8.50"; "$425.00"; "$955.00"; "$59.69"; "$1,014.69"])) by (vm_compute; reflexivity).
  split; [exact E|]. apply (financial_data_amounts_found sample_invoice _ E).
Defined.

(** The [main_total] of [_extract_financial_data] is the last amount found
    whose 40-character window around its first occurrence contains
    ['total']. *)
Theorem financial_data_main_total_last (text a : string)
  (H : flookup "main_total" (extract_financial_data text) = Some (FStr a)) :
  exists l1 l2,
    flookup "amounts_found" (extract_financial_data text) = Some (FList (app l1 (a :: l2))) /\
    contains (total_window text a) "total" = true /\
    Forall (fun b => contains (total_window text b) "total" = false) l2.
Proof.
  apply efd_main_total in H as [a' [Ha [Hm Hf]]]. injection Ha as <-.
  apply find_main_total_spec in Hm as [l1 [l2 [Hr [Hw Hn]]]].
  exists (rev l2), (rev l1). split; [|split; [exact Hw|apply Forall_rev; exact Hn]].
  rewrite Hf. f_equal. f_equal.
  rewrite <- (rev_involutive (findall amounts_pattern text)), Hr.
  rewrite rev_app_distr. cbn. rewrite <- app_assoc. reflexivity.
Qed.

Lemma financial_data_main_total_last_witness :
  flookup "main_total" (extract_financial_data sample_invoice) = Some (FStr "$1,014.69") /\
  exists l1 l2,
    flookup "amounts_found" (extract_financial_data sample_invoice) =
      Some (FList (app l1 ("$1,014.69" :: l2))) /\
    contains (total_window sample_invoice "$1,014.69") "total" = true /\
    Forall (fun b => contains (total_window sample_invoice b) "total" = false) l2.
Proof.
  assert (E : flookup "main_total" (extract_financial_data sample_invoice) = Some (FStr "$1,014.69"))
    by (vm_compute; reflexivity).
  split; [exact E|]. apply (financial_data_main_total_last sample_invoice _ E).
Defined.

(** In a text of at least 40 characters, an amount whose first occurrence
    starts before index 20 is never the [main_total]: the slice start
    [find - 20] is negative and counts from the end of the text, so the
    window is empty. *)
Theorem financial_data_main_total_skips_early_amount (text a : string) (i : nat)
  (Hlen : (40 <= String.length text)%nat)
  (Hi : str_find (lower text) (lower a) = Some i) (Hlt : (i < 20)%nat) :
  flookup "main_total" (extract_financial_data text) <> Some (FStr a).
Proof.
  intros H. apply efd_main_total in H as [a' [Ha [Hm _]]]. injection Ha as <-.
  apply find_main_total_spec in Hm as [_ [_ [_ [Hw _]]]].
  rewrite (total_window_early text a i Hlen Hi Hlt) in Hw. discriminate.
Qed.


Lemma financial_data_main_total_skips_early_amount_witness :
  flookup "amounts_found" (extract_financial_data early_total_text) = Some (FList ["$5.00"]) /\
  flookup "main_total" (extract_financial_data early_total_text) <> Some (FStr "$5.00").
Proof.
  split; [vm_compute; reflexivity|].
  apply (financial_data_main_total_skips_early_amount early_total_text "$5.00" 7);
    [vm_compute; lia|vm_compute; reflexivity|lia].
Defined.

(** Every entry of [dates_found] is a substring of the text of the form
    [d/d/dd] (one or two, one or two, two to four digits, with [/] or [-])
    or [word d, dddd]. *)
Theorem financial_data_dates_found (text : string) (l : list string)
  (H : flookup "dates_found" (extract_financial_data text) = Some (FList l)) :
  Forall (fun d => contains text d = true /\ (numeric_date_shape d \/ word_date_shape d)) l.
Proof.
  apply efd_dates in H. injection H as ->.
  apply Forall_forall. intros d Hd. apply findall_sound in Hd as [Hc Hs].
  split; [exact Hc|apply dates_shape; exact Hs].
Qed.

Lemma financial_data_dates_found_witness :
  flookup "dates_found" (extract_financial_data sample_invoice) =
    Some (FList ["January 15, 2024"; "February 14, 2024"]) /\
  Forall (fun d => contains sample_invoice d = true /\ (numeric_date_shape d \/ word_date_shape d))
    ["January 15, 2024"; "February 14, 2024"].
Proof.
  assert (E : flookup "dates_found" (extract_financial_data sample_invoice) =
    Some (FList ["January 15, 2024"; "February 14, 2024"])) by (vm_compute; reflexivity).
  split; [exact E|]. apply (financial_data_dates_found sample_invoice _ E).
Defined.

(** Every entry of [account_numbers] is a substring of the text made of
    asterisks, an optional [-] and exactly four digits. *)
Theorem financial_data_account_numbers (text : string) (l : list string)
  (H : flookup "account_numbers" (extract_financial_data text) = Some (FList l)) :
  Forall (fun a => contains text a = true /\ account_number_shape a) l.
Proof.
  apply efd_accounts in H. injection H as ->.
  apply Forall_forall. intros a Ha. apply findall_sound in Ha as [Hc Hs].
  split; [exact Hc|apply accounts_shape; exact Hs].
Qed.


Lemma financial_data_account_numbers_witness :
  flookup "account_numbers" (extract_financial_data statement_excerpt) =
    Some (FList ["****-4821"; "**7730"]) /\
  Forall (fun a => contains statement_excerpt a = true /\ account_number_shape a)
    ["****-4821"; "**7730"].
Proof.
  assert (E : flookup "account_numbers" (extract_financial_data statement_excerpt) =
    Some (FList ["****-4821"; "**7730"])) by (vm_compute; reflexivity).
  split; [exact E|]. apply (financial_data_account_numbers statement_excerpt _ E).
Defined.
